(** * Majestic Equity Data: a shallow embedding of [utils.py]

    The class [MagesticEquityData] loads two JSON datasets per ticker with
    pandas, joins them on their date index, filters the joined table between
    two dates and assembles multi-ticker price histories.

    The embedding keeps the shape of the source:
    - Python exceptions are an inductive type and a raising computation is a
      sum; the methods that open files additionally log the paths they open;
    - a [DataFrame] is its column labels and its rows, each row a label of
      the index and one cell per column, a missing cell being [None] (NaN);
    - the pandas and numpy operations the methods call ([searchsorted],
      [Index.min], label slicing with [.loc], [pd.concat(axis=1)], ...) are
      written out as functions on those lists;
    - [pd.to_datetime], the file system and the cell type are parameters.

    What the embedding covers.  The pandas operations are written out as
    pandas 2 runs them.  One difference with pandas 3 touches the loader:
    [DataFrame.from_dict(orient='index')] gives no row to a key whose
    mapping is empty in pandas 2 and keeps the row in pandas 3; the
    statements on the rows of a loaded table say where they speak of the
    dates that have at least one weight, and the example files have no
    empty mapping.  A date string parses to a date or raises: a string that
    pandas reads as [NaT] (the empty string) is outside the embedding.
    Cells are carried through the joins as they are: the change of a column
    of integers to float64 when it receives a NaN, which rounds an integer
    beyond 2^53, is not modelled. *)

From Stdlib Require Import ZArith String Ascii List Bool Lia Arith.
From Stdlib Require Import Sorting.Sorted Sorting.Permutation.
Import ListNotations.

(** ** Python: exceptions, raising computations, dicts *)

Module Py.

(** The exceptions the methods can end with.  The two [ValueError]s raised by
    hand carry their message; a failure of the date parser is kept apart from
    them ([DateParseError]), as are the look-up errors of pandas. *)
Inductive exn : Type :=
| FileNotFoundError
| JSONDecodeError
| DateParseError
| ValueError (msg : string)
| KeyError
| IndexError
| InvalidIndexError.

(** A computation that returns or raises. *)
Definition result (A : Type) : Type := (exn + A)%type.

(** A computation that opens files before it returns or raises: the paths
    opened, in order, and the outcome. *)
Definition io (A : Type) : Type := (list string * result A)%type.

Definition ret {A} (a : A) : io A := ([], inr a).

Definition raise {A} (e : exn) : io A := ([], inl e).

Definition lift {A} (r : result A) : io A := ([], r).

Definition bind {A B} (m : io A) (f : A -> io B) : io B :=
  match m with
  | (tr, inl e) => (tr, inl e)
  | (tr, inr a) => let (tr', r) := f a in (tr ++ tr', r)
  end.

Definition rbind {A B} (m : result A) (f : A -> result B) : result B :=
  match m with
  | inl e => inl e
  | inr a => f a
  end.

(** A [dict] keeps insertion order; assigning to a key that is present
    replaces the value in place. *)
Definition dict (V : Type) : Type := list (string * V).

Fixpoint dict_get {V} (k : string) (d : dict V) : option V :=
  match d with
  | [] => None
  | (k', v) :: d' => if String.eqb k k' then Some v else dict_get k d'
  end.

Fixpoint dict_set {V} (k : string) (v : V) (d : dict V) : dict V :=
  match d with
  | [] => [(k, v)]
  | (k', v') :: d' =>
      if String.eqb k k' then (k', v) :: d' else (k', v') :: dict_set k v d'
  end.

Definition keys {V} (d : dict V) : list string := map fst d.

(** [json.load] builds each object with [dict(pairs)]: the members are
    assigned in file order. *)
Definition dict_of_pairs {V} (ps : list (string * V)) : dict V :=
  fold_left (fun d kv => dict_set (fst kv) (snd kv) d) ps [].

(** [sep.join(xs)] *)
Fixpoint join (sep : string) (xs : list string) : string :=
  match xs with
  | [] => EmptyString
  | [x] => x
  | x :: rest => (x ++ sep ++ join sep rest)%string
  end.

(** [x in xs] on a list of strings *)
Definition str_in (x : string) (xs : list string) : bool :=
  existsb (String.eqb x) xs.

(** Truthiness of an optional string argument: [None] and [""] are false. *)
Definition truthy (s : option string) : bool :=
  match s with
  | None => false
  | Some s => negb (String.eqb s EmptyString)
  end.

(** [xs[i]] for a Python or numpy integer [i]: a negative index counts from
    the end; out of range raises [IndexError]. *)
Definition getitem {A} (xs : list A) (i : Z) : result A :=
  let n := Z.of_nat (length xs) in
  let j := if (i <? 0)%Z then (i + n)%Z else i in
  if ((0 <=? j) && (j <? n))%Z%bool then
    match nth_error xs (Z.to_nat j) with
    | Some x => inr x
    | None => inl IndexError
    end
  else inl IndexError.

(** [xs[lo:hi]] for non-negative [lo], [hi]. *)
Definition slice {A} (xs : list A) (lo hi : nat) : list A :=
  firstn (hi - lo) (skipn lo xs).

End Py.

Import Py.

Declare Scope io_scope.
Delimit Scope io_scope with io.
Notation "x <- m ;; f" := (bind m (fun x => f))
  (at level 61, m at next level, right associativity) : io_scope.
Declare Scope result_scope.
Delimit Scope result_scope with result.
Notation "x <- m ;; f" := (rbind m (fun x => f))
  (at level 61, m at next level, right associativity) : result_scope.

(** ** numpy and pandas: the index of timestamps *)

Module pd.

Open Scope Z_scope.

(** A [Timestamp] is its integer value; only order and equality are used. *)
Abbreviation Timestamp := Z.

Inductive side : Type := left | right.

(** numpy's binary search over positions [lo, hi): [go_right v] says that the
    insertion point lies after a cell holding [v].  [fuel] bounds the loop. *)
Fixpoint binsearch (go_right : Z -> bool) (a : list Z) (fuel lo hi : nat) : nat :=
  match fuel with
  | O => lo
  | S fuel' =>
      if (lo <? hi)%nat then
        let mid := (lo + (hi - lo) / 2)%nat in
        if go_right (nth mid a 0) then binsearch go_right a fuel' (S mid) hi
        else binsearch go_right a fuel' lo mid
      else lo
  end.

(** [index.searchsorted(v, side=...)] *)
Definition searchsorted (a : list Z) (v : Z) (s : side) : nat :=
  match s with
  | left => binsearch (fun x => x <? v) a (length a) 0 (length a)
  | right => binsearch (fun x => x <=? v) a (length a) 0 (length a)
  end.

(** [index.min()] and [index.max()]: [None] is [NaT], the answer on an empty
    index. *)
Definition index_min (a : list Z) : option Z :=
  match a with
  | [] => None
  | x :: a' => Some (fold_left Z.min a' x)
  end.

Definition index_max (a : list Z) : option Z :=
  match a with
  | [] => None
  | x :: a' => Some (fold_left Z.max a' x)
  end.

(** [t < index.min()] and [t > index.max()]: a comparison with [NaT] is
    false. *)
Definition lt_opt (t : Z) (m : option Z) : bool :=
  match m with
  | Some m => t <? m
  | None => false
  end.

Definition gt_opt (t : Z) (m : option Z) : bool :=
  match m with
  | Some m => m <? t
  | None => false
  end.

(** [t in index] *)
Definition contains (a : list Z) (t : Z) : bool := existsb (Z.eqb t) a.

Fixpoint is_monotonic_increasing (a : list Z) : bool :=
  match a with
  | [] => true
  | x :: a' =>
      match a' with
      | [] => true
      | y :: _ => (x <=? y) && is_monotonic_increasing a'
      end
  end.

Fixpoint is_monotonic_decreasing (a : list Z) : bool :=
  match a with
  | [] => true
  | x :: a' =>
      match a' with
      | [] => true
      | y :: _ => (y <=? x) && is_monotonic_decreasing a'
      end
  end.

(** The positions that hold [t], from position [i] on. *)
Fixpoint positions_from (i : nat) (t : Z) (a : list Z) : list nat :=
  match a with
  | [] => []
  | x :: a' =>
      if x =? t then i :: positions_from (S i) t a' else positions_from (S i) t a'
  end.

Definition positions (t : Z) (a : list Z) : list nat := positions_from 0 t a.

(** Whether a list of positions is a run [p, p+1, ...]. *)
Fixpoint contiguous (ps : list nat) : bool :=
  match ps with
  | [] => true
  | p :: ps' =>
      match ps' with
      | [] => true
      | q :: _ => (q =? S p)%nat && contiguous ps'
      end
  end.

(** [Index._searchsorted_monotonic]: the fallback for a label that is not in
    the index. *)
Definition searchsorted_monotonic (a : list Z) (t : Z) (s : side) : result nat :=
  if is_monotonic_increasing a then inr (searchsorted a t s)
  else if is_monotonic_decreasing a then
    inr (length a - searchsorted (rev a) t (match s with left => right | right => left end))%nat
  else inl KeyError.

(** [Index.get_slice_bound(label, side)]: [get_loc] gives a position, or a
    slice or a mask when the label is repeated; a mask that is not one run
    has no slice bound. *)
Definition get_slice_bound (a : list Z) (t : Z) (s : side) : result nat :=
  match positions t a with
  | [] => searchsorted_monotonic a t s
  | p :: ps =>
      if contiguous (p :: ps) then
        inr (match s with left => p | right => S (last ps p) end)
      else inl KeyError
  end.

(** [Index.slice_locs(start, end)] with either end optional. *)
Definition slice_locs (a : list Z) (start stop : option Z) : result (nat * nat) :=
  (lo <- match start with
         | Some t => get_slice_bound a t left
         | None => inr 0%nat
         end ;;
   hi <- match stop with
         | Some t => get_slice_bound a t right
         | None => inr (length a)
         end ;;
   inr (lo, hi))%result.

(** ** pandas: frames *)

(** A frame with index labels in [L] and cells in [V]: the column labels and
    the rows in order, each row its label and one cell per column ([None] is
    NaN). *)
Record DataFrame (L V : Type) : Type := mkDataFrame {
  columns : list string;
  rows : list (L * list (option V))
}.

Arguments mkDataFrame {L V} _ _.
Arguments columns {L V} _.
Arguments rows {L V} _.

Section Frames.

Context {L V : Type}.

Definition index (df : DataFrame L V) : list L := map fst (rows df).

(** [pd.DataFrame()] *)
Definition empty_frame : DataFrame L V := mkDataFrame [] [].

(** [sum(df.shape) == 0] *)
Definition is_empty (df : DataFrame L V) : bool :=
  (length (rows df) + length (columns df) =? 0)%nat.

(** The cells of one row under the columns labelled [key]. *)
Definition select_cells (cols : list string) (key : string)
    (cells : list (option V)) : list (option V) :=
  map snd (filter (fun cv => String.eqb key (fst cv)) (combine cols cells)).

(** [df[ks]] for a list of column labels: every column carrying one of the
    labels, in the order of [ks]; [KeyError] when a label is not a column. *)
Definition getitem_columns (df : DataFrame L V) (ks : list string)
    : result (DataFrame L V) :=
  if forallb (fun k => str_in k (columns df)) ks then
    inr (mkDataFrame
           (flat_map (fun k => filter (String.eqb k) (columns df)) ks)
           (map (fun r => (fst r, flat_map (fun k => select_cells (columns df) k (snd r)) ks))
                (rows df)))
  else inl KeyError.

(** [df.rename(columns={old: new})] *)
Definition rename (old new : string) (df : DataFrame L V) : DataFrame L V :=
  mkDataFrame (map (fun c => if String.eqb c old then new else c) (columns df))
              (rows df).

(** [df.index = labels]: the rows keep their cells and take the new labels by
    position. *)
Definition set_index {L'} (labels : list L') (df : DataFrame L V) : DataFrame L' V :=
  mkDataFrame (columns df) (combine labels (map snd (rows df))).

(** *** [pd.concat([a, b], axis=1)] *)

Section Concat.

(** Equality of labels, and the union pandas takes of the two indexes (it
    depends on the kind of index, see [union_object] and [union_datetime]). *)
Variable eqb : L -> L -> bool.
Variable union : list L -> list L -> list L.

Definition mem (x : L) (xs : list L) : bool := existsb (eqb x) xs.

Fixpoint list_eqb (xs ys : list L) : bool :=
  match xs, ys with
  | [], [] => true
  | x :: xs', y :: ys' => eqb x y && list_eqb xs' ys'
  | _, _ => false
  end.

Fixpoint has_duplicates (xs : list L) : bool :=
  match xs with
  | [] => false
  | x :: xs' => mem x xs' || has_duplicates xs'
  end.

(** [Index.unique()]: the first occurrence of each label, in order. *)
Fixpoint unique (xs : list L) : list L :=
  match xs with
  | [] => []
  | x :: xs' => x :: filter (fun y => negb (eqb y x)) (unique xs')
  end.

Definition count (x : L) (xs : list L) : nat :=
  length (filter (eqb x) xs).

Definition lookup_row (t : L) (rs : list (L * list (option V)))
    : option (list (option V)) :=
  match find (fun r => eqb (fst r) t) rs with
  | Some r => Some (snd r)
  | None => None
  end.

(** The cells of [df] in the row labelled [t], NaN cells when [df] has no
    such row. *)
Definition row_or_nan (df : DataFrame L V) (t : L) : list (option V) :=
  match lookup_row t (rows df) with
  | Some cells => cells
  | None => repeat None (length (columns df))
  end.

(** The cells of [df] laid out along [new_index]: as they are when the index
    is the new one already; otherwise through [get_indexer], which refuses an
    index with repeated labels and gives NaN cells to a label [df] lacks. *)
Definition take_rows (df : DataFrame L V) (new_index : list L)
    : result (list (list (option V))) :=
  if list_eqb (index df) new_index then inr (map snd (rows df))
  else if has_duplicates (index df) then inl InvalidIndexError
  else inr (map (row_or_nan df) new_index).

(** Frames of shape (0, 0) are left out when another frame has a row or a
    column; the others are aligned on the union of their indexes and their
    columns are put side by side. *)
Definition concat_axis1 (a b : DataFrame L V) : result (DataFrame L V) :=
  if negb (is_empty a) && is_empty b then inr a
  else if is_empty a && negb (is_empty b) then inr b
  else
    let new_index := union (index a) (index b) in
    (ca <- take_rows a new_index ;;
     cb <- take_rows b new_index ;;
     inr (mkDataFrame (columns a ++ columns b)
            (map (fun r => (fst r, (fst (snd r) ++ snd (snd r))%list))
                 (combine new_index (combine ca cb)))))%result.

(** The union of two object indexes ([sort=False]): the first index when
    both are equal, else the labels in order of first appearance. *)
Definition union_object (a b : list L) : list L :=
  if list_eqb a b then a else unique (a ++ b).

(** [algos.union_with_duplicates]: each label as often as the index that
    repeats it most. *)
Definition union_with_duplicates (a b : list L) : list L :=
  flat_map (fun v => repeat v (Nat.max (count v a) (count v b))) (unique (a ++ b)).

End Concat.

End Frames.

(** Insertion sort, standing for the stable sort of timestamps. *)
Fixpoint insert_sorted (x : Z) (xs : list Z) : list Z :=
  match xs with
  | [] => [x]
  | y :: xs' => if x <=? y then x :: xs else y :: insert_sorted x xs'
  end.

Definition sort_values (xs : list Z) : list Z := fold_right insert_sorted [] xs.

(** The union of two [DatetimeIndex]es ([concat] always sorts it unless the
    indexes are aligned): an empty or equal other index leaves the first as
    it is, an empty first index gives the other, and otherwise the labels of
    both come out sorted. *)
Definition union_datetime (a b : list Z) : list Z :=
  match b with
  | [] => a
  | _ :: _ =>
      if list_eqb Z.eqb a b then a
      else match a with
           | [] => b
           | _ :: _ => sort_values (union_with_duplicates Z.eqb a b)
           end
  end.

(** [df.loc[start:stop]] with [Timestamp] bounds, either optional. *)
Definition loc_slice {V} (df : DataFrame Z V) (start stop : option Z)
    : result (DataFrame Z V) :=
  (b <- slice_locs (index df) start stop ;;
   inr (mkDataFrame (columns df) (slice (rows df) (fst b) (snd b))))%result.

End pd.

Import pd.

(** ** The class [MagesticEquityData] *)

Open Scope string_scope.

(** The object holds the allow-list of tickers. *)
Record MagesticEquityData : Type := mkMagesticEquityData {
  tickers : list string
}.

Definition default_tickers : list string :=
  ["Dividend"; "Value"; "LowVol"; "MarketCap"; "Momentum"; "Quality"; "Value"].

(** [__init__(self, tickers=None)] *)
Definition init (tickers : option (list string)) : MagesticEquityData :=
  mkMagesticEquityData
    (match tickers with
     | Some ts => ts
     | None => default_tickers
     end).

(** What can go wrong under [open(path)] and [json.load(f)]. *)
Inductive io_error : Type := NoSuchFile | NotJSON.

Definition msg_order : string :=
  "The start date must be strictly earlier than the end date.".

Definition msg_range : string :=
  "The dates must be within the range of the DataFrame's index.".

Definition msg_invalid : string := "The following tickers are invalid: ".

(** ** A small data directory

    Dates are written YYYY-MM-DD and read as the number YYYYMMDD, which
    orders them as the calendar does; prices and weights are whole numbers. *)

Definition digit (c : ascii) : option Z :=
  let n := Z.of_nat (nat_of_ascii c) in
  if ((48 <=? n) && (n <=? 57))%Z then Some (n - 48)%Z else None.

Definition number (ds : list ascii) : option Z :=
  fold_left (fun acc c =>
               match acc, digit c with
               | Some n, Some d => Some (10 * n + d)%Z
               | _, _ => None
               end) ds (Some 0%Z).

Definition iso_date (s : string) : option Z :=
  match s with
  | String y1 (String y2 (String y3 (String y4 (String "-"
      (String m1 (String m2 (String "-" (String d1 (String d2 EmptyString))))))))) =>
      match number [y1; y2; y3; y4], number [m1; m2], number [d1; d2] with
      | Some y, Some m, Some d =>
          if ((1 <=? m) && (m <=? 12) && (1 <=? d) && (d <=? 31))%Z
          then Some (y * 10000 + m * 100 + d)%Z
          else None
      | _, _, _ => None
      end
  | _ => None
  end.

Definition example_prices (path : string) : io_error + list (string * Z) :=
  if path =? "./data/Value/SP500ValueETFPrices.json" then
    inr [("2021-01-01", 10); ("2021-01-02", 11); ("2021-01-03", 12)]%Z
  else if path =? "./data/Quality/SP500QualityETFPrices.json" then
    inr [("2021-01-02", 20); ("2021-01-03", 21); ("2021-01-04", 22)]%Z
  else if path =? "./data/Momentum/SP500MomentumETFPrices.json" then
    inr [("2020-01-02", 5); ("2020-01-06", 6)]%Z
  else if path =? "./data/LowVol/SP500LowVolETFPrices.json" then
    inr [("2020-01-02", 7); ("2020-01-06", 8)]%Z
  else if path =? "./data/MarketCap/SP500MarketCapETFPrices.json" then
    inr [("2021-01-02", 30); ("2021-01-03", 31)]%Z
  else if path =? "./data/Growth/SP500GrowthETFPrices.json" then
    inr [("2020-01-06", 9)]%Z
  else inl NoSuchFile.

Definition example_weights (path : string)
    : io_error + list (string * list (string * Z)) :=
  if path =? "./data/Value/SP500ValueETFWeights.json" then
    inr [("2021-01-01", [("AAPL", 60); ("MSFT", 40)]);
         ("2021-01-03", [("AAPL", 55); ("MSFT", 45)])]%Z
  else if path =? "./data/Quality/SP500QualityETFWeights.json" then
    inr []
  else if path =? "./data/Momentum/SP500MomentumETFWeights.json" then
    inr []
  else if path =? "./data/LowVol/SP500LowVolETFWeights.json" then
    inr [("2020-01-02", [("AAPL", 100)]);
         ("2020-01-05", [("AAPL", 100)])]%Z
  else if path =? "./data/MarketCap/SP500MarketCapETFWeights.json" then
    inr [("2021-01-01", [("AAPL", 100)])]%Z
  else if path =? "./data/Growth/SP500GrowthETFWeights.json" then
    inr [("2020-01-01", [("AAPL", 100)]);
         ("2020-01-02", [("AAPL", 100)])]%Z
  else inl NoSuchFile.

(** The tables [process_etf_data] returns for the tickers above. *)
Definition value_table : DataFrame Timestamp Z :=
  mkDataFrame ["Close Price"; "AAPL"; "MSFT"]
    [(20210101, [Some 10; Some 60; Some 40]);
     (20210102, [Some 11; None; None]);
     (20210103, [Some 12; Some 55; Some 45])]%Z.

Definition quality_table : DataFrame Timestamp Z :=
  mkDataFrame ["Close Price"]
    [(20210102, [Some 20]); (20210103, [Some 21]); (20210104, [Some 22])]%Z.

Definition momentum_table : DataFrame Timestamp Z :=
  mkDataFrame ["Close Price"] [(20200102, [Some 5]); (20200106, [Some 6])]%Z.

Definition lowvol_table : DataFrame Timestamp Z :=
  mkDataFrame ["Close Price"; "AAPL"]
    [(20200102, [Some 7; Some 100]);
     (20200106, [Some 8; None]);
     (20200105, [None; Some 100])]%Z.

Definition marketcap_table : DataFrame Timestamp Z :=
  mkDataFrame ["Close Price"; "AAPL"]
    [(20210102, [Some 30; None]);
     (20210103, [Some 31; None]);
     (20210101, [None; Some 100])]%Z.

Definition growth_table : DataFrame Timestamp Z :=
  mkDataFrame ["Close Price"; "AAPL"]
    [(20200106, [Some 9; None]);
     (20200101, [None; Some 100]);
     (20200102, [None; Some 100])]%Z.

(** The table of each ticker of a request for Value and Quality. *)
Definition example_download (t : string) : DataFrame Timestamp Z :=
  if (t =? "Value")%string then value_table else quality_table.

(** [datetime.strptime] on the dates of the example directory. *)
Definition example_strptime (s : string) : string + Z :=
  match iso_date s with
  | Some d => inr d
  | None => inl ("time data '" ++ s ++ "' does not match format '%Y-%m-%d'")
  end.

Section Methods.

(** The cells are JSON numbers; they are moved around, never computed with. *)
Variable scalar : Type.

(** [pd.to_datetime] on a string: the timestamp, or [None] when it raises.
    (A string read as [NaT] without raising is not covered.) *)
Variable to_datetime : string -> option Timestamp.

(** The files: the members, in file order, of the JSON object stored at a
    path.  A price file maps a date to a number, a weight file maps a date
    to an object from constituents to numbers. *)
Variable read_prices : string -> io_error + list (string * scalar).
Variable read_weights : string -> io_error + list (string * list (string * scalar)).

Definition Frame : Type := DataFrame Timestamp scalar.

(** [with open(path) as f: json.load(f)] *)
Definition open_json {A} (read : string -> io_error + A) (path : string) : io A :=
  ([path],
   match read path with
   | inl NoSuchFile => inl FileNotFoundError
   | inl NotJSON => inl JSONDecodeError
   | inr a => inr a
   end).

Definition load_prices (path : string) : io (dict scalar) :=
  (members <- open_json read_prices path ;;
   ret (dict_of_pairs members))%io.

Definition load_weights (path : string) : io (dict (dict scalar)) :=
  (members <- open_json read_weights path ;;
   ret (dict_of_pairs (map (fun m => (fst m, dict_of_pairs (snd m))) members)))%io.

(** [pd.DataFrame.from_dict(data, orient='index', columns=[name])] on a dict
    of numbers: one row per key, in the dict's order. *)
Definition from_dict_scalars (data : dict scalar) (name : string)
    : DataFrame string scalar :=
  mkDataFrame [name] (map (fun kv => (fst kv, [Some (snd kv)])) data).

(** [new_data[col][index] = v] on a [defaultdict(dict)]: a column that is
    not there yet starts empty. *)
Definition assign_cell (col index : string) (v : scalar)
    (new_data : dict (dict scalar)) : dict (dict scalar) :=
  dict_set col
    (dict_set index v
       (match dict_get col new_data with
        | Some column => column
        | None => []
        end))
    new_data.

(** [_from_nested_dict]: [new_data[col][index] = v] for every cell of every
    row.  A row whose mapping is empty leaves no trace in [new_data]: in
    pandas 2 the frame built from it has no row for that key (pandas 3
    passes the keys on as the index and keeps the row). *)
Definition from_nested_dict (data : dict (dict scalar)) : dict (dict scalar) :=
  fold_left
    (fun new_data row =>
       fold_left (fun nd cv => assign_cell (fst cv) (fst row) (snd cv) nd)
                 (snd row) new_data)
    data [].

(** [DataFrame(data)] on a dict of columns, each a dict from row label to
    number: the index is the row labels in order of first appearance. *)
Definition frame_of_columns (data : dict (dict scalar)) : DataFrame string scalar :=
  let idx := unique String.eqb (flat_map (fun cd => keys (snd cd)) data) in
  mkDataFrame (keys data)
    (map (fun i => (i, map (fun cd => dict_get i (snd cd)) data)) idx).

(** [pd.DataFrame.from_dict(data, orient='index')] on a dict of dicts. *)
Definition from_dict_nested (data : dict (dict scalar)) : DataFrame string scalar :=
  frame_of_columns (from_nested_dict data).

Definition to_datetime_scalar (s : string) : result Timestamp :=
  match to_datetime s with
  | Some t => inr t
  | None => inl DateParseError
  end.

(** [pd.to_datetime(index)] *)
Fixpoint to_datetime_index (labels : list string) : result (list Timestamp) :=
  match labels with
  | [] => inr []
  | l :: ls =>
      (t <- to_datetime_scalar l ;;
       ts <- to_datetime_index ls ;;
       inr (t :: ts))%result
  end.

Definition process_etf_data (ticker : string) : io Frame :=
  let prices_path := "./data/" ++ ticker ++ "/SP500" ++ ticker ++ "ETFPrices.json" in
  let weights_path := "./data/" ++ ticker ++ "/SP500" ++ ticker ++ "ETFWeights.json" in
  (prices_data <- load_prices prices_path ;;
   weights_data <- load_weights weights_path ;;
   let prices_df := from_dict_scalars prices_data "Close Price" in
   let weights_df := from_dict_nested weights_data in
   combined_df <- lift (concat_axis1 String.eqb (union_object String.eqb)
                          prices_df weights_df) ;;
   idx <- lift (to_datetime_index (index combined_df)) ;;
   ret (set_index idx combined_df))%io.

Definition filter_df_by_date (df : Frame) (start end_ : string) : result Frame :=
  (start_date <- to_datetime_scalar start ;;
   end_date <- to_datetime_scalar end_ ;;
   if (start_date >=? end_date)%Z then inl (ValueError msg_order)
   else if lt_opt start_date (index_min (index df))
           || gt_opt end_date (index_max (index df))
   then inl (ValueError msg_range)
   else
     start_date <-
       (if negb (contains (index df) start_date)
        then getitem (index df) (Z.of_nat (searchsorted (index df) start_date left))
        else inr start_date) ;;
     end_date <-
       (if negb (contains (index df) end_date)
        then getitem (index df) (Z.of_nat (searchsorted (index df) end_date right) - 1)
        else inr end_date) ;;
     loc_slice df (Some start_date) (Some end_date))%result.

Definition retrieve_etf_data (ticker start end_ : string) : io Frame :=
  (df <- process_etf_data ticker ;;
   filtered_df <- lift (filter_df_by_date df start end_) ;;
   ret filtered_df)%io.

(** The string behind an optional argument that was found truthy. *)
Definition arg (s : option string) : string :=
  match s with
  | Some s => s
  | None => ""
  end.

Definition download (ticker : string) (start end_ : option string) : io Frame :=
  (df <- process_etf_data ticker ;;
   if truthy start && truthy end_ then
     lift (filter_df_by_date df (arg start) (arg end_))
   else if truthy start then
     start_date <- lift (to_datetime_scalar (arg start)) ;;
     lift (loc_slice df (Some start_date) None)
   else if truthy end_ then
     end_date <- lift (to_datetime_scalar (arg end_)) ;;
     lift (loc_slice df None (Some end_date))
   else ret df)%io.

(** The loop of [history] over the requested tickers. *)
Fixpoint history_loop (tickers : list string) (start end_ : option string)
    (concatenated_df : Frame) : io Frame :=
  match tickers with
  | [] => ret concatenated_df
  | ticker :: rest =>
      (df <- download ticker start end_ ;;
       df <- lift (getitem_columns df ["Close Price"]) ;;
       let df := rename "Close Price" ticker df in
       concatenated_df <- lift (concat_axis1 Z.eqb union_datetime concatenated_df df) ;;
       history_loop rest start end_ concatenated_df)%io
  end.

Definition history (self : MagesticEquityData) (tickers_ : list string)
    (start end_ : option string) : io Frame :=
  let invalid_tickers :=
    filter (fun ticker => negb (str_in ticker (tickers self))) tickers_ in
  match invalid_tickers with
  | _ :: _ => raise (ValueError (msg_invalid ++ join ", " invalid_tickers))
  | [] => history_loop tickers_ start end_ empty_frame
  end.

(** ** Plotting: [plot_etf_prices] and [plotter] *)

Section Plotting.

(** [datetime.strptime(s, "%Y-%m-%d")]: the date, or the message of the
    [ValueError] it raises. *)
Variable strptime : string -> string + Timestamp.

(** The message of the [ValueError] Python raises when [dates, values = ...]
    unpacks an empty [zip]. *)
Definition msg_unpack : string :=
  "not enough values to unpack (expected 2, got 0)".

(** The calls made on [matplotlib.pyplot], in order. *)
Inductive plt_call : Type :=
| plt_figure (width height : Z)
| plt_plot (dates : list Timestamp) (values : list scalar)
           (label color marker : string)
| plt_title (text : string)
| plt_xlabel (text : string)
| plt_ylabel (text : string)
| plt_xticks (rotation : Z)
| plt_grid (on : bool)
| plt_tight_layout
| plt_legend
| plt_show.

Definition strptime_date (s : string) : result Timestamp :=
  match strptime s with
  | inl msg => inl (ValueError msg)
  | inr t => inr t
  end.

(** [[datetime.strptime(date, "%Y-%m-%d") for date in keys]] *)
Fixpoint strptime_all (ks : list string) : result (list Timestamp) :=
  match ks with
  | [] => inr []
  | k :: ks' =>
      (t <- strptime_date k ;;
       ts <- strptime_all ks' ;;
       inr (t :: ts))%result
  end.

(** The points unzipped into [dates, values]: two tuples, and a
    [ValueError] when there is no point to unpack. *)
Definition unzip (points : list (Timestamp * scalar))
    : result (list Timestamp * list scalar) :=
  match points with
  | [] => inl (ValueError msg_unpack)
  | _ :: _ => inr (map fst points, map snd points)
  end.

Definition plot_etf_prices (etf_prices : dict scalar) (etf_name color : string)
    (start end_ : option string) : result (list plt_call) :=
  (dates <- strptime_all (keys etf_prices) ;;
   let values := map snd etf_prices in
   dv <- (if truthy start then
            start_date <- strptime_date (arg start) ;;
            unzip (filter (fun p => (fst p >=? start_date)%Z) (combine dates values))
          else inr (dates, values)) ;;
   dv <- (if truthy end_ then
            end_date <- strptime_date (arg end_) ;;
            unzip (filter (fun p => (fst p <=? end_date)%Z)
                          (combine (fst dv) (snd dv)))
          else inr dv) ;;
   inr [plt_figure 10 6;
        plt_plot (fst dv) (snd dv) ("ETF " ++ etf_name ++ " Prices") color ".";
        plt_title ("Evolution of " ++ etf_name ++ " prices");
        plt_xlabel "Date";
        plt_ylabel (etf_name ++ " Prices");
        plt_xticks 45;
        plt_grid true;
        plt_tight_layout;
        plt_legend;
        plt_show])%result.

Definition plotter (ticker color : string) (start end_ : option string)
    : io (list plt_call) :=
  let filePath := "./data/" ++ ticker ++ "/SP500" ++ ticker ++ "ETFPrices.json" in
  (data <- load_prices filePath ;;
   lift (plot_etf_prices data ("SP500" ++ ticker) color start end_))%io.

(** For the statements about the plots.  A bound as [plot_etf_prices] reads
    it: none when the argument is [None] or empty, else the date parsed. *)
Definition bound (b : option string) : result (option Timestamp) :=
  if truthy b then (t <- strptime_date (arg b) ;; inr (Some t))%result
  else inr None.

(** The date [d] is within the bounds that are given. *)
Definition within (lo hi : option Timestamp) (d : Timestamp) : bool :=
  match lo with Some s => (s <=? d)%Z | None => true end &&
  match hi with Some e => (d <=? e)%Z | None => true end.

(** The calls that draw the line through [dates] and [values] for the ETF
    named [etf_name]. *)
Definition chart (etf_name color : string) (dates : list Timestamp)
    (values : list scalar) : list plt_call :=
  [plt_figure 10 6;
   plt_plot dates values ("ETF " ++ etf_name ++ " Prices") color ".";
   plt_title ("Evolution of " ++ etf_name ++ " prices");
   plt_xlabel "Date";
   plt_ylabel (etf_name ++ " Prices");
   plt_xticks 45;
   plt_grid true;
   plt_tight_layout;
   plt_legend;
   plt_show].

End Plotting.

(** ** The vocabulary of the statements *)

Local Open Scope list_scope.
Local Open Scope Z_scope.

(** The date order of an index: the dates never decrease; they strictly
    increase (the order the spec gives an aligned table). *)
Definition ascending (a : list Z) : Prop := StronglySorted Z.le a.

Definition strictly_ascending (a : list Z) : Prop := StronglySorted Z.lt a.

(** The rows of [rs] dated between [s] and [e], both ends included. *)
Definition rows_between (s e : Z) (rs : list (Z * list (option scalar)))
    : list (Z * list (option scalar)) :=
  filter (fun r => (s <=? fst r) && (fst r <=? e)) rs.

(** How many dates of an index lie below [v], at or below [v], and on [v]:
    the insertion points of [v] in an index in date order. *)
Definition count_lt (v : Z) (a : list Z) : nat :=
  length (filter (fun x => x <? v) a).

Definition count_le (v : Z) (a : list Z) : nat :=
  length (filter (fun x => x <=? v) a).

Definition count_eq (v : Z) (a : list Z) : nat :=
  length (filter (fun x => x =? v) a).

(** [s'] is the smallest row date not less than [s]. *)
Definition resolves_start (idx : list Z) (s s' : Z) : Prop :=
  In s' idx /\ s <= s' /\ forall d, In d idx -> s <= d -> s' <= d.

(** [e'] is the largest row date not greater than [e]. *)
Definition resolves_end (idx : list Z) (e e' : Z) : Prop :=
  In e' idx /\ e' <= e /\ forall d, In d idx -> d <= e -> d <= e'.




(** The composition the spec describes for retrieve: load the table, and
    hand it to filterByDate; an error of either step is the error of the
    whole, unchanged. *)
Definition load_then_filterByDate (ticker start end_ : string) : io Frame :=
  match process_etf_data ticker with
  | (opened, inl error) => (opened, inl error)
  | (opened, inr table) => (opened, filter_df_by_date table start end_)
  end.

(** What [download] computes once the table is loaded. *)
Definition download_body (df : Frame) (start end_ : option string) : result Frame :=
  if truthy start && truthy end_ then
    filter_df_by_date df (arg start) (arg end_)
  else if truthy start then
    (start_date <- to_datetime_scalar (arg start) ;;
     loc_slice df (Some start_date) None)%result
  else if truthy end_ then
    (end_date <- to_datetime_scalar (arg end_) ;;
     loc_slice df None (Some end_date))%result
  else inr df.

(** The tickers of a request that are not in the allow-list, as [history]
    collects them. *)
Definition invalid_tickers (self : MagesticEquityData) (tickers_ : list string)
    : list string :=
  filter (fun ticker => negb (str_in ticker (tickers self))) tickers_.



(** The cell of a dict of columns at column [c] and row [k]. *)
Definition get2 (nd : dict (dict scalar)) (c k : string) : option scalar :=
  match dict_get c nd with
  | Some column => dict_get k column
  | None => None
  end.

(** The cell of the weights dataset at date [k] for constituent [c]. *)
Definition weight_cell (weights : dict (dict scalar)) (k c : string)
    : option scalar :=
  match dict_get k weights with
  | Some s => dict_get c s
  | None => None
  end.

(** The date [k] has at least one weight. *)
Definition has_weights (weights : dict (dict scalar)) (k : string) : Prop :=
  exists s, dict_get k weights = Some s /\ s <> [].

(** Every row has one cell per column. *)
Definition wf (df : Frame) : Prop :=
  Forall (fun r => length (snd r) = length (columns df)) (rows df).

(** The cell of [df] in the row dated [d] under the column at position [j];
    NaN when [df] has no row dated [d]. *)
Definition cell (df : Frame) (d : Z) (j : nat) : option scalar :=
  match lookup_row Z.eqb d (rows df) with
  | Some cells => nth j cells None
  | None => None
  end.

(** The "Close Price" cell of [df] in the row dated [d]; NaN when [df] has
    no row dated [d]. *)
Definition close_price (df : Frame) (d : Z) : option scalar :=
  match lookup_row Z.eqb d (rows df) with
  | Some cells => nth 0 (select_cells (columns df) "Close Price" cells) None
  | None => None
  end.

(** The invariant of an aligned table: rows in strictly ascending date
    order (so no date twice) and one "Close Price" column. *)
Definition AlignedTable (df : Frame) : Prop :=
  strictly_ascending (index df) /\
  filter (String.eqb "Close Price") (columns df) = ["Close Price"%string].

(** What holds of the accumulated frame after the tickers [done]. *)
Definition history_inv (dl : string -> Frame) (done : list string) (acc : Frame)
    : Prop :=
  columns acc = done /\
  strictly_ascending (index acc) /\
  wf acc /\
  (forall d, In d (index acc) <-> exists t, In t done /\ In d (index (dl t))) /\
  (forall d j t, nth_error done j = Some t -> In d (index acc) ->
                 cell acc d j = close_price (dl t) d).

(** * Facts about the index operations *)

Lemma is_monotonic_increasing_Sorted (a : list Z) :
  is_monotonic_increasing a = true <-> Sorted Z.le a.
Proof.
  induction a as [|x a IH]; simpl.
  - split; auto.
  - destruct a as [|y a].
    + split; auto.
    + rewrite andb_true_iff, Z.leb_le, IH. split.
      * intros [Hxy Hs]. constructor; auto.
      * intros Hs. inversion Hs as [|? ? Hs' Hhd]; subst.
        inversion Hhd; subst. auto.
Qed.

Lemma is_monotonic_increasing_ascending (a : list Z) :
  is_monotonic_increasing a = true <-> ascending a.
Proof.
  rewrite is_monotonic_increasing_Sorted. unfold ascending. split.
  - apply Sorted_StronglySorted. intros x y z. apply Z.le_trans.
  - apply StronglySorted_Sorted.
Qed.

Lemma strictly_ascending_ascending (a : list Z) :
  strictly_ascending a -> ascending a.
Proof.
  unfold strictly_ascending, ascending.
  induction 1 as [|x a Hs IH Hall]; constructor; auto.
  eapply Forall_impl; [|exact Hall]. simpl. intros; lia.
Qed.

(** A list whose keys never decrease splits at any downward closed test. *)
Lemma sorted_partition {A} (key : A -> Z) (p : Z -> bool) (l : list A) :
  ascending (map key l) ->
  (forall x y, x <= y -> p y = true -> p x = true) ->
  l = filter (fun r => p (key r)) l ++ filter (fun r => negb (p (key r))) l.
Proof.
  intros Hs Hp. induction l as [|x l IH]; simpl; auto.
  inversion Hs as [|? ? Hs' Hall]; subst.
  destruct (p (key x)) eqn:Hx; simpl.
  - f_equal. auto.
  - assert (Hnone : forall r, In r l -> p (key r) = false).
    { intros r Hr. destruct (p (key r)) eqn:Hr'; auto.
      rewrite Forall_forall in Hall.
      rewrite (Hp (key x) (key r)) in Hx; auto.
      apply Hall. apply in_map; auto. }
    assert (Hf : filter (fun r => p (key r)) l = []).
    { clear -Hnone. induction l as [|y l IH]; simpl; auto.
      rewrite (Hnone y) by (simpl; auto). apply IH.
      intros; apply Hnone; simpl; auto. }
    assert (Hg : filter (fun r => negb (p (key r))) l = l).
    { clear -Hnone. induction l as [|y l IH]; simpl; auto.
      rewrite (Hnone y) by (simpl; auto). simpl. f_equal. apply IH.
      intros; apply Hnone; simpl; auto. }
    rewrite Hf, Hg. reflexivity.
Qed.

(** The binary search finds the split of a list that a test cuts in two. *)
Lemma binsearch_partition (p : Z -> bool) (l1 l2 : list Z) :
  forallb p l1 = true ->
  forallb (fun x => negb (p x)) l2 = true ->
  forall fuel lo hi,
    (lo <= length l1 <= hi)%nat ->
    (hi <= length (l1 ++ l2))%nat ->
    (hi - lo <= fuel)%nat ->
    binsearch p (l1 ++ l2) fuel lo hi = length l1.
Proof.
  intros H1 H2. rewrite forallb_forall in H1, H2.
  induction fuel as [|fuel IH]; intros lo hi Hlo Hhi Hfuel; cbn [binsearch].
  - lia.
  - destruct (Nat.ltb_spec lo hi) as [Hlt|Hge]; [|lia].
    assert (Hmid : (lo <= lo + (hi - lo) / 2 < hi)%nat).
    { assert ((hi - lo) / 2 < hi - lo)%nat by (apply Nat.div_lt; lia). lia. }
    set (mid := (lo + (hi - lo) / 2)%nat) in *.
    destruct (p (nth mid (l1 ++ l2) 0)) eqn:Hp.
    + assert (mid < length l1)%nat.
      { destruct (Nat.lt_ge_cases mid (length l1)) as [|Hge]; auto.
        rewrite app_nth2 in Hp by lia.
        rewrite length_app in Hhi.
        specialize (H2 (nth (mid - length l1) l2 0)).
        rewrite Hp in H2. simpl in H2.
        exfalso. assert (false = true); [|discriminate].
        apply H2. apply nth_In. lia. }
      apply IH; lia.
    + assert (length l1 <= mid)%nat.
      { destruct (Nat.lt_ge_cases mid (length l1)) as [Hlt'|]; auto.
        rewrite app_nth1 in Hp by lia.
        rewrite H1 in Hp; [discriminate|]. apply nth_In. lia. }
      apply IH; lia.
Qed.

(** The search never needs more rounds than the width of its window, so the
    rounds [searchsorted] allows (the length of the index) are never used
    up before the window is empty. *)
Lemma binsearch_fuel (p : Z -> bool) (a : list Z) (fuel1 fuel2 lo hi : nat) :
  (hi - lo <= fuel1)%nat -> (hi - lo <= fuel2)%nat ->
  binsearch p a fuel1 lo hi = binsearch p a fuel2 lo hi.
Proof.
  revert fuel2 lo hi.
  induction fuel1 as [|fuel1 IH]; intros fuel2 lo hi H1 H2.
  - destruct fuel2 as [|fuel2]; cbn [binsearch]; auto.
    destruct (Nat.ltb_spec lo hi); [lia|reflexivity].
  - destruct fuel2 as [|fuel2]; cbn [binsearch].
    + destruct (Nat.ltb_spec lo hi); [lia|reflexivity].
    + destruct (Nat.ltb_spec lo hi) as [Hlt|]; [|reflexivity].
      assert (Hmid : (lo <= lo + (hi - lo) / 2 < hi)%nat).
      { assert ((hi - lo) / 2 < hi - lo)%nat by (apply Nat.div_lt; lia). lia. }
      destruct (p (nth (lo + (hi - lo) / 2) a 0)); apply IH; lia.
Qed.

Lemma filter_forallb {A} (p : A -> bool) (l : list A) :
  forallb p (filter p l) = true.
Proof.
  induction l as [|x l IH]; simpl; auto.
  destruct (p x) eqn:Hx; simpl; auto. rewrite Hx. auto.
Qed.

Lemma binsearch_ascending (p : Z -> bool) (a : list Z) :
  ascending a ->
  (forall x y, x <= y -> p y = true -> p x = true) ->
  binsearch p a (length a) 0 (length a) = length (filter p a).
Proof.
  intros Hs Hdc.
  assert (Hp : a = filter p a ++ filter (fun x => negb (p x)) a).
  { apply (sorted_partition (fun x => x) p a); auto. rewrite map_id. auto. }
  pose proof (binsearch_partition p (filter p a) (filter (fun x => negb (p x)) a)
                (filter_forallb p a)
                (filter_forallb (fun x => negb (p x)) a)
                (length a) 0 (length a)) as H.
  rewrite <- Hp in H. apply H; try lia.
  split; [lia|]. rewrite Hp at 2. rewrite length_app. lia.
Qed.

Lemma searchsorted_ascending (a : list Z) (v : Z) :
  ascending a ->
  searchsorted a v left = count_lt v a /\ searchsorted a v right = count_le v a.
Proof.
  intros Hs. unfold searchsorted, count_lt, count_le. split.
  - apply binsearch_ascending; auto.
    intros x y Hxy. rewrite !Z.ltb_lt. lia.
  - apply binsearch_ascending; auto.
    intros x y Hxy. rewrite !Z.leb_le. lia.
Qed.

Lemma contains_In (a : list Z) (t : Z) : contains a t = true <-> In t a.
Proof.
  unfold contains. rewrite existsb_exists. split.
  - intros [x [Hx Heq]]. apply Z.eqb_eq in Heq. subst. auto.
  - intros H. exists t. split; auto. apply Z.eqb_refl.
Qed.

Lemma fold_left_min_spec (l : list Z) (x : Z) :
  let r := fold_left Z.min l x in
  (r = x \/ In r l) /\ r <= x /\ Forall (fun y => r <= y) l.
Proof.
  revert x. induction l as [|y l IH]; intros x; simpl.
  - repeat split; auto; lia.
  - destruct (IH (Z.min x y)) as [Hin [Hle Hall]]. repeat split.
    + destruct Hin as [Heq|Hin]; auto.
      rewrite Heq. destruct (Z.min_spec x y) as [[_ ->]|[_ ->]]; auto.
    + lia.
    + constructor; auto. lia.
Qed.

Lemma fold_left_max_spec (l : list Z) (x : Z) :
  let r := fold_left Z.max l x in
  (r = x \/ In r l) /\ x <= r /\ Forall (fun y => y <= r) l.
Proof.
  revert x. induction l as [|y l IH]; intros x; simpl.
  - repeat split; auto; lia.
  - destruct (IH (Z.max x y)) as [Hin [Hle Hall]]. repeat split.
    + destruct Hin as [Heq|Hin]; auto.
      rewrite Heq. destruct (Z.max_spec x y) as [[_ ->]|[_ ->]]; auto.
    + lia.
    + constructor; auto. lia.
Qed.

Lemma index_min_spec (a : list Z) (m : Z) :
  index_min a = Some m -> In m a /\ forall x, In x a -> m <= x.
Proof.
  destruct a as [|x a]; simpl; [discriminate|].
  intros H. injection H as <-.
  destruct (fold_left_min_spec a x) as [Hin [Hle Hall]].
  rewrite Forall_forall in Hall. split.
  - destruct Hin; auto.
  - intros y [<-|Hy]; auto.
Qed.

Lemma index_max_spec (a : list Z) (m : Z) :
  index_max a = Some m -> In m a /\ forall x, In x a -> x <= m.
Proof.
  destruct a as [|x a]; simpl; [discriminate|].
  intros H. injection H as <-.
  destruct (fold_left_max_spec a x) as [Hin [Hle Hall]].
  rewrite Forall_forall in Hall. split.
  - destruct Hin; auto.
  - intros y [<-|Hy]; auto.
Qed.

Lemma index_min_In (a : list Z) (x : Z) :
  In x a -> exists m, index_min a = Some m.
Proof. destruct a; simpl; [tauto|eauto]. Qed.

Lemma index_max_In (a : list Z) (x : Z) :
  In x a -> exists m, index_max a = Some m.
Proof. destruct a; simpl; [tauto|eauto]. Qed.

Lemma getitem_nth_error {A} (xs : list A) (i : nat) (x : A) :
  nth_error xs i = Some x -> getitem xs (Z.of_nat i) = inr x.
Proof.
  intros H. unfold getitem.
  assert (Hi : (i < length xs)%nat) by (apply nth_error_Some; congruence).
  destruct (Z.ltb_spec (Z.of_nat i) 0); [lia|].
  destruct (Z.leb_spec 0 (Z.of_nat i)); [|lia].
  destruct (Z.ltb_spec (Z.of_nat i) (Z.of_nat (length xs))); [|lia].
  simpl. rewrite Nat2Z.id, H. reflexivity.
Qed.

Lemma filter_length_map {A B} (f : A -> B) (p : B -> bool) (l : list A) :
  length (filter p (map f l)) = length (filter (fun x => p (f x)) l).
Proof.
  induction l as [|x l IH]; simpl; auto.
  destruct (p (f x)); simpl; auto.
Qed.

Lemma filter_filter {A} (p q : A -> bool) (l : list A) :
  filter p (filter q l) = filter (fun x => q x && p x) l.
Proof.
  induction l as [|x l IH]; simpl; auto.
  destruct (q x); simpl; [destruct (p x)|]; simpl; rewrite ?IH; auto.
Qed.

Lemma filter_ext_in_length {A} (p q : A -> bool) (l : list A) :
  (forall x, In x l -> p x = q x) -> filter p l = filter q l.
Proof.
  intros H. induction l as [|x l IH]; simpl; auto.
  rewrite (H x) by (simpl; auto).
  rewrite IH; auto. intros; apply H; simpl; auto.
Qed.

Lemma ascending_filter {A} (key : A -> Z) (p : A -> bool) (l : list A) :
  ascending (map key l) -> ascending (map key (filter p l)).
Proof.
  unfold ascending. induction l as [|x l IH]; simpl; auto.
  intros Hs. inversion Hs as [|? ? Hs' Hall]; subst.
  destruct (p x); simpl; auto. constructor; auto.
  rewrite Forall_forall in *. intros y Hy.
  apply Hall. rewrite in_map_iff in *.
  destruct Hy as [r [<- Hr]]. exists r. split; auto.
  apply filter_In in Hr. tauto.
Qed.

Lemma count_le_lt_eq (v : Z) (a : list Z) :
  count_le v a = (count_lt v a + count_eq v a)%nat.
Proof.
  unfold count_le, count_lt, count_eq.
  induction a as [|x a IH]; simpl; auto.
  destruct (Z.leb_spec x v), (Z.ltb_spec x v), (Z.eqb_spec x v);
    simpl; try lia.
Qed.

Lemma count_lt_zero (v : Z) (a : list Z) :
  Forall (fun y => v <= y) a -> count_lt v a = 0%nat.
Proof.
  unfold count_lt. induction 1 as [|y a Hy Hall IH]; simpl; auto.
  destruct (Z.ltb_spec y v); [lia|auto].
Qed.

Lemma count_eq_zero (v : Z) (a : list Z) :
  Forall (fun y => v < y) a -> count_eq v a = 0%nat.
Proof.
  unfold count_eq. induction 1 as [|y a Hy Hall IH]; simpl; auto.
  destruct (Z.eqb_spec y v); [lia|auto].
Qed.

(** In an index that never decreases a label sits on one run of positions. *)
Lemma positions_from_ascending (a : list Z) (t : Z) :
  ascending a ->
  forall i, positions_from i t a = seq (i + count_lt t a) (count_eq t a).
Proof.
  unfold ascending. induction 1 as [|x a Hs IH Hall]; intros i; simpl.
  - reflexivity.
  - unfold count_lt, count_eq in *. simpl.
    destruct (Z.eqb_spec x t) as [->|Hne].
    + destruct (Z.ltb_spec t t); [lia|].
      fold (count_lt t a). rewrite (count_lt_zero t a Hall).
      rewrite IH. fold (count_lt t a). rewrite (count_lt_zero t a Hall).
      rewrite !Nat.add_0_r. reflexivity.
    + destruct (Z.ltb_spec x t).
      * simpl. rewrite IH. f_equal. lia.
      * assert (Hall' : Forall (fun y => t < y) a).
        { eapply Forall_impl; [|exact Hall]. simpl. intros; lia. }
        rewrite IH. fold (count_eq t a). rewrite (count_eq_zero t a Hall').
        reflexivity.
Qed.

Lemma contiguous_seq (s n : nat) : contiguous (seq s n) = true.
Proof.
  revert s. induction n as [|n IH]; intros s; simpl; auto.
  destruct n; simpl; auto.
  rewrite Nat.eqb_refl. simpl. apply (IH (S s)).
Qed.

Lemma last_seq (s n d : nat) : last (seq (S s) n) d = match n with O => d | S _ => (s + n)%nat end.
Proof.
  revert s d. induction n as [|n IH]; intros s d; simpl; auto.
  destruct n as [|n]; simpl; [lia|].
  specialize (IH (S s) d). simpl in IH. rewrite IH. lia.
Qed.

Lemma get_slice_bound_ascending (a : list Z) (t : Z) :
  ascending a ->
  get_slice_bound a t left = inr (count_lt t a) /\
  get_slice_bound a t right = inr (count_le t a).
Proof.
  intros Hs. unfold get_slice_bound, positions.
  rewrite (positions_from_ascending a t Hs 0%nat). simpl.
  rewrite count_le_lt_eq.
  destruct (count_eq t a) as [|n] eqn:Hn; simpl.
  - unfold searchsorted_monotonic.
    rewrite (proj2 (is_monotonic_increasing_ascending a) Hs).
    destruct (searchsorted_ascending a t Hs) as [-> ->].
    rewrite count_le_lt_eq, Hn. auto.
  - pose proof (contiguous_seq (count_lt t a) (S n)) as Hc.
    simpl in Hc. rewrite Hc. rewrite last_seq. split; auto.
    f_equal. destruct n; lia.
Qed.

Lemma skipn_app_length {A} (l1 l2 : list A) : skipn (length l1) (l1 ++ l2) = l2.
Proof. induction l1; simpl; auto. Qed.

Lemma firstn_app_length {A} (l1 l2 : list A) : firstn (length l1) (l1 ++ l2) = l1.
Proof. induction l1; simpl; auto. f_equal; auto. Qed.

(** Slicing rows in date order by positions is filtering them by date. *)
Lemma slice_ascending (rs : list (Z * list (option scalar))) (lo hi : option Z) :
  ascending (map fst rs) ->
  slice rs (match lo with Some s => count_lt s (map fst rs) | None => 0%nat end)
           (match hi with Some e => count_le e (map fst rs) | None => length rs end)
  = filter (fun r => match lo with Some s => s <=? fst r | None => true end
                     && match hi with Some e => fst r <=? e | None => true end) rs.
Proof.
  intros Hs. unfold slice.
  set (pl := fun r : Z * list (option scalar) =>
               match lo with Some s => fst r <? s | None => false end).
  set (ph := fun r : Z * list (option scalar) =>
               match hi with Some e => fst r <=? e | None => true end).
  assert (Hrs : rs = filter pl rs ++ filter (fun r => negb (pl r)) rs).
  { subst pl. destruct lo as [s|].
    - apply (sorted_partition fst (fun x => x <? s)); auto.
      intros x y ?. rewrite !Z.ltb_lt. lia.
    - apply (sorted_partition fst (fun x => false)); auto. }
  set (G := filter (fun r => negb (pl r)) rs) in *.
  assert (HG : G = filter ph G ++ filter (fun r => negb (ph r)) G).
  { subst ph. destruct hi as [e|].
    - apply (sorted_partition fst (fun x => x <=? e)).
      + apply ascending_filter; auto.
      + intros x y ?. rewrite !Z.leb_le. lia.
    - apply (sorted_partition fst (fun x => true)); auto.
      apply ascending_filter; auto. }
  assert (Hlo : match lo with
                | Some s => count_lt s (map fst rs)
                | None => 0%nat
                end = length (filter pl rs)).
  { subst pl. destruct lo.
    - unfold count_lt. apply filter_length_map.
    - clear. induction rs; simpl; auto. }
  rewrite Hlo.
  assert (Hres : filter (fun r => match lo with Some s => s <=? fst r | None => true end
                                  && match hi with Some e => fst r <=? e | None => true end) rs
                 = filter ph G).
  { subst G. rewrite filter_filter. apply filter_ext_in_length.
    intros r _. subst pl ph. simpl. destruct lo as [s|]; simpl; auto.
    destruct (Z.leb_spec s (fst r)), (Z.ltb_spec (fst r) s); simpl; auto; lia. }
  rewrite Hres.
  assert (Hskip : skipn (length (filter pl rs)) rs = G).
  { rewrite Hrs at 2. apply skipn_app_length. }
  rewrite Hskip.
  assert (Hcnt : (match hi with
                  | Some e => count_le e (map fst rs)
                  | None => length rs
                  end - length (filter pl rs) = length (filter ph G))%nat).
  { assert (Hhi : match hi with
                  | Some e => count_le e (map fst rs)
                  | None => length rs
                  end = length (filter ph rs)).
    { subst ph. destruct hi.
      - unfold count_le. apply filter_length_map.
      - clear. induction rs; simpl; auto. }
    rewrite Hhi. rewrite Hrs at 1. rewrite filter_app, length_app.
    fold G.
    destruct (filter ph G) as [|g G1] eqn:HG1.
    - simpl. pose proof (filter_length_le ph (filter pl rs)). lia.
    - assert (Hall : filter ph (filter pl rs) = filter pl rs).
      { assert (Hg : In g G /\ ph g = true).
        { apply filter_In. rewrite HG1. simpl; auto. }
        destruct Hg as [HgG Hphg].
        subst G. apply filter_In in HgG. destruct HgG as [_ Hplg].
        rewrite filter_filter. apply filter_ext_in_length.
        intros r _. destruct (pl r) eqn:Hplr; simpl; auto.
        subst pl ph. simpl in *.
        destruct lo as [s|]; [|discriminate].
        destruct hi as [e|]; auto.
        apply Z.ltb_lt in Hplr. apply Z.leb_le in Hphg. apply Z.leb_le.
        destruct (Z.ltb_spec (fst g) s); [discriminate|]. lia. }
      rewrite Hall. lia. }
  rewrite Hcnt.
  pose proof (firstn_app_length (filter ph G) (filter (fun r => negb (ph r)) G)) as Hf.
  rewrite <- HG in Hf. exact Hf.
Qed.

Lemma loc_slice_ascending (df : Frame) (lo hi : option Z) :
  ascending (index df) ->
  loc_slice df lo hi =
  inr (mkDataFrame (columns df)
         (filter (fun r => match lo with Some s => s <=? fst r | None => true end
                           && match hi with Some e => fst r <=? e | None => true end)
                 (rows df))).
Proof.
  intros Hs. unfold loc_slice, slice_locs.
  rewrite <- (slice_ascending (rows df) lo hi Hs).
  unfold index in *.
  pose proof (fun t => proj1 (get_slice_bound_ascending (map fst (rows df)) t Hs)) as Hl.
  pose proof (fun t => proj2 (get_slice_bound_ascending (map fst (rows df)) t Hs)) as Hr.
  destruct lo as [s|], hi as [e|]; cbn [rbind];
    rewrite ?Hl; cbn [rbind]; rewrite ?Hr; cbn [rbind fst snd];
    rewrite ?length_map; reflexivity.
Qed.

Lemma rows_between_contiguous (rs : list (Z * list (option scalar))) (a b : Z) :
  ascending (map fst rs) ->
  exists pre post,
    rs = pre ++ rows_between a b rs ++ post /\
    Forall (fun r => fst r < a) pre /\
    Forall (fun r => b < fst r) post.
Proof.
  intros Hs.
  exists (filter (fun r => fst r <? a) rs).
  exists (filter (fun r => negb (fst r <=? b))
            (filter (fun r => negb (fst r <? a)) rs)).
  split; [|split].
  - assert (H1 : rs = filter (fun r => fst r <? a) rs
                      ++ filter (fun r => negb (fst r <? a)) rs).
    { apply (sorted_partition fst (fun x => x <? a)); auto.
      intros x y ?. rewrite !Z.ltb_lt. lia. }
    assert (H2 : filter (fun r => negb (fst r <? a)) rs
                 = filter (fun r => fst r <=? b) (filter (fun r => negb (fst r <? a)) rs)
                   ++ filter (fun r => negb (fst r <=? b))
                        (filter (fun r => negb (fst r <? a)) rs)).
    { apply (sorted_partition fst (fun x => x <=? b)).
      - apply ascending_filter; auto.
      - intros x y ?. rewrite !Z.leb_le. lia. }
    assert (H3 : rows_between a b rs
                 = filter (fun r => fst r <=? b) (filter (fun r => negb (fst r <? a)) rs)).
    { unfold rows_between. rewrite filter_filter. apply filter_ext_in_length.
      intros r _. destruct (Z.leb_spec a (fst r)), (Z.ltb_spec (fst r) a);
        simpl; auto; lia. }
    rewrite H3, <- H2. exact H1.
  - apply Forall_forall. intros r Hr. apply filter_In in Hr.
    destruct Hr as [_ Hr]. apply Z.ltb_lt in Hr. exact Hr.
  - apply Forall_forall. intros r Hr. apply filter_In in Hr.
    destruct Hr as [_ Hr]. destruct (Z.leb_spec (fst r) b); [discriminate|lia].
Qed.

(** ** Snapping a bound to a row date *)

Lemma ascending_app_last (l : list Z) (x : Z) :
  ascending (l ++ [x]) -> forall y, In y l -> y <= x.
Proof.
  unfold ascending. induction l as [|z l IH]; simpl; [tauto|].
  intros Hs y [<-|Hy].
  - inversion Hs as [|? ? _ Hall]; subst. rewrite Forall_forall in Hall.
    apply Hall. apply in_or_app. simpl; auto.
  - inversion Hs; subst. auto.
Qed.

(** The forward snap of the start: the position [searchsorted] finds on the
    left is inside the index and holds the smallest date not below [s]. *)
Lemma snap_start_ascending (idx : list Z) (s d : Z) :
  ascending idx -> In d idx -> s <= d ->
  (searchsorted idx s left < length idx)%nat /\
  exists s', getitem idx (Z.of_nat (searchsorted idx s left)) = inr s' /\
             resolves_start idx s s'.
Proof.
  intros Hs Hd Hsd.
  rewrite (proj1 (searchsorted_ascending idx s Hs)). unfold count_lt.
  assert (Hp : idx = filter (fun x => x <? s) idx
                     ++ filter (fun x => negb (x <? s)) idx).
  { apply (sorted_partition (fun x => x) (fun x => x <? s) idx).
    - rewrite map_id; auto.
    - intros x y ?. rewrite !Z.ltb_lt. lia. }
  assert (HG : ascending (filter (fun x => negb (x <? s)) idx)).
  { pose proof (ascending_filter (fun x => x) (fun x => negb (x <? s)) idx) as H.
    rewrite !map_id in H. auto. }
  remember (filter (fun x => x <? s) idx) as L eqn:HL.
  destruct (filter (fun x => negb (x <? s)) idx) as [|g G] eqn:HGe.
  - exfalso. assert (Hin : In d (filter (fun x => negb (x <? s)) idx)).
    { apply filter_In. split; auto. destruct (Z.ltb_spec d s); [lia|auto]. }
    rewrite HGe in Hin. exact Hin.
  - pose proof (f_equal (@length Z) Hp) as Hlen.
    rewrite length_app in Hlen. simpl in Hlen. split.
    + lia.
    + exists g. split.
      * apply getitem_nth_error. rewrite Hp.
        rewrite nth_error_app2 by lia. rewrite Nat.sub_diag. reflexivity.
      * assert (Hg : In g (filter (fun x => negb (x <? s)) idx))
          by (rewrite HGe; simpl; auto).
        apply filter_In in Hg. destruct Hg as [Hg1 Hg2].
        split; [auto|split].
        -- destruct (Z.ltb_spec g s); [discriminate|lia].
        -- intros d' Hd' Hsd'.
           assert (Hin : In d' (g :: G)).
           { rewrite <- HGe. apply filter_In. split; auto.
             destruct (Z.ltb_spec d' s); [lia|auto]. }
           destruct Hin as [<-|Hin]; [lia|].
           inversion HG as [|? ? _ Hall]; subst.
           rewrite Forall_forall in Hall. auto.
Qed.

(** The backward snap of the end: one before the position [searchsorted]
    finds on the right is inside the index and holds the largest date not
    above [e]. *)
Lemma snap_end_ascending (idx : list Z) (e d : Z) :
  ascending idx -> In d idx -> d <= e ->
  0 <= Z.of_nat (searchsorted idx e right) - 1 < Z.of_nat (length idx) /\
  exists e', getitem idx (Z.of_nat (searchsorted idx e right) - 1) = inr e' /\
             resolves_end idx e e'.
Proof.
  intros Hs Hd Hde.
  rewrite (proj2 (searchsorted_ascending idx e Hs)). unfold count_le.
  assert (Hp : idx = filter (fun x => x <=? e) idx
                     ++ filter (fun x => negb (x <=? e)) idx).
  { apply (sorted_partition (fun x => x) (fun x => x <=? e) idx).
    - rewrite map_id; auto.
    - intros x y ?. rewrite !Z.leb_le. lia. }
  assert (HL : ascending (filter (fun x => x <=? e) idx)).
  { pose proof (ascending_filter (fun x => x) (fun x => x <=? e) idx) as H.
    rewrite !map_id in H. auto. }
  assert (Hin : In d (filter (fun x => x <=? e) idx)).
  { apply filter_In. split; auto. apply Z.leb_le; auto. }
  remember (filter (fun x => negb (x <=? e)) idx) as G eqn:HGe.
  destruct (exists_last (l := filter (fun x => x <=? e) idx)) as [L' [x HLe]].
  { intros Hnil. rewrite Hnil in Hin. exact Hin. }
  rewrite HLe in *. rewrite length_app. simpl.
  replace (Z.of_nat (length L' + 1) - 1) with (Z.of_nat (length L')) by lia.
  pose proof (f_equal (@length Z) Hp) as Hlen.
  rewrite !length_app in Hlen. simpl in Hlen.
  split.
  - lia.
  - exists x. split.
    + apply getitem_nth_error. rewrite Hp. rewrite <- app_assoc.
      rewrite nth_error_app2 by lia. rewrite Nat.sub_diag. reflexivity.
    + assert (Hx : In x (filter (fun x => x <=? e) idx))
        by (rewrite HLe; apply in_or_app; simpl; auto).
      apply filter_In in Hx. destruct Hx as [Hx1 Hx2]. apply Z.leb_le in Hx2.
      split; [auto|split; auto].
      intros d' Hd' Hde'.
      assert (Hin' : In d' (L' ++ [x])).
      { rewrite <- HLe. apply filter_In. split; auto. apply Z.leb_le; auto. }
      apply in_app_or in Hin'. destruct Hin' as [Hin'|[<-|[]]]; [|lia].
      apply (ascending_app_last L' x HL); auto.
Qed.



(** ** [filter_df_by_date] *)



Lemma resolves_start_exact (idx : list Z) (s s' : Z) :
  In s idx -> resolves_start idx s s' -> s' = s.
Proof. intros Hin [_ [Hle Hmin]]. specialize (Hmin s Hin). lia. Qed.

Lemma resolves_end_exact (idx : list Z) (e e' : Z) :
  In e idx -> resolves_end idx e e' -> e' = e.
Proof. intros Hin [_ [Hle Hmax]]. specialize (Hmax e Hin). lia. Qed.

(** On a table in date order whose span contains [s < e], the filter snaps
    both bounds and keeps the rows between the snapped dates. *)
Lemma filter_df_by_date_ascending (df : Frame) (start end_ : string) (s e m M : Z) :
  to_datetime start = Some s ->
  to_datetime end_ = Some e ->
  ascending (index df) ->
  s < e ->
  index_min (index df) = Some m -> m <= s ->
  index_max (index df) = Some M -> e <= M ->
  exists s' e',
    resolves_start (index df) s s' /\
    resolves_end (index df) e e' /\
    filter_df_by_date df start end_ =
    inr (mkDataFrame (columns df) (rows_between s' e' (rows df))).
Proof.
  intros Hstart Hend Hasc Hse Hmin Hms Hmax HeM.
  destruct (index_min_spec _ _ Hmin) as [Hm_in Hm_le].
  destruct (index_max_spec _ _ Hmax) as [HM_in HM_le].
  assert (Hs' : exists s',
             (if negb (contains (index df) s)
              then getitem (index df) (Z.of_nat (searchsorted (index df) s left))
              else inr s) = inr s' /\ resolves_start (index df) s s').
  { destruct (contains (index df) s) eqn:Hc; simpl.
    - exists s. split; auto. apply contains_In in Hc.
      repeat split; auto; lia.
    - destruct (snap_start_ascending (index df) s M Hasc HM_in) as [_ H]; [lia|].
      exact H. }
  assert (He' : exists e',
             (if negb (contains (index df) e)
              then getitem (index df) (Z.of_nat (searchsorted (index df) e right) - 1)
              else inr e) = inr e' /\ resolves_end (index df) e e').
  { destruct (contains (index df) e) eqn:Hc; simpl.
    - exists e. split; auto. apply contains_In in Hc.
      repeat split; auto; lia.
    - destruct (snap_end_ascending (index df) e m Hasc Hm_in) as [_ H]; [lia|].
      exact H. }
  destruct Hs' as [s' [Hgs Hrs]]. destruct He' as [e' [Hge Hre]].
  exists s', e'. split; [auto|split; auto].
  unfold filter_df_by_date, to_datetime_scalar.
  rewrite Hstart, Hend. cbn [rbind].
  rewrite Z.geb_leb. destruct (Z.leb_spec e s); [lia|].
  rewrite Hmin, Hmax. unfold lt_opt, gt_opt.
  destruct (Z.ltb_spec s m); [lia|]. destruct (Z.ltb_spec M e); [lia|].
  change (false || false)%bool with false. cbv iota.
  rewrite Hgs. cbn [rbind]. rewrite Hge. cbn [rbind].
  rewrite (loc_slice_ascending df (Some s') (Some e') Hasc). reflexivity.
Qed.


Lemma filter_df_by_date_order (df : Frame) (start end_ : string) (s e : Z) :
  to_datetime start = Some s -> to_datetime end_ = Some e -> s >= e ->
  filter_df_by_date df start end_ = inl (ValueError msg_order).
Proof.
  intros Hstart Hend Hse. unfold filter_df_by_date, to_datetime_scalar.
  rewrite Hstart, Hend. cbn [rbind].
  rewrite Z.geb_leb. destruct (Z.leb_spec e s); [reflexivity|lia].
Qed.



Lemma rows_between_idem (rs : list (Z * list (option scalar))) (a b : Z) :
  rows_between a b (rows_between a b rs) = rows_between a b rs.
Proof.
  unfold rows_between. rewrite filter_filter. apply filter_ext_in_length.
  intros r _. destruct ((a <=? fst r) && (fst r <=? b))%bool; auto.
Qed.

Lemma rows_between_crossed (rs : list (Z * list (option scalar))) (a b : Z) :
  b < a -> rows_between a b rs = [].
Proof.
  intros Hab. unfold rows_between. induction rs as [|r rs IH]; simpl; auto.
  destruct (Z.leb_spec a (fst r)), (Z.leb_spec (fst r) b); simpl; auto; lia.
Qed.

Lemma In_index_rows_between (rs : list (Z * list (option scalar))) (a b d : Z) :
  In d (map fst (rows_between a b rs)) <-> In d (map fst rs) /\ a <= d <= b.
Proof.
  unfold rows_between. rewrite !in_map_iff. split.
  - intros [r [<- Hr]]. apply filter_In in Hr. destruct Hr as [Hr Hb].
    apply andb_true_iff in Hb. rewrite !Z.leb_le in Hb.
    split; [exists r; auto|lia].
  - intros [[r [<- Hr]] Hb]. exists r. split; auto.
    apply filter_In. split; auto. apply andb_true_iff. rewrite !Z.leb_le. lia.
Qed.

(** * The claims on [filter_df_by_date] *)

(** C1.  On a table whose rows are in date order, for dates [s < e] inside
    the table's span, [filter_df_by_date] resolves the start to the smallest
    row date not less than [s] and the end to the largest row date not
    greater than [e], and returns exactly the rows between the two resolved
    dates, both included, which are one contiguous run of the table's rows;
    when the resolved start exceeds the resolved end the result is the empty
    table and nothing is raised. *)
Theorem filter_df_by_date_resolves
    (df : Frame) (start end_ : string) (s e m M : Z) :
  to_datetime start = Some s ->
  to_datetime end_ = Some e ->
  ascending (index df) ->
  s < e ->
  index_min (index df) = Some m -> m <= s ->
  index_max (index df) = Some M -> e <= M ->
  exists s' e',
    resolves_start (index df) s s' /\
    resolves_end (index df) e e' /\
    filter_df_by_date df start end_ =
      inr (mkDataFrame (columns df) (rows_between s' e' (rows df))) /\
    (exists pre post,
        rows df = pre ++ rows_between s' e' (rows df) ++ post /\
        Forall (fun r => fst r < s') pre /\
        Forall (fun r => e' < fst r) post) /\
    (e' < s' ->
     filter_df_by_date df start end_ = inr (mkDataFrame (columns df) [])).
Proof.
  intros Hstart Hend Hasc Hse Hmin Hms Hmax HeM.
  destruct (filter_df_by_date_ascending df start end_ s e m M
              Hstart Hend Hasc Hse Hmin Hms Hmax HeM)
    as [s' [e' [Hrs [Hre Hf]]]].
  exists s', e'. repeat split; try apply Hrs; try apply Hre; auto.
  - apply rows_between_contiguous. exact Hasc.
  - intros Hcross. rewrite Hf. rewrite rows_between_crossed; auto.
Qed.


(** C7.  On a table in date order, when both bounds are row dates and
    [filter_df_by_date] succeeds, filtering its result again with the same
    bounds succeeds and gives the same table. *)
Theorem filter_df_by_date_idempotent
    (df r : Frame) (start end_ : string) (s e : Z) :
  to_datetime start = Some s ->
  to_datetime end_ = Some e ->
  ascending (index df) ->
  In s (index df) -> In e (index df) ->
  filter_df_by_date df start end_ = inr r ->
  filter_df_by_date r start end_ = inr r.
Proof.
  intros Hstart Hend Hasc Hs He Hf.
  assert (Hse : s < e).
  { destruct (Z_lt_ge_dec s e) as [|Hge]; auto.
    rewrite (filter_df_by_date_order df start end_ s e Hstart Hend Hge) in Hf.
    discriminate. }
  destruct (index_min_In _ _ Hs) as [m Hmin].
  destruct (index_max_In _ _ Hs) as [M Hmax].
  destruct (index_min_spec _ _ Hmin) as [_ Hm_le].
  destruct (index_max_spec _ _ Hmax) as [_ HM_le].
  destruct (filter_df_by_date_ascending df start end_ s e m M
              Hstart Hend Hasc Hse Hmin (Hm_le s Hs) Hmax (HM_le e He))
    as [s' [e' [Hrs [Hre Hf']]]].
  rewrite (resolves_start_exact _ _ _ Hs Hrs) in Hf'.
  rewrite (resolves_end_exact _ _ _ He Hre) in Hf'.
  rewrite Hf in Hf'. injection Hf' as ->.
  set (r := mkDataFrame (columns df) (rows_between s e (rows df))).
  assert (Hasc' : ascending (index r)).
  { unfold index, r. cbn [rows]. unfold rows_between.
    apply ascending_filter. exact Hasc. }
  assert (Hs' : In s (index r)).
  { unfold index, r. cbn [rows]. apply In_index_rows_between.
    split; [exact Hs|lia]. }
  assert (He' : In e (index r)).
  { unfold index, r. cbn [rows]. apply In_index_rows_between.
    split; [exact He|lia]. }
  destruct (index_min_In _ _ Hs') as [m' Hmin'].
  destruct (index_max_In _ _ Hs') as [M' Hmax'].
  destruct (index_min_spec _ _ Hmin') as [_ Hm_le'].
  destruct (index_max_spec _ _ Hmax') as [_ HM_le'].
  destruct (filter_df_by_date_ascending r start end_ s e m' M'
              Hstart Hend Hasc' Hse Hmin' (Hm_le' s Hs') Hmax' (HM_le' e He'))
    as [s'' [e'' [Hrs' [Hre' Hf'']]]].
  rewrite (resolves_start_exact _ _ _ Hs' Hrs') in Hf''.
  rewrite (resolves_end_exact _ _ _ He' Hre') in Hf''.
  rewrite Hf''. unfold r. cbn [rows columns].
  rewrite rows_between_idem. reflexivity.
Qed.

(** C9.  On a table in date order, once the range checks pass ([s < e], the
    start not below the table's minimum date and the end not above its
    maximum date, so that the table has a row), the position [searchsorted]
    finds for the start on the left and the position one before the one it
    finds for the end on the right both lie inside the index, both look-ups
    return a date, and the function does not raise [IndexError]. *)
Theorem filter_df_by_date_lookups_in_bounds
    (df : Frame) (start end_ : string) (s e m M : Z) :
  to_datetime start = Some s ->
  to_datetime end_ = Some e ->
  ascending (index df) ->
  s < e ->
  index_min (index df) = Some m -> m <= s ->
  index_max (index df) = Some M -> e <= M ->
  (0 <= searchsorted (index df) s left < length (index df))%nat /\
  0 <= Z.of_nat (searchsorted (index df) e right) - 1
    < Z.of_nat (length (index df)) /\
  (exists s', getitem (index df)
                (Z.of_nat (searchsorted (index df) s left)) = inr s') /\
  (exists e', getitem (index df)
                (Z.of_nat (searchsorted (index df) e right) - 1) = inr e') /\
  (exists r, filter_df_by_date df start end_ = inr r).
Proof.
  intros Hstart Hend Hasc Hse Hmin Hms Hmax HeM.
  destruct (index_min_spec _ _ Hmin) as [Hm_in _].
  destruct (index_max_spec _ _ Hmax) as [HM_in _].
  destruct (snap_start_ascending (index df) s M Hasc HM_in) as [Hb1 [s' [Hg1 _]]];
    [lia|].
  destruct (snap_end_ascending (index df) e m Hasc Hm_in) as [Hb2 [e' [Hg2 _]]];
    [lia|].
  destruct (filter_df_by_date_ascending df start end_ s e m M
              Hstart Hend Hasc Hse Hmin Hms Hmax HeM)
    as [s'' [e'' [_ [_ Hf]]]].
  repeat split; try lia; eauto.
Qed.

(** * [retrieve_etf_data] and [download] *)

Lemma bind_lift {A B} (r : result A) (f : A -> io B) :
  bind (lift r) f = match r with inl x => ([], inl x) | inr a => f a end.
Proof.
  unfold bind, lift. destruct r as [x|a]; auto.
  destruct (f a). reflexivity.
Qed.

(** [retrieve_etf_data] run step by step. *)
Lemma retrieve_etf_data_unfold (ticker start end_ : string) :
  retrieve_etf_data ticker start end_ = load_then_filterByDate ticker start end_.
Proof.
  unfold retrieve_etf_data, load_then_filterByDate.
  destruct (process_etf_data ticker) as [opened [error|table]]; cbn [bind].
  - reflexivity.
  - rewrite bind_lift.
    destruct (filter_df_by_date table start end_) as [error|filtered];
      cbn [ret]; rewrite app_nil_r; reflexivity.
Qed.

(** C8.  [retrieve_etf_data] is the composition of [process_etf_data] and
    [filter_df_by_date]: the same table when both succeed, and the error of
    the step that failed, unchanged, otherwise. *)
Theorem retrieve_etf_data_composition (ticker start end_ : string) :
  retrieve_etf_data ticker start end_ = load_then_filterByDate ticker start end_.
Proof.
  unfold retrieve_etf_data, load_then_filterByDate.
  destruct (process_etf_data ticker) as [opened [error|table]]; cbn [bind].
  - reflexivity.
  - rewrite bind_lift.
    destruct (filter_df_by_date table start end_) as [error|filtered];
      cbn [ret]; rewrite app_nil_r; reflexivity.
Qed.

Lemma download_unfold (ticker : string) (start end_ : option string) :
  download ticker start end_ =
  (fst (process_etf_data ticker),
   match snd (process_etf_data ticker) with
   | inl x => inl x
   | inr df => download_body df start end_
   end).
Proof.
  unfold download, download_body.
  destruct (process_etf_data ticker) as [tr [x|df]]; cbn [bind fst snd].
  - reflexivity.
  - destruct (truthy start && truthy end_)%bool.
    { cbn [lift]. rewrite app_nil_r. reflexivity. }
    destruct (truthy start).
    { rewrite bind_lift. destruct (to_datetime_scalar (arg start)); cbn [rbind lift];
        rewrite app_nil_r; reflexivity. }
    destruct (truthy end_).
    { rewrite bind_lift. destruct (to_datetime_scalar (arg end_)); cbn [rbind lift];
        rewrite app_nil_r; reflexivity. }
    cbn [ret]. rewrite app_nil_r. reflexivity.
Qed.

(** C4.  [download] goes by the bounds that are given.  With both it is the
    two-sided filter of [retrieve_etf_data], errors included.  With a start
    only it returns, for a loaded table in date order, exactly the rows
    dated at or after the start, without checking the start against the
    table's span and without snapping, so that a start after every row gives
    the empty table and no error.  With an end only it returns exactly the
    rows dated at or before the end.  With neither it is
    [process_etf_data]. *)
Theorem download_cases (ticker : string) :
  (forall start end_,
      truthy (Some start) = true -> truthy (Some end_) = true ->
      download ticker (Some start) (Some end_) =
      retrieve_etf_data ticker start end_) /\
  (forall start end_ opened df s,
      truthy (Some start) = true -> truthy end_ = false ->
      process_etf_data ticker = (opened, inr df) ->
      to_datetime start = Some s ->
      ascending (index df) ->
      download ticker (Some start) end_ =
      (opened, inr (mkDataFrame (columns df)
                      (filter (fun r => s <=? fst r) (rows df)))) /\
      (Forall (fun d => d < s) (index df) ->
       download ticker (Some start) end_ =
       (opened, inr (mkDataFrame (columns df) [])))) /\
  (forall start end_ opened df e,
      truthy start = false -> truthy (Some end_) = true ->
      process_etf_data ticker = (opened, inr df) ->
      to_datetime end_ = Some e ->
      ascending (index df) ->
      download ticker start (Some end_) =
      (opened, inr (mkDataFrame (columns df)
                      (filter (fun r => fst r <=? e) (rows df))))) /\
  (forall start end_,
      truthy start = false -> truthy end_ = false ->
      download ticker start end_ = process_etf_data ticker).
Proof.
  split; [|split; [|split]].
  - intros start end_ Hs He. rewrite download_unfold, retrieve_etf_data_unfold.
    unfold load_then_filterByDate, download_body. rewrite Hs, He. cbn [andb arg].
    destruct (process_etf_data ticker) as [tr [x|df]]; reflexivity.
  - intros start end_ opened df s Hs He Hp Hd Hasc.
    assert (Hdl : download ticker (Some start) end_ =
                  (opened, inr (mkDataFrame (columns df)
                                  (filter (fun r => s <=? fst r) (rows df))))).
    { rewrite download_unfold, Hp. cbn [fst snd]. unfold download_body.
      rewrite Hs, He. cbn [andb arg]. unfold to_datetime_scalar. rewrite Hd.
      cbn [rbind]. rewrite (loc_slice_ascending df (Some s) None Hasc).
      do 3 f_equal. apply filter_ext_in_length. intros r _.
      apply andb_true_r. }
    split; [exact Hdl|].
    intros Hall. rewrite Hdl. do 3 f_equal.
    unfold index in Hall. clear -Hall.
    induction (rows df) as [|r rs IH]; simpl in *; auto.
    inversion Hall; subst.
    destruct (Z.leb_spec s (fst r)); [lia|auto].
  - intros start end_ opened df e Hs He Hp Hd Hasc.
    rewrite download_unfold, Hp. cbn [fst snd]. unfold download_body.
    rewrite Hs, He. cbn [andb arg]. unfold to_datetime_scalar. rewrite Hd.
    cbn [rbind]. rewrite (loc_slice_ascending df None (Some e) Hasc).
    reflexivity.
  - intros start end_ Hs He. rewrite download_unfold. unfold download_body.
    rewrite Hs, He. cbn [andb].
    destruct (process_etf_data ticker) as [tr [x|df]]; reflexivity.
Qed.

(** * [history]: validation *)

Lemma str_in_In (x : string) (xs : list string) :
  str_in x xs = true <-> In x xs.
Proof.
  unfold str_in. rewrite existsb_exists. split.
  - intros [y [Hy Heq]]. apply String.eqb_eq in Heq. subst. auto.
  - intros H. exists x. split; auto. apply String.eqb_refl.
Qed.





Lemma to_datetime_index_error (labels : list string) (x : exn) :
  to_datetime_index labels = inl x -> x = DateParseError.
Proof.
  induction labels as [|l ls IH]; simpl; [discriminate|].
  unfold to_datetime_scalar. destruct (to_datetime l); cbn [rbind]; [|congruence].
  destruct (to_datetime_index ls); cbn [rbind]; [|discriminate].
  intros [= <-]. auto.
Qed.







(** C10.  [history] called with no ticker returns the empty table and raises
    nothing: no ticker is invalid, the loop body never runs, and the empty
    accumulator comes back; no file is opened. *)
Theorem history_empty (self : MagesticEquityData) (start end_ : option string) :
  invalid_tickers self [] = [] /\
  history self [] start end_ = ([], inr empty_frame).
Proof. split; reflexivity. Qed.

(** * Facts about labels, unions and [concat] *)

Section LabelFacts.

Context {L : Type} (eqb : L -> L -> bool).
Hypothesis eqb_spec : forall x y, reflect (x = y) (eqb x y).

Lemma eqb_refl' (x : L) : eqb x x = true.
Proof. destruct (eqb_spec x x); congruence. Qed.

Lemma mem_In (x : L) (xs : list L) : mem eqb x xs = true <-> In x xs.
Proof.
  unfold mem. rewrite existsb_exists. split.
  - intros [y [Hy Heq]]. destruct (eqb_spec x y); [subst; auto|discriminate].
  - intros H. exists x. split; auto. apply eqb_refl'.
Qed.

Lemma list_eqb_eq (a b : list L) : list_eqb eqb a b = true <-> a = b.
Proof.
  revert b. induction a as [|x a IH]; intros [|y b]; simpl;
    try (split; [discriminate|congruence]); try tauto.
  rewrite andb_true_iff, IH. destruct (eqb_spec x y).
  - subst. split; [intros [_ ->]; auto|intros [= ->]; auto].
  - split; [intros [? _]; discriminate|intros [= ? ?]; contradiction].
Qed.

Lemma has_duplicates_NoDup (l : list L) :
  has_duplicates eqb l = false <-> NoDup l.
Proof.
  induction l as [|x l IH]; simpl.
  - split; auto. constructor.
  - rewrite orb_false_iff, IH. split.
    + intros [Hm Hn]. constructor; auto.
      intros Hin. apply mem_In in Hin. congruence.
    + intros Hn. inversion Hn; subst. split; auto.
      destruct (mem eqb x l) eqn:Hm; auto. apply mem_In in Hm. contradiction.
Qed.

Lemma unique_In (x : L) (l : list L) : In x (unique eqb l) <-> In x l.
Proof.
  induction l as [|y l IH]; simpl; [tauto|].
  rewrite filter_In, IH. destruct (eqb_spec x y).
  - subst. tauto.
  - simpl. split.
    + intros [?|[? _]]; auto.
    + intros [?|?]; [left; auto|right; auto].
Qed.

Lemma NoDup_filter {A} (p : A -> bool) (l : list A) : NoDup l -> NoDup (filter p l).
Proof.
  induction 1 as [|x l Hx Hn IH]; simpl; [constructor|].
  destruct (p x); auto. constructor; auto.
  rewrite filter_In. tauto.
Qed.

Lemma unique_NoDup (l : list L) : NoDup (unique eqb l).
Proof.
  induction l as [|y l IH]; simpl; constructor.
  - rewrite filter_In. intros [_ H]. rewrite eqb_refl' in H. discriminate.
  - apply NoDup_filter. exact IH.
Qed.

Lemma unique_id (l : list L) : NoDup l -> unique eqb l = l.
Proof.
  induction 1 as [|x l Hx Hn IH]; simpl; auto.
  rewrite IH. f_equal.
  clear IH Hn. induction l as [|y l IH]; simpl; auto.
  destruct (eqb_spec y x).
  - subst. exfalso. apply Hx. simpl; auto.
  - simpl. f_equal. apply IH. intros H. apply Hx. simpl; auto.
Qed.

Lemma count_notin (v : L) (l : list L) : ~ In v l -> count eqb v l = 0%nat.
Proof.
  unfold count. induction l as [|y l IH]; simpl; auto.
  intros H. destruct (eqb_spec v y).
  - subst. exfalso. apply H. auto.
  - apply IH. intros ?. apply H. auto.
Qed.

Lemma count_NoDup (v : L) (l : list L) :
  NoDup l -> In v l -> count eqb v l = 1%nat.
Proof.
  unfold count. induction 1 as [|y l Hy Hn IH]; simpl; [tauto|].
  intros [->|Hin].
  - rewrite eqb_refl'. simpl. f_equal. apply (count_notin v l Hy).
  - destruct (eqb_spec v y); [subst; contradiction|auto].
Qed.

Lemma union_with_duplicates_NoDup (a b : list L) :
  NoDup a -> NoDup b ->
  union_with_duplicates eqb a b = unique eqb (a ++ b).
Proof.
  intros Ha Hb. unfold union_with_duplicates.
  assert (H : forall v, In v (unique eqb (a ++ b)) ->
                        Nat.max (count eqb v a) (count eqb v b) = 1%nat).
  { intros v Hv. apply (proj1 (unique_In v (a ++ b))) in Hv.
    apply in_app_or in Hv.
    assert (Hca : (count eqb v a <= 1)%nat).
    { destruct (in_dec (fun x y => reflect_dec _ _ (eqb_spec x y)) v a).
      - rewrite count_NoDup; auto.
      - rewrite count_notin; auto. }
    assert (Hcb : (count eqb v b <= 1)%nat).
    { destruct (in_dec (fun x y => reflect_dec _ _ (eqb_spec x y)) v b).
      - rewrite count_NoDup; auto.
      - rewrite count_notin; auto. }
    destruct Hv as [Hv|Hv].
    - rewrite (count_NoDup v a Ha Hv). lia.
    - rewrite (count_NoDup v b Hb Hv). lia. }
  induction (unique eqb (a ++ b)) as [|v l IH]; simpl; auto.
  rewrite H by (simpl; auto). simpl. f_equal. apply IH.
  intros; apply H; simpl; auto.
Qed.

Section Rows.

Variable V : Type.

Lemma lookup_row_None (d : L) (rs : list (L * list (option V))) :
  ~ In d (map fst rs) -> lookup_row eqb d rs = None.
Proof.
  unfold lookup_row. induction rs as [|r rs IH]; simpl; auto.
  intros H. destruct (eqb_spec (fst r) d).
  - exfalso. apply H. auto.
  - apply IH. intros ?. apply H. auto.
Qed.

Lemma lookup_row_Some (d : L) (rs : list (L * list (option V))) (c : list (option V)) :
  lookup_row eqb d rs = Some c -> In (d, c) rs.
Proof.
  unfold lookup_row. induction rs as [|r rs IH]; simpl; [discriminate|].
  destruct (eqb_spec (fst r) d).
  - intros [= <-]. left. destruct r; simpl in *; subst; auto.
  - intros H. right. auto.
Qed.

Lemma lookup_row_In (d : L) (rs : list (L * list (option V))) :
  In d (map fst rs) -> exists c, lookup_row eqb d rs = Some c.
Proof.
  unfold lookup_row. induction rs as [|r rs IH]; simpl; [tauto|].
  intros H. destruct (eqb_spec (fst r) d).
  - eauto.
  - destruct H as [H|H]; [contradiction|auto].
Qed.

Lemma lookup_row_map (F : L -> list (option V)) (U : list L) (d : L) :
  lookup_row eqb d (map (fun t => (t, F t)) U) =
  if mem eqb d U then Some (F d) else None.
Proof.
  unfold lookup_row, mem. induction U as [|u U IH]; simpl; auto.
  destruct (eqb_spec u d), (eqb_spec d u); subst; simpl; auto; congruence.
Qed.

Lemma lookup_row_unique (rs : list (L * list (option V))) (n : nat) :
  NoDup (map fst rs) ->
  map snd rs =
  map (fun t => match lookup_row eqb t rs with
                | Some cells => cells
                | None => repeat None n
                end) (map fst rs).
Proof.
  induction rs as [|r rs IH]; simpl; auto.
  intros Hn. inversion Hn as [|? ? Hr Hn']; subst.
  unfold lookup_row at 1. simpl. rewrite eqb_refl'. f_equal.
  rewrite (IH Hn') at 1. apply map_ext_in.
  intros d Hd. unfold lookup_row. simpl.
  destruct (eqb_spec (fst r) d); [subst; contradiction|reflexivity].
Qed.

Lemma take_rows_unique (df : DataFrame L V) (U : list L) :
  NoDup (index df) ->
  take_rows eqb df U = inr (map (row_or_nan eqb df) U).
Proof.
  intros Hn. unfold take_rows.
  destruct (list_eqb eqb (index df) U) eqn:He.
  - apply list_eqb_eq in He. subst U. f_equal.
    apply (lookup_row_unique (rows df) (length (columns df)) Hn).
  - rewrite (proj2 (has_duplicates_NoDup (index df)) Hn). reflexivity.
Qed.

Lemma combine_rows (F G : L -> list (option V)) (U : list L) :
  map (fun r => (fst r, fst (snd r) ++ snd (snd r)))
      (combine U (combine (map F U) (map G U)))
  = map (fun t => (t, F t ++ G t)) U.
Proof. induction U as [|u U IH]; simpl; auto. f_equal. exact IH. Qed.

(** With indexes free of repeated labels, [concat] lays both frames out
    along the union of the indexes. *)
Lemma concat_axis1_general (union : list L -> list L -> list L)
    (a b : DataFrame L V) :
  NoDup (index a) -> NoDup (index b) ->
  (negb (is_empty a) && is_empty b = false)%bool ->
  (is_empty a && negb (is_empty b) = false)%bool ->
  concat_axis1 eqb union a b =
  inr (mkDataFrame (columns a ++ columns b)
         (map (fun t => (t, row_or_nan eqb a t ++ row_or_nan eqb b t))
              (union (index a) (index b)))).
Proof.
  intros Ha Hb H1 H2. unfold concat_axis1. rewrite H1, H2.
  rewrite (take_rows_unique a _ Ha), (take_rows_unique b _ Hb). cbn [rbind].
  rewrite combine_rows. reflexivity.
Qed.

End Rows.

End LabelFacts.

(** ** The union of two date indexes *)

Lemma insert_sorted_Permutation (x : Z) (l : list Z) :
  Permutation (insert_sorted x l) (x :: l).
Proof.
  induction l as [|y l IH]; simpl; auto.
  destruct (x <=? y); auto.
  rewrite IH. apply perm_swap.
Qed.

Lemma sort_values_Permutation (l : list Z) : Permutation (sort_values l) l.
Proof.
  induction l as [|x l IH]; simpl; auto.
  rewrite insert_sorted_Permutation. auto.
Qed.

Lemma insert_sorted_ascending (x : Z) (l : list Z) :
  ascending l -> ascending (insert_sorted x l).
Proof.
  unfold ascending. induction 1 as [|y l Hs IH Hall]; simpl.
  - constructor; constructor.
  - destruct (Z.leb_spec x y).
    + constructor; [constructor; auto|].
      constructor; auto. eapply Forall_impl; [|exact Hall]. simpl. intros; lia.
    + constructor; auto.
      rewrite Forall_forall in *. intros z Hz.
      apply (Permutation_in _ (insert_sorted_Permutation x l)) in Hz.
      destruct Hz as [<-|Hz]; [lia|auto].
Qed.

Lemma sort_values_ascending (l : list Z) : ascending (sort_values l).
Proof.
  induction l as [|x l IH]; simpl.
  - constructor.
  - apply insert_sorted_ascending. exact IH.
Qed.

Lemma strictly_ascending_NoDup (l : list Z) : strictly_ascending l -> NoDup l.
Proof.
  unfold strictly_ascending. induction 1 as [|x l Hs IH Hall]; constructor; auto.
  intros Hin. rewrite Forall_forall in Hall. specialize (Hall x Hin). lia.
Qed.

Lemma ascending_NoDup_strictly (l : list Z) :
  ascending l -> NoDup l -> strictly_ascending l.
Proof.
  unfold ascending, strictly_ascending.
  induction 1 as [|x l Hs IH Hall]; intros Hn; constructor.
  - apply IH. inversion Hn; auto.
  - inversion Hn as [|? ? Hx Hn']; subst.
    rewrite Forall_forall in *. intros y Hy.
    specialize (Hall y Hy). assert (x <> y) by (intros ->; contradiction). lia.
Qed.

(** The union of two indexes in strict date order is in strict date order
    and holds the dates of both. *)
Lemma union_datetime_spec (a b : list Z) :
  strictly_ascending a -> strictly_ascending b ->
  strictly_ascending (union_datetime a b) /\
  forall d, In d (union_datetime a b) <-> In d a \/ In d b.
Proof.
  intros Ha Hb. unfold union_datetime.
  destruct b as [|y b]; [split; [auto|simpl; tauto]|].
  destruct (list_eqb Z.eqb a (y :: b)) eqn:He.
  { apply (list_eqb_eq Z.eqb Z.eqb_spec) in He. subst a. split; [auto|tauto]. }
  destruct a as [|x a]; [split; [auto|simpl; tauto]|].
  rewrite (union_with_duplicates_NoDup Z.eqb Z.eqb_spec);
    auto using strictly_ascending_NoDup.
  split.
  - apply ascending_NoDup_strictly.
    + apply sort_values_ascending.
    + eapply Permutation_NoDup.
      * apply Permutation_sym, sort_values_Permutation.
      * apply (unique_NoDup Z.eqb Z.eqb_spec).
  - intros d. split.
    + intros H. apply (Permutation_in _ (sort_values_Permutation _)) in H.
      apply (proj1 (unique_In Z.eqb Z.eqb_spec d _)) in H.
      apply in_app_or in H. exact H.
    + intros H. apply (Permutation_in _ (Permutation_sym (sort_values_Permutation _))).
      apply (proj2 (unique_In Z.eqb Z.eqb_spec d _)). apply in_or_app. exact H.
Qed.

Lemma rebuild_pairs {A B} (F : A -> B) (rs : list (A * B)) :
  map snd rs = map F (map fst rs) ->
  rs = map (fun t => (t, F t)) (map fst rs).
Proof.
  induction rs as [|r rs IH]; simpl; auto.
  intros [= H1 H2]. f_equal; auto. destruct r; simpl in *; congruence.
Qed.

Lemma rows_rebuild (df : Frame) :
  NoDup (index df) ->
  rows df = map (fun t => (t, row_or_nan Z.eqb df t)) (index df).
Proof.
  intros Hn. unfold index. apply rebuild_pairs.
  apply (lookup_row_unique Z.eqb Z.eqb_spec _ (rows df)
           (length (columns df)) Hn).
Qed.

(** [pd.concat(axis=1)] of two frames indexed in strict date order: the
    columns side by side over the union of the dates. *)
Lemma concat_axis1_datetime (a b : Frame) :
  strictly_ascending (index a) -> strictly_ascending (index b) ->
  concat_axis1 Z.eqb union_datetime a b =
  inr (mkDataFrame (columns a ++ columns b)
         (map (fun t => (t, row_or_nan Z.eqb a t ++ row_or_nan Z.eqb b t))
              (union_datetime (index a) (index b)))).
Proof.
  intros Ha Hb.
  pose proof (strictly_ascending_NoDup _ Ha) as Hna.
  pose proof (strictly_ascending_NoDup _ Hb) as Hnb.
  destruct (negb (is_empty a) && is_empty b)%bool eqn:H1.
  { unfold concat_axis1. rewrite H1.
    apply andb_true_iff in H1. destruct H1 as [_ H1].
    unfold is_empty in H1. apply Nat.eqb_eq in H1.
    destruct b as [cb rb]. cbn [rows columns] in *.
    destruct rb; [|simpl in H1; lia]. destruct cb; [|simpl in H1; lia].
    unfold index at 2. cbn [rows map]. cbn [union_datetime].
    rewrite app_nil_r. unfold row_or_nan at 2. cbn [rows columns lookup_row find length repeat].
    destruct a as [ca ra]. f_equal. cbn [columns]. f_equal.
    rewrite (rows_rebuild (mkDataFrame ca ra) Hna) at 1.
    apply map_ext. intros t. rewrite app_nil_r. reflexivity. }
  destruct (is_empty a && negb (is_empty b))%bool eqn:H2.
  { unfold concat_axis1. rewrite H1, H2.
    apply andb_true_iff in H2. destruct H2 as [H2 H3].
    unfold is_empty in H2. apply Nat.eqb_eq in H2.
    destruct a as [ca ra]. cbn [rows columns] in *.
    destruct ra; [|simpl in H2; lia]. destruct ca; [|simpl in H2; lia].
    unfold index at 1. cbn [rows map].
    assert (Hu : union_datetime [] (index b) = index b).
    { unfold union_datetime. destruct (index b); reflexivity. }
    rewrite Hu. cbn [app]. destruct b as [cb rb]. f_equal. cbn [columns]. f_equal.
    rewrite (rows_rebuild (mkDataFrame cb rb) Hnb) at 1.
    apply map_ext. intros t. reflexivity. }
  apply (concat_axis1_general Z.eqb Z.eqb_spec); auto.
Qed.

(** * [process_etf_data]: the joined table *)

Lemma dict_get_set_eq {V} (k : string) (v : V) (d : dict V) :
  dict_get k (dict_set k v d) = Some v.
Proof.
  induction d as [|[k' v'] d IH]; simpl.
  - rewrite String.eqb_refl. reflexivity.
  - destruct (String.eqb_spec k k'); simpl.
    + subst. rewrite String.eqb_refl. reflexivity.
    + destruct (String.eqb_spec k k'); [contradiction|exact IH].
Qed.

Lemma dict_get_set_neq {V} (k k' : string) (v : V) (d : dict V) :
  k' <> k -> dict_get k' (dict_set k v d) = dict_get k' d.
Proof.
  intros Hne. induction d as [|[k0 v0] d IH]; simpl.
  - destruct (String.eqb_spec k' k); [contradiction|reflexivity].
  - destruct (String.eqb_spec k k0); simpl.
    + subst. destruct (String.eqb_spec k' k0); [contradiction|reflexivity].
    + destruct (String.eqb_spec k' k0); auto.
Qed.

Lemma keys_dict_set_In {V} (k k' : string) (v : V) (d : dict V) :
  In k' (keys (dict_set k v d)) <-> k' = k \/ In k' (keys d).
Proof.
  unfold keys. induction d as [|[k0 v0] d IH]; simpl.
  - split; [intros [H|[]]; auto|intros [H|[]]; auto].
  - destruct (String.eqb_spec k k0); simpl.
    + subst. intuition congruence.
    + rewrite IH. tauto.
Qed.

Lemma keys_dict_set_NoDup {V} (k : string) (v : V) (d : dict V) :
  NoDup (keys d) -> NoDup (keys (dict_set k v d)).
Proof.
  unfold keys. induction d as [|[k0 v0] d IH]; simpl; intros Hn.
  - constructor; [simpl; tauto|constructor].
  - inversion Hn as [|? ? Hk Hn']; subst.
    destruct (String.eqb_spec k k0); simpl.
    + constructor; auto.
    + constructor; auto.
      intros Hin. apply (keys_dict_set_In k k0 v d) in Hin.
      destruct Hin as [Hin|Hin]; [congruence|contradiction].
Qed.

Lemma dict_of_pairs_NoDup {V} (ps : list (string * V)) :
  NoDup (keys (dict_of_pairs ps)).
Proof.
  unfold dict_of_pairs.
  assert (H : forall d, NoDup (keys d) ->
                        NoDup (keys (fold_left (fun d kv => dict_set (fst kv) (snd kv) d) ps d))).
  { induction ps as [|kv ps IH]; simpl; auto.
    intros d Hd. apply IH. apply keys_dict_set_NoDup. exact Hd. }
  apply H. constructor.
Qed.

Lemma dict_get_None {V} (k : string) (d : dict V) :
  dict_get k d = None <-> ~ In k (keys d).
Proof.
  unfold keys. induction d as [|[k0 v0] d IH]; simpl.
  - tauto.
  - destruct (String.eqb_spec k k0).
    + subst. split; [discriminate|]. intros H. exfalso. apply H. auto.
    + rewrite IH. split.
      * intros H [H'|H']; [congruence|contradiction].
      * intros H H'. apply H. auto.
Qed.

Lemma dict_get_In {V} (k : string) (v : V) (d : dict V) :
  dict_get k d = Some v -> In (k, v) d.
Proof.
  induction d as [|[k0 v0] d IH]; simpl; [discriminate|].
  destruct (String.eqb_spec k k0).
  - intros [= <-]. subst. auto.
  - auto.
Qed.

Lemma In_dict_get {V} (k : string) (v : V) (d : dict V) :
  NoDup (keys d) -> In (k, v) d -> dict_get k d = Some v.
Proof.
  unfold keys. induction d as [|[k0 v0] d IH]; simpl; [tauto|].
  intros Hn. inversion Hn as [|? ? Hk Hn']; subst.
  intros [[= <- <-]|Hin].
  - rewrite String.eqb_refl. reflexivity.
  - destruct (String.eqb_spec k k0).
    + subst. exfalso. apply Hk. apply in_map_iff. exists (k0, v). auto.
    + auto.
Qed.

Lemma get2_assign_cell (nd : dict (dict scalar)) (c i c' k' : string) (v : scalar) :
  get2 (assign_cell c i v nd) c' k' =
  if (String.eqb c' c && String.eqb k' i)%bool then Some v else get2 nd c' k'.
Proof.
  unfold get2, assign_cell.
  destruct (String.eqb_spec c' c) as [->|Hc]; simpl.
  - rewrite dict_get_set_eq.
    destruct (String.eqb_spec k' i) as [->|Hk].
    + apply dict_get_set_eq.
    + rewrite dict_get_set_neq by exact Hk.
      destruct (dict_get c nd); reflexivity.
  - rewrite dict_get_set_neq by exact Hc. reflexivity.
Qed.

Lemma get2_row (i : string) (s : dict scalar) :
  NoDup (keys s) ->
  forall nd c k,
    get2 (fold_left (fun nd cv => assign_cell (fst cv) i (snd cv) nd) s nd) c k =
    if String.eqb k i then
      match dict_get c s with
      | Some v => Some v
      | None => get2 nd c k
      end
    else get2 nd c k.
Proof.
  unfold keys. induction s as [|[c0 v0] s IH]; simpl; intros Hn nd c k.
  - destruct (String.eqb k i); reflexivity.
  - inversion Hn as [|? ? Hc0 Hn']; subst.
    rewrite (IH Hn'). rewrite get2_assign_cell.
    destruct (String.eqb_spec k i) as [->|Hk]; simpl.
    + destruct (String.eqb_spec c c0) as [->|Hc]; simpl.
      * rewrite (proj2 (dict_get_None c0 s) Hc0). reflexivity.
      * reflexivity.
    + rewrite andb_false_r. reflexivity.
Qed.

Lemma get2_from_nested_dict (data : dict (dict scalar)) :
  NoDup (keys data) ->
  (forall k s, In (k, s) data -> NoDup (keys s)) ->
  forall c k, get2 (from_nested_dict data) c k = weight_cell data k c.
Proof.
  unfold from_nested_dict.
  assert (H : forall nd,
             NoDup (keys data) ->
             (forall k s, In (k, s) data -> NoDup (keys s)) ->
             forall c k,
               get2 (fold_left
                       (fun new_data row =>
                          fold_left (fun nd cv => assign_cell (fst cv) (fst row) (snd cv) nd)
                                    (snd row) new_data)
                       data nd) c k =
               match dict_get k data with
               | Some s => match dict_get c s with
                           | Some v => Some v
                           | None => get2 nd c k
                           end
               | None => get2 nd c k
               end).
  { unfold keys. induction data as [|[i s] data IH]; simpl; intros nd Hn Hin c k.
    - reflexivity.
    - inversion Hn as [|? ? Hi Hn']; subst.
      rewrite (IH _ Hn') by (intros; eapply Hin; eauto).
      rewrite (get2_row i s) by (eapply Hin; eauto).
      destruct (String.eqb_spec k i) as [->|Hk].
      + rewrite (proj2 (dict_get_None i data) Hi). reflexivity.
      + destruct (dict_get k data) as [s'|]; [|reflexivity].
        destruct (dict_get c s'); reflexivity. }
  intros Hn Hin c k. rewrite (H [] Hn Hin). unfold weight_cell, get2. simpl.
  destruct (dict_get k data) as [s|]; [|reflexivity].
  destruct (dict_get c s); reflexivity.
Qed.

Lemma keys_assign_cell_In (nd : dict (dict scalar)) (c i c' : string) (v : scalar) :
  In c' (keys (assign_cell c i v nd)) <-> c' = c \/ In c' (keys nd).
Proof. unfold assign_cell. apply keys_dict_set_In. Qed.

Lemma keys_from_nested_dict (data : dict (dict scalar)) :
  NoDup (keys (from_nested_dict data)) /\
  forall c, In c (keys (from_nested_dict data)) <->
            exists k s, In (k, s) data /\ In c (keys s).
Proof.
  unfold from_nested_dict.
  assert (Hrow : forall i (s : dict scalar) nd,
             (NoDup (keys nd) ->
              NoDup (keys (fold_left (fun nd cv => assign_cell (fst cv) i (snd cv) nd) s nd))) /\
             forall c,
               In c (keys (fold_left (fun nd cv => assign_cell (fst cv) i (snd cv) nd) s nd)) <->
               In c (keys nd) \/ In c (keys s)).
  { intros i s. induction s as [|[c0 v0] s IH]; simpl; intros nd.
    - split; auto. intros c. tauto.
    - destruct (IH (assign_cell c0 i v0 nd)) as [IH1 IH2]. split.
      + intros Hn. apply IH1. unfold assign_cell. apply keys_dict_set_NoDup. exact Hn.
      + intros c. rewrite IH2, keys_assign_cell_In. split.
        * intros [[->|H]|H]; auto.
        * intros [H|[->|H]]; auto. }
  assert (H : forall nd,
             (NoDup (keys nd) ->
              NoDup (keys (fold_left
                             (fun new_data row =>
                                fold_left (fun nd cv => assign_cell (fst cv) (fst row) (snd cv) nd)
                                          (snd row) new_data)
                             data nd))) /\
             forall c,
               In c (keys (fold_left
                             (fun new_data row =>
                                fold_left (fun nd cv => assign_cell (fst cv) (fst row) (snd cv) nd)
                                          (snd row) new_data)
                             data nd)) <->
               In c (keys nd) \/ exists k s, In (k, s) data /\ In c (keys s)).
  { induction data as [|[i s] data IH]; simpl; intros nd.
    - split; auto. intros c. split; auto. intros [H|[k [s [[] _]]]]. exact H.
    - destruct (Hrow i s nd) as [Hr1 Hr2].
      destruct (IH (fold_left (fun nd cv => assign_cell (fst cv) i (snd cv) nd) s nd))
        as [IH1 IH2].
      split.
      + intros Hn. apply IH1. apply Hr1. exact Hn.
      + intros c. rewrite IH2, Hr2. split.
        * intros [[H|H]|[k [s' [H1 H2]]]]; auto.
          -- right. exists i, s. auto.
          -- right. exists k, s'. auto.
        * intros [H|[k [s' [[[= <- <-]|H1] H2]]]]; auto.
          right. exists k, s'. auto. }
  destruct (H []) as [H1 H2]. split.
  - apply H1. constructor.
  - intros c. rewrite H2. simpl. tauto.
Qed.

Lemma unique_app_prefix (a b : list string) :
  NoDup a -> exists tail, unique String.eqb (a ++ b) = a ++ tail.
Proof.
  induction 1 as [|x a Hx Hn [tail IH]]; simpl.
  - eauto.
  - rewrite IH, filter_app.
    exists (filter (fun y => negb (String.eqb y x)) tail). f_equal. f_equal.
    clear -Hx. induction a as [|y a IH]; simpl; auto.
    destruct (String.eqb_spec y x).
    + subst. exfalso. apply Hx. simpl; auto.
    + simpl. f_equal. apply IH. intros H. apply Hx. simpl; auto.
Qed.

(** The union of two object indexes without repeated labels: no label
    twice, the labels of both, those of the first index first and in their
    order. *)
Lemma union_object_spec (a b : list string) :
  NoDup a -> NoDup b ->
  NoDup (union_object String.eqb a b) /\
  (forall k, In k (union_object String.eqb a b) <-> In k a \/ In k b) /\
  firstn (length a) (union_object String.eqb a b) = a.
Proof.
  intros Ha Hb. unfold union_object.
  destruct (list_eqb String.eqb a b) eqn:He.
  - apply (list_eqb_eq String.eqb String.eqb_spec) in He. subst b.
    split; [auto|split; [tauto|apply firstn_all]].
  - split; [apply (unique_NoDup String.eqb String.eqb_spec)|split].
    + intros k. rewrite (unique_In String.eqb String.eqb_spec). apply in_app_iff.
    + destruct (unique_app_prefix a b Ha) as [tail ->]. apply firstn_app_length.
Qed.

Lemma rows_rebuild_object (df : DataFrame string scalar) :
  NoDup (index df) ->
  rows df = map (fun t => (t, row_or_nan String.eqb df t)) (index df).
Proof.
  intros Hn. unfold index. apply rebuild_pairs.
  apply (lookup_row_unique String.eqb String.eqb_spec _ (rows df)
           (length (columns df)) Hn).
Qed.

Lemma concat_axis1_object (p w : DataFrame string scalar) :
  NoDup (index p) -> NoDup (index w) -> is_empty p = false ->
  concat_axis1 String.eqb (union_object String.eqb) p w =
  inr (mkDataFrame (columns p ++ columns w)
         (map (fun t => (t, row_or_nan String.eqb p t ++ row_or_nan String.eqb w t))
              (union_object String.eqb (index p) (index w)))).
Proof.
  intros Hp Hw Hne.
  destruct (negb (is_empty p) && is_empty w)%bool eqn:H1.
  { unfold concat_axis1. rewrite H1.
    apply andb_true_iff in H1. destruct H1 as [_ H1].
    unfold is_empty in H1. apply Nat.eqb_eq in H1.
    destruct w as [cw rw]. cbn [rows columns] in *.
    destruct rw; [|simpl in H1; lia]. destruct cw; [|simpl in H1; lia].
    unfold index at 2. cbn [rows map].
    assert (Hu : union_object String.eqb (index p) [] = index p).
    { unfold union_object. destruct (list_eqb String.eqb (index p) []); auto.
      rewrite app_nil_r. apply (unique_id String.eqb String.eqb_spec). exact Hp. }
    rewrite Hu, app_nil_r. unfold row_or_nan at 2.
    cbn [rows columns lookup_row find length repeat].
    destruct p as [cp rp]. f_equal. cbn [columns]. f_equal.
    rewrite (rows_rebuild_object (mkDataFrame cp rp) Hp) at 1.
    apply map_ext. intros t. rewrite app_nil_r. reflexivity. }
  apply (concat_axis1_general String.eqb String.eqb_spec); auto.
  rewrite Hne. reflexivity.
Qed.

Lemma lookup_row_dict {V} (G : V -> list (option scalar)) (d : dict V) (t : string) :
  lookup_row String.eqb t (map (fun kv => (fst kv, G (snd kv))) d) =
  match dict_get t d with
  | Some v => Some (G v)
  | None => None
  end.
Proof.
  unfold lookup_row. induction d as [|[k v] d IH]; simpl; auto.
  rewrite String.eqb_sym. destruct (String.eqb t k); auto.
Qed.

Lemma map_dict_values {V B} (F : option V -> B) (d : dict V) :
  NoDup (keys d) ->
  map (fun cd => F (Some (snd cd))) d = map (fun c => F (dict_get c d)) (keys d).
Proof.
  unfold keys. induction d as [|[k v] d IH]; simpl; auto.
  intros Hn. inversion Hn as [|? ? Hk Hn']; subst.
  rewrite String.eqb_refl. f_equal. rewrite (IH Hn').
  apply map_ext_in. intros c Hc.
  destruct (String.eqb_spec c k); [subst; contradiction|reflexivity].
Qed.

Lemma dict_of_pairs_values {V} (ps : list (string * V)) (k : string) (v : V) :
  In (k, v) (dict_of_pairs ps) -> In v (map snd ps).
Proof.
  unfold dict_of_pairs.
  assert (Hset : forall (d : dict V) k0 v0 k v,
             In (k, v) (dict_set k0 v0 d) -> v = v0 \/ In (k, v) d).
  { induction d as [|[k1 v1] d IH]; simpl; intros k0 v0 k' v'.
    - intros [[= <- <-]|[]]. auto.
    - destruct (String.eqb k0 k1); simpl.
      + intros [[= <- <-]|H]; auto.
      + intros [H|H]; auto. apply IH in H. tauto. }
  assert (H : forall d,
             In (k, v) (fold_left (fun d kv => dict_set (fst kv) (snd kv) d) ps d) ->
             In (k, v) d \/ In v (map snd ps)).
  { induction ps as [|[k0 v0] ps IH]; simpl; intros d; auto.
    intros H. apply IH in H. destruct H as [H|H]; auto.
    apply Hset in H. destruct H as [->|H]; auto. }
  intros Hin. apply H in Hin. destruct Hin as [[]|Hin]. exact Hin.
Qed.

(** The frame of the weights: its columns, its index and its cells. *)
Lemma from_dict_nested_spec (weights : dict (dict scalar)) :
  NoDup (keys weights) ->
  (forall k s, In (k, s) weights -> NoDup (keys s)) ->
  let w := from_dict_nested weights in
  NoDup (columns w) /\
  (forall c, In c (columns w) <-> exists k s, In (k, s) weights /\ In c (keys s)) /\
  NoDup (index w) /\
  (forall k, In k (index w) <-> has_weights weights k) /\
  (forall k, row_or_nan String.eqb w k = map (weight_cell weights k) (columns w)).
Proof.
  intros Hn Hin. cbv zeta. unfold from_dict_nested, frame_of_columns.
  destruct (keys_from_nested_dict weights) as [Hnk Hk].
  pose proof (get2_from_nested_dict weights Hn Hin) as Hg.
  set (nd := from_nested_dict weights) in *.
  cbn [columns]. unfold index. cbn [rows]. rewrite map_map. cbn [fst]. rewrite map_id.
  assert (Hidx : forall k, In k (unique String.eqb (flat_map (fun cd => keys (snd cd)) nd))
                           <-> has_weights weights k).
  { intros k. rewrite (unique_In String.eqb String.eqb_spec), in_flat_map.
    unfold has_weights. split.
    - intros [[c col] [Hc Hkc]]. cbn [snd] in Hkc.
      pose proof (In_dict_get c col nd Hnk Hc) as Hgc.
      destruct (dict_get k col) as [v|] eqn:Hv.
      + specialize (Hg c k). unfold get2 in Hg. rewrite Hgc, Hv in Hg.
        unfold weight_cell in Hg. destruct (dict_get k weights) as [s|]; [|discriminate].
        exists s. split; auto. intros ->. discriminate.
      + apply dict_get_None in Hv. contradiction.
    - intros [s [Hs Hne]]. destruct s as [|[c v] s]; [congruence|].
      assert (Hw : weight_cell weights k c = Some v).
      { unfold weight_cell. rewrite Hs. simpl. rewrite String.eqb_refl. reflexivity. }
      rewrite <- Hg in Hw. unfold get2 in Hw.
      destruct (dict_get c nd) as [col|] eqn:Hcol; [|discriminate].
      exists (c, col). split; [apply dict_get_In; exact Hcol|].
      cbn [snd]. destruct (in_dec string_dec k (keys col)) as [|Hnin]; auto.
      apply dict_get_None in Hnin. congruence. }
  split; [exact Hnk|]. split; [exact Hk|].
  split; [apply (unique_NoDup String.eqb String.eqb_spec)|]. split; [exact Hidx|].
  intros k. unfold row_or_nan. cbn [rows columns].
  rewrite (lookup_row_map String.eqb String.eqb_spec).
  assert (Hrow : map (fun cd : string * dict scalar => dict_get k (snd cd)) nd
                 = map (weight_cell weights k) (keys nd)).
  { rewrite (map_dict_values
               (fun col => match col with Some col => dict_get k col | None => None end)
               nd Hnk).
    apply map_ext. intros c. rewrite <- Hg. reflexivity. }
  destruct (mem String.eqb k _) eqn:Hm.
  - exact Hrow.
  - rewrite <- Hrow. unfold keys. rewrite length_map.
    assert (Hnone : forall cd, In cd nd -> dict_get k (snd cd) = None).
    { intros [c col] Hc. cbn [snd]. apply dict_get_None. intros Hkc.
      assert (Hink : In k (unique String.eqb (flat_map (fun cd => keys (snd cd)) nd))).
      { apply (unique_In String.eqb String.eqb_spec). apply in_flat_map.
        exists (c, col). auto. }
      apply (mem_In String.eqb String.eqb_spec) in Hink. congruence. }
    clear -Hnone. induction nd as [|cd nd IH]; simpl; auto.
    rewrite (Hnone cd) by (simpl; auto). f_equal. apply IH.
    intros; apply Hnone; simpl; auto.
Qed.

Lemma from_dict_scalars_row (prices : dict scalar) (name k : string) :
  row_or_nan String.eqb (from_dict_scalars prices name) k = [dict_get k prices].
Proof.
  unfold row_or_nan, from_dict_scalars. cbn [rows columns].
  rewrite (lookup_row_dict (fun v => [Some v])).
  destruct (dict_get k prices); reflexivity.
Qed.




(** The table [process_etf_data] builds once both files are read. *)
Lemma process_etf_data_join (ticker : string)
    (P : list (string * scalar)) (W : list (string * list (string * scalar))) :
  read_prices ("./data/" ++ ticker ++ "/SP500" ++ ticker ++ "ETFPrices.json")%string
    = inr P ->
  read_weights ("./data/" ++ ticker ++ "/SP500" ++ ticker ++ "ETFWeights.json")%string
    = inr W ->
  let prices := dict_of_pairs P in
  let weights := dict_of_pairs (map (fun m => (fst m, dict_of_pairs (snd m))) W) in
  exists K wcols,
    NoDup K /\
    (forall k, In k K <-> In k (keys prices) \/ has_weights weights k) /\
    firstn (length prices) K = keys prices /\
    NoDup wcols /\
    (forall c, In c wcols <-> exists k s, In (k, s) weights /\ In c (keys s)) /\
    process_etf_data ticker =
    (["./data/" ++ ticker ++ "/SP500" ++ ticker ++ "ETFPrices.json";
      "./data/" ++ ticker ++ "/SP500" ++ ticker ++ "ETFWeights.json"]%string,
     (idx <- to_datetime_index K ;;
      inr (mkDataFrame ("Close Price"%string :: wcols)
             (combine idx
                (map (fun k => dict_get k prices :: map (weight_cell weights k) wcols)
                     K))))%result).
Proof.
  intros HP HW prices weights.
  assert (Hnw : NoDup (keys weights)) by apply dict_of_pairs_NoDup.
  assert (Hin : forall k s, In (k, s) weights -> NoDup (keys s)).
  { intros k s Hks. apply dict_of_pairs_values in Hks.
    rewrite map_map in Hks. cbn [snd] in Hks.
    apply in_map_iff in Hks. destruct Hks as [m [<- _]].
    apply dict_of_pairs_NoDup. }
  destruct (from_dict_nested_spec weights Hnw Hin) as [Hwc [Hwcin [Hwi [Hwiin Hwrow]]]].
  set (w := from_dict_nested weights) in *.
  set (p := from_dict_scalars prices "Close Price").
  assert (Hpi : index p = keys prices).
  { unfold index, p, from_dict_scalars, keys. cbn [rows]. rewrite map_map. reflexivity. }
  assert (Hpn : NoDup (index p)).
  { rewrite Hpi. apply dict_of_pairs_NoDup. }
  destruct (union_object_spec (index p) (index w) Hpn Hwi) as [HKn [HKin HKpre]].
  exists (union_object String.eqb (index p) (index w)), (columns w).
  split; [exact HKn|]. split.
  { intros k. rewrite HKin, Hpi, Hwiin. reflexivity. }
  split.
  { assert (Hlen : length prices = length (index p)).
    { rewrite Hpi. unfold keys. rewrite length_map. reflexivity. }
    rewrite Hlen, <- Hpi. exact HKpre. }
  split; [exact Hwc|]. split; [exact Hwcin|].
  unfold process_etf_data, load_prices, load_weights, open_json.
  rewrite HP, HW. cbn [bind ret app]. fold prices. fold weights. fold w. fold p.
  rewrite !bind_lift.
  assert (Hpe : is_empty p = false).
  { unfold is_empty. apply Nat.eqb_neq. unfold p, from_dict_scalars.
    cbn [columns length]. lia. }
  rewrite (concat_axis1_object p w Hpn Hwi Hpe).
  set (K := union_object String.eqb (index p) (index w)).
  assert (Hidx : index (mkDataFrame (columns p ++ columns w)
                   (map (fun t => (t, row_or_nan String.eqb p t ++ row_or_nan String.eqb w t)) K))
                 = K).
  { unfold index. cbn [rows]. rewrite map_map. cbn [fst]. apply map_id. }
  rewrite Hidx.
  destruct (to_datetime_index K) as [x|idx]; cbn [rbind ret lift bind app];
    [reflexivity|].
  unfold set_index. cbn [columns rows]. rewrite map_map. cbn [snd].
  do 4 f_equal. apply map_ext. intros k.
  unfold p at 1. rewrite from_dict_scalars_row, Hwrow. reflexivity.
Qed.


(** ** Every row of a loaded table has one cell per column *)

Lemma process_etf_data_wf (ticker : string) (opened : list string) (df : Frame) :
  process_etf_data ticker = (opened, inr df) -> wf df.
Proof.
  destruct (read_prices ("./data/" ++ ticker ++ "/SP500" ++ ticker
                         ++ "ETFPrices.json")%string) as [x|P] eqn:HP.
  { unfold process_etf_data, load_prices, open_json. rewrite HP.
    destruct x; discriminate. }
  destruct (read_weights ("./data/" ++ ticker ++ "/SP500" ++ ticker
                          ++ "ETFWeights.json")%string) as [x|W] eqn:HW.
  { unfold process_etf_data, load_prices, load_weights, open_json. rewrite HP, HW.
    destruct x; discriminate. }
  destruct (process_etf_data_join ticker P W HP HW)
    as [K [wcols [_ [_ [_ [_ [_ Heq]]]]]]].
  rewrite Heq. destruct (to_datetime_index K) as [x|idx]; cbn [rbind]; [discriminate|].
  intros [= _ <-]. unfold wf. cbn [rows columns]. apply Forall_forall.
  intros [d cells] Hin. apply in_combine_r in Hin. apply in_map_iff in Hin.
  destruct Hin as [k [<- _]]. cbn [snd length]. rewrite length_map. reflexivity.
Qed.

Lemma In_slice {A} (xs : list A) (lo hi : nat) (x : A) :
  In x (slice xs lo hi) -> In x xs.
Proof.
  unfold slice. intros H.
  assert (Hf : forall n (l : list A), In x (firstn n l) -> In x l).
  { induction n as [|n IH]; intros [|y l]; simpl; try tauto.
    intros [?|?]; auto. }
  assert (Hs : forall n (l : list A), In x (skipn n l) -> In x l).
  { induction n as [|n IH]; intros [|y l]; simpl; try tauto.
    intros ?; auto. }
  eapply Hs, Hf, H.
Qed.

Lemma loc_slice_wf (df r : Frame) (lo hi : option Z) :
  loc_slice df lo hi = inr r -> wf df -> wf r.
Proof.
  unfold loc_slice. destruct (slice_locs (index df) lo hi) as [x|b]; cbn [rbind];
    [discriminate|].
  intros [= <-]. unfold wf. cbn [rows columns]. rewrite !Forall_forall.
  intros Hwf row Hrow. apply Hwf. eapply In_slice, Hrow.
Qed.

Lemma filter_df_by_date_wf (df r : Frame) (start end_ : string) :
  filter_df_by_date df start end_ = inr r -> wf df -> wf r.
Proof.
  unfold filter_df_by_date.
  destruct (to_datetime_scalar start) as [x|s]; cbn [rbind]; [discriminate|].
  destruct (to_datetime_scalar end_) as [x|e]; cbn [rbind]; [discriminate|].
  destruct (s >=? e); [discriminate|].
  destruct (lt_opt _ _ || gt_opt _ _)%bool; [discriminate|].
  destruct (if negb (contains (index df) s) then _ else _) as [x|s']; cbn [rbind];
    [discriminate|].
  destruct (if negb (contains (index df) e) then _ else _) as [x|e']; cbn [rbind];
    [discriminate|].
  apply loc_slice_wf.
Qed.

Lemma download_wf (ticker : string) (start end_ : option string)
    (opened : list string) (df : Frame) :
  download ticker start end_ = (opened, inr df) -> wf df.
Proof.
  rewrite download_unfold.
  destruct (process_etf_data ticker) as [tr [x|loaded]] eqn:Hp; cbn [fst snd];
    [discriminate|].
  pose proof (process_etf_data_wf ticker tr loaded Hp) as Hwf.
  unfold download_body. intros [= _ H]. revert H.
  destruct (truthy start && truthy end_)%bool.
  { intros H. eapply filter_df_by_date_wf; eauto. }
  destruct (truthy start).
  { destruct (to_datetime_scalar (arg start)); cbn [rbind]; [discriminate|].
    intros H. eapply loc_slice_wf; eauto. }
  destruct (truthy end_).
  { destruct (to_datetime_scalar (arg end_)); cbn [rbind]; [discriminate|].
    intros H. eapply loc_slice_wf; eauto. }
  intros [= <-]. exact Hwf.
Qed.

(** * [history]: the assembled table *)

Lemma select_cells_length (cols : list string) (k : string)
    (cells : list (option scalar)) :
  length cells = length cols ->
  length (select_cells cols k cells) = length (filter (String.eqb k) cols).
Proof.
  unfold select_cells. revert cells.
  induction cols as [|c cols IH]; intros [|x cells]; simpl; try discriminate; auto.
  intros [= H]. destruct (String.eqb k c); simpl; auto.
Qed.

Lemma row_or_nan_length (df : Frame) (d : Z) :
  wf df -> length (row_or_nan Z.eqb df d) = length (columns df).
Proof.
  intros Hwf. unfold row_or_nan.
  destruct (lookup_row Z.eqb d (rows df)) as [c|] eqn:Hl.
  - apply (lookup_row_Some Z.eqb Z.eqb_spec) in Hl.
    unfold wf in Hwf. rewrite Forall_forall in Hwf.
    apply (Hwf (d, c) Hl).
  - apply repeat_length.
Qed.

Lemma lookup_row_map_cells (G : list (option scalar) -> list (option scalar))
    (rs : list (Z * list (option scalar))) (d : Z) :
  lookup_row Z.eqb d (map (fun r => (fst r, G (snd r))) rs) =
  match lookup_row Z.eqb d rs with
  | Some cells => Some (G cells)
  | None => None
  end.
Proof.
  unfold lookup_row. induction rs as [|r rs IH]; simpl; auto.
  destruct (fst r =? d); auto.
Qed.

(** The one-column frame [history] takes from a ticker's table. *)
Lemma price_column_aligned (df : Frame) (t : string) :
  AlignedTable df -> wf df ->
  exists P,
    getitem_columns df ["Close Price"%string] = inr P /\
    columns (rename "Close Price" t P) = [t] /\
    index (rename "Close Price" t P) = index df /\
    forall d, row_or_nan Z.eqb (rename "Close Price" t P) d = [close_price df d].
Proof.
  intros [Hasc Hcp] Hwf. unfold getitem_columns.
  assert (Hin : forallb (fun k => str_in k (columns df)) ["Close Price"%string] = true).
  { cbn [forallb]. rewrite andb_true_r. apply str_in_In.
    assert (H : In "Close Price"%string
                  (filter (String.eqb "Close Price") (columns df))).
    { rewrite Hcp. simpl; auto. }
    apply filter_In in H. tauto. }
  rewrite Hin. eexists. split; [reflexivity|].
  unfold rename, index. cbn [columns rows flat_map].
  rewrite app_nil_r, Hcp. split; [reflexivity|]. split.
  - rewrite map_map. reflexivity.
  - intros d. unfold row_or_nan, close_price. cbn [rows columns].
    rewrite (lookup_row_map_cells
               (fun cells => select_cells (columns df) "Close Price" cells ++ [])).
    destruct (lookup_row Z.eqb d (rows df)) as [c|] eqn:Hl; [|reflexivity].
    rewrite app_nil_r.
    apply (lookup_row_Some Z.eqb Z.eqb_spec) in Hl.
    unfold wf in Hwf. rewrite Forall_forall in Hwf. specialize (Hwf _ Hl).
    cbn [snd] in Hwf.
    pose proof (select_cells_length (columns df) "Close Price" c Hwf) as Hlen.
    rewrite Hcp in Hlen. simpl in Hlen.
    destruct (select_cells (columns df) "Close Price" c) as [|x [|y l]];
      simpl in Hlen; try discriminate. reflexivity.
Qed.

Lemma history_inv_step (dl : string -> Frame) (done : list string)
    (acc B : Frame) (t : string) :
  history_inv dl done acc ->
  columns B = [t] ->
  index B = index (dl t) ->
  strictly_ascending (index (dl t)) ->
  (forall d, row_or_nan Z.eqb B d = [close_price (dl t) d]) ->
  history_inv dl (done ++ [t])
    (mkDataFrame (columns acc ++ columns B)
       (map (fun d => (d, row_or_nan Z.eqb acc d ++ row_or_nan Z.eqb B d))
            (union_datetime (index acc) (index B)))).
Proof.
  intros [Hcols [Hasc [Hwf [Hmem Hcell]]]] HcB HiB HascB HrB.
  destruct (union_datetime_spec (index acc) (index B)) as [HU HUin];
    [auto|rewrite HiB; auto|].
  set (U := union_datetime (index acc) (index B)) in *.
  assert (Hidx : index (mkDataFrame (columns acc ++ columns B)
                   (map (fun d => (d, row_or_nan Z.eqb acc d ++ row_or_nan Z.eqb B d)) U))
                 = U).
  { unfold index. cbn [rows]. rewrite map_map. cbn [fst]. apply map_id. }
  unfold history_inv. rewrite Hidx. cbn [columns rows].
  split; [rewrite Hcols, HcB; reflexivity|].
  split; [exact HU|]. split; [|split].
  - unfold wf. cbn [rows columns]. apply Forall_forall.
    intros r Hr. apply in_map_iff in Hr. destruct Hr as [d [<- _]]. cbn [snd].
    rewrite !length_app, (row_or_nan_length acc d Hwf), HrB, HcB. reflexivity.
  - intros d. rewrite HUin, Hmem, HiB. split.
    + intros [[t' [Ht' Hd]]|Hd].
      * exists t'. split; auto. apply in_or_app. auto.
      * exists t. split; auto. apply in_or_app. simpl; auto.
    + intros [t' [Ht' Hd]]. apply in_app_or in Ht'.
      destruct Ht' as [Ht'|[<-|[]]]; [left; eauto|right; auto].
  - intros d j t' Hj Hd. unfold cell. cbn [rows].
    rewrite (lookup_row_map Z.eqb Z.eqb_spec).
    rewrite (proj2 (mem_In Z.eqb Z.eqb_spec d U) Hd).
    pose proof (row_or_nan_length acc d Hwf) as Hlen. rewrite Hcols in Hlen.
    rewrite HrB.
    destruct (Nat.lt_ge_cases j (length done)) as [Hlt|Hge].
    + rewrite nth_error_app1 in Hj by exact Hlt.
      rewrite app_nth1 by lia.
      unfold row_or_nan.
      destruct (lookup_row Z.eqb d (rows acc)) as [c|] eqn:Hl.
      * assert (Hin : In d (index acc)).
        { apply (lookup_row_Some Z.eqb Z.eqb_spec) in Hl.
          unfold index. apply in_map_iff. exists (d, c). auto. }
        rewrite <- (Hcell d j t' Hj Hin). unfold cell. rewrite Hl. reflexivity.
      * assert (Hnin : ~ In d (index acc)).
        { intros Hin. apply (lookup_row_In Z.eqb Z.eqb_spec) in Hin.
          destruct Hin as [c Hc]. congruence. }
        assert (Hnin' : ~ In d (index (dl t'))).
        { intros Hin. apply Hnin. apply Hmem. exists t'. split; auto.
          eapply nth_error_In; eauto. }
        unfold close_price.
        rewrite (lookup_row_None Z.eqb Z.eqb_spec _ d (rows (dl t')) Hnin').
        rewrite nth_repeat. reflexivity.
    + rewrite nth_error_app2 in Hj by exact Hge.
      rewrite app_nth2 by lia. rewrite Hlen.
      destruct (j - length done)%nat as [|k]; simpl in Hj.
      * injection Hj as <-. reflexivity.
      * destruct k; discriminate.
Qed.

Lemma history_loop_inv (dl : string -> Frame) (start end_ : option string)
    (todo : list string) :
  (forall t, In t todo ->
             exists opened, download t start end_ = (opened, inr (dl t)) /\
                            AlignedTable (dl t)) ->
  forall done acc,
    history_inv dl done acc ->
    exists opened H,
      history_loop todo start end_ acc = (opened, inr H) /\
      history_inv dl (done ++ todo) H.
Proof.
  induction todo as [|t todo IH]; intros Hdl done acc Hinv.
  - exists [], acc. rewrite app_nil_r. split; [reflexivity|exact Hinv].
  - destruct (Hdl t (or_introl eq_refl)) as [op1 [Hd Hal]].
    pose proof (download_wf t start end_ op1 (dl t) Hd) as Hwft.
    destruct (price_column_aligned (dl t) t Hal Hwft) as [P [HP [HcB [HiB HrB]]]].
    pose proof Hinv as [_ [Hasc _]].
    pose proof Hal as [HascT _].
    assert (HascB : strictly_ascending (index (rename "Close Price" t P))).
    { rewrite HiB. exact HascT. }
    pose proof (history_inv_step dl done acc (rename "Close Price" t P) t
                  Hinv HcB HiB HascT HrB) as Hstep.
    destruct (IH (fun t' Ht' => Hdl t' (or_intror Ht')) (done ++ [t]) _ Hstep)
      as [op2 [H [Hl Hfinal]]].
    exists (op1 ++ op2), H. split.
    + cbn [history_loop]. rewrite Hd. cbn [bind].
      rewrite bind_lift, HP. rewrite bind_lift.
      rewrite (concat_axis1_datetime acc (rename "Close Price" t P) Hasc HascB).
      rewrite Hl. reflexivity.
    + rewrite <- app_assoc in Hfinal. exact Hfinal.
Qed.

(** C5.  For a request whose tickers are all in the allow-list and whose
    downloads all return aligned tables, [history] returns one column per
    requested ticker, named after the ticker, in the order of the request,
    a ticker asked twice giving two columns; the rows are the dates of all
    the downloaded tables in strictly ascending order; the cell of a
    ticker's column at a date is that ticker's "Close Price" at the date,
    and NaN when the ticker's table has no row at the date. *)
Theorem history_table (self : MagesticEquityData) (tickers_ : list string)
    (start end_ : option string) (dl : string -> Frame) :
  (forall t, In t tickers_ -> In t (tickers self)) ->
  (forall t, In t tickers_ ->
             exists opened, download t start end_ = (opened, inr (dl t)) /\
                            AlignedTable (dl t)) ->
  exists opened H,
    history self tickers_ start end_ = (opened, inr H) /\
    columns H = tickers_ /\
    strictly_ascending (index H) /\
    (forall d, In d (index H) <-> exists t, In t tickers_ /\ In d (index (dl t))) /\
    (forall d j t, nth_error tickers_ j = Some t -> In d (index H) ->
                   cell H d j = close_price (dl t) d) /\
    (forall d j t, nth_error tickers_ j = Some t -> In d (index H) ->
                   ~ In d (index (dl t)) -> cell H d j = None).
Proof.
  intros Hvalid Hdl.
  assert (Hinv0 : history_inv dl [] empty_frame).
  { unfold history_inv, empty_frame, index, wf. cbn [columns rows map].
    repeat split; try constructor.
    - intros [].
    - intros [t [[] _]].
    - intros d j t Hj. destruct j; discriminate. }
  destruct (history_loop_inv dl start end_ tickers_ Hdl [] empty_frame Hinv0)
    as [opened [H [Hl [Hc [Hasc [Hwf [Hmem Hcell]]]]]]].
  cbn [app] in *.
  exists opened, H. split.
  - unfold history.
    assert (Hnone : filter (fun ticker => negb (str_in ticker (tickers self))) tickers_ = []).
    { clear -Hvalid. induction tickers_ as [|t ts IH]; simpl; auto.
      rewrite (proj2 (str_in_In t (tickers self))) by (apply Hvalid; simpl; auto).
      simpl. apply IH. intros; apply Hvalid; simpl; auto. }
    rewrite Hnone. exact Hl.
  - repeat split; try apply Hmem; auto.
    intros d j t Hj Hd Hnin. rewrite (Hcell d j t Hj Hd). unfold close_price.
    rewrite (lookup_row_None Z.eqb Z.eqb_spec _ d (rows (dl t)) Hnin). reflexivity.
Qed.

(** * Further behaviour of the code *)

(** On a table without rows the range checks pass, the comparisons with the
    missing minimum and maximum being false, and the look-up of the start
    raises [IndexError]. *)
Theorem filter_df_by_date_empty_table
    (cols : list string) (start end_ : string) (s e : Z) :
  to_datetime start = Some s ->
  to_datetime end_ = Some e ->
  s < e ->
  filter_df_by_date (mkDataFrame cols []) start end_ = inl IndexError.
Proof.
  intros Hstart Hend Hse. unfold filter_df_by_date, to_datetime_scalar.
  rewrite Hstart, Hend. cbn [rbind].
  rewrite Z.geb_leb. destruct (Z.leb_spec e s); [lia|]. reflexivity.
Qed.

(** The price file is opened first; when it is missing the weight file is
    not opened and [FileNotFoundError] is raised. *)
Theorem process_etf_data_missing_prices (ticker : string) :
  read_prices ("./data/" ++ ticker ++ "/SP500" ++ ticker ++ "ETFPrices.json")%string
    = inl NoSuchFile ->
  process_etf_data ticker =
  ([("./data/" ++ ticker ++ "/SP500" ++ ticker ++ "ETFPrices.json")%string],
   inl FileNotFoundError).
Proof.
  intros HP. unfold process_etf_data, load_prices, open_json. rewrite HP.
  reflexivity.
Qed.

(** ** What the filters return, on any table *)

Lemma slice_run {A} (xs : list A) (lo hi : nat) :
  exists pre post, xs = pre ++ slice xs lo hi ++ post.
Proof.
  exists (firstn lo xs), (skipn (hi - lo) (skipn lo xs)). unfold slice.
  rewrite (firstn_skipn (hi - lo) (skipn lo xs)).
  symmetry. apply firstn_skipn.
Qed.

Lemma loc_slice_run (df r : Frame) (lo hi : option Z) :
  loc_slice df lo hi = inr r ->
  columns r = columns df /\ exists pre post, rows df = pre ++ rows r ++ post.
Proof.
  unfold loc_slice. destruct (slice_locs (index df) lo hi) as [x|b]; cbn [rbind];
    [discriminate|].
  intros [= <-]. cbn [columns rows]. split; [reflexivity|apply slice_run].
Qed.

Lemma filter_df_by_date_loc (df r : Frame) (start end_ : string) :
  filter_df_by_date df start end_ = inr r ->
  exists a b, loc_slice df (Some a) (Some b) = inr r.
Proof.
  unfold filter_df_by_date.
  destruct (to_datetime_scalar start) as [x|s]; cbn [rbind]; [discriminate|].
  destruct (to_datetime_scalar end_) as [x|e]; cbn [rbind]; [discriminate|].
  destruct (s >=? e); [discriminate|].
  destruct (lt_opt _ _ || gt_opt _ _)%bool; [discriminate|].
  destruct (if negb (contains (index df) s) then _ else _) as [x|s']; cbn [rbind];
    [discriminate|].
  destruct (if negb (contains (index df) e) then _ else _) as [x|e']; cbn [rbind];
    [discriminate|].
  eauto.
Qed.

(** Whatever the table and the bounds, a table [filter_df_by_date] returns
    has the columns of the table it was given and its rows are one
    contiguous run of that table's rows, in their order: no row is added,
    changed or moved. *)
Theorem filter_df_by_date_contiguous (df r : Frame) (start end_ : string) :
  filter_df_by_date df start end_ = inr r ->
  columns r = columns df /\ exists pre post, rows df = pre ++ rows r ++ post.
Proof.
  intros H. apply filter_df_by_date_loc in H. destruct H as [a [b H]].
  eapply loc_slice_run; eauto.
Qed.

(** Whatever the bounds, a table [download] returns is cut from the table
    [process_etf_data] loads for the ticker: the same files opened, the same
    columns, and one contiguous run of its rows in their order. *)
Theorem download_contiguous (ticker : string) (start end_ : option string)
    (opened : list string) (r : Frame) :
  download ticker start end_ = (opened, inr r) ->
  exists df,
    process_etf_data ticker = (opened, inr df) /\
    columns r = columns df /\
    exists pre post, rows df = pre ++ rows r ++ post.
Proof.
  rewrite download_unfold.
  destruct (process_etf_data ticker) as [tr [x|df]] eqn:Hp; cbn [fst snd];
    [discriminate|].
  intros [= <- H]. exists df. split; [reflexivity|]. revert H.
  unfold download_body.
  destruct (truthy start && truthy end_)%bool.
  { intros H. apply filter_df_by_date_loc in H. destruct H as [a [b H]].
    eapply loc_slice_run; eauto. }
  destruct (truthy start).
  { destruct (to_datetime_scalar (arg start)); cbn [rbind]; [discriminate|].
    apply loc_slice_run. }
  destruct (truthy end_).
  { destruct (to_datetime_scalar (arg end_)); cbn [rbind]; [discriminate|].
    apply loc_slice_run. }
  intros [= <-]. split; [reflexivity|].
  exists [], []. rewrite app_nil_r. reflexivity.
Qed.

Lemma rows_between_snap (rs : list (Z * list (option scalar))) (s e s' e' : Z) :
  resolves_start (map fst rs) s s' ->
  resolves_end (map fst rs) e e' ->
  rows_between s' e' rs = rows_between s e rs.
Proof.
  intros [_ [Hs Hmin]] [_ [He Hmax]]. unfold rows_between.
  apply filter_ext_in_length. intros r Hr.
  assert (Hin : In (fst r) (map fst rs)) by (apply in_map; exact Hr).
  specialize (Hmin (fst r) Hin). specialize (Hmax (fst r) Hin).
  destruct (Z.leb_spec s' (fst r)), (Z.leb_spec (fst r) e'),
    (Z.leb_spec s (fst r)), (Z.leb_spec (fst r) e); simpl; auto; lia.
Qed.

(** On a table in date order, for bounds [s < e] inside the table's span,
    snapping the bounds changes nothing in the result: [filter_df_by_date]
    returns exactly the rows dated from [s] to [e], the same rows the plain
    comparison of dates selects. *)
Theorem filter_df_by_date_plain
    (df : Frame) (start end_ : string) (s e m M : Z) :
  to_datetime start = Some s ->
  to_datetime end_ = Some e ->
  ascending (index df) ->
  s < e ->
  index_min (index df) = Some m -> m <= s ->
  index_max (index df) = Some M -> e <= M ->
  filter_df_by_date df start end_ =
  inr (mkDataFrame (columns df) (rows_between s e (rows df))).
Proof.
  intros Hstart Hend Hasc Hse Hmin Hms Hmax HeM.
  destruct (filter_df_by_date_ascending df start end_ s e m M
              Hstart Hend Hasc Hse Hmin Hms Hmax HeM)
    as [s' [e' [Hrs [Hre Hf]]]].
  rewrite Hf. rewrite (rows_between_snap (rows df) s e s' e' Hrs Hre). reflexivity.
Qed.

Lemma positions_from_missing (a : list Z) (t : Z) (i : nat) :
  contains a t = false -> positions_from i t a = [].
Proof.
  unfold contains. revert i. induction a as [|x a IH]; intros i; simpl; auto.
  rewrite orb_false_iff. intros [Hx Ha]. rewrite Z.eqb_sym, Hx. apply IH. exact Ha.
Qed.

(** With a start only, on a loaded table whose dates neither ascend nor
    descend, a start that is not a row date raises [KeyError]: the open-ended
    slice needs the label or an ordered index. *)
Theorem download_start_only_KeyError
    (ticker start : string) (end_ : option string)
    (opened : list string) (df : Frame) (s : Z) :
  truthy (Some start) = true -> truthy end_ = false ->
  process_etf_data ticker = (opened, inr df) ->
  to_datetime start = Some s ->
  is_monotonic_increasing (index df) = false ->
  is_monotonic_decreasing (index df) = false ->
  contains (index df) s = false ->
  download ticker (Some start) end_ = (opened, inl KeyError).
Proof.
  intros Hs He Hp Hd Hinc Hdec Hc.
  rewrite download_unfold, Hp. cbn [fst snd]. unfold download_body.
  rewrite Hs, He. cbn [andb arg]. unfold to_datetime_scalar. rewrite Hd.
  cbn [rbind]. unfold loc_slice, slice_locs, get_slice_bound, positions.
  rewrite (positions_from_missing (index df) s 0 Hc).
  unfold searchsorted_monotonic. rewrite Hinc, Hdec. reflexivity.
Qed.

(** ** What [process_etf_data] loads *)

Lemma to_datetime_index_fails (K : list string) :
  (exists x, to_datetime_index K = inl x) <->
  exists k, In k K /\ to_datetime k = None.
Proof.
  induction K as [|k K IH]; simpl.
  - split; [intros [x H]; discriminate|intros [k [[] _]]].
  - unfold to_datetime_scalar. destruct (to_datetime k) as [t|] eqn:Hk; cbn [rbind].
    + destruct (to_datetime_index K) as [x|ts]; cbn [rbind].
      * split; [|eauto]. intros _.
        destruct (proj1 IH (ex_intro _ x eq_refl)) as [k' [Hin Hk']]. eauto.
      * split; [intros [x H]; discriminate|].
        intros [k' [[<-|Hin] Hk']]; [congruence|].
        destruct (proj2 IH (ex_intro _ k' (conj Hin Hk'))) as [x H]. discriminate.
    + split; eauto.
Qed.

Lemma map_fst_combine {A B} (l1 : list A) (l2 : list B) :
  length l1 = length l2 -> map fst (combine l1 l2) = l1.
Proof.
  revert l2. induction l1 as [|x l1 IH]; intros [|y l2]; simpl; try discriminate; auto.
  intros [= H]. f_equal. auto.
Qed.

(** Once both files are read, a date key that has a price or at least one
    weight and does not parse fails the load with the date parser's error;
    the load fails in no other way, and only on a date key of one of the
    files that does not parse; so it returns a table when every date key of
    both files parses. *)
Theorem process_etf_data_date_keys (ticker : string)
    (P : list (string * scalar)) (W : list (string * list (string * scalar))) :
  read_prices ("./data/" ++ ticker ++ "/SP500" ++ ticker ++ "ETFPrices.json")%string
    = inr P ->
  read_weights ("./data/" ++ ticker ++ "/SP500" ++ ticker ++ "ETFWeights.json")%string
    = inr W ->
  let prices := dict_of_pairs P in
  let weights := dict_of_pairs (map (fun m => (fst m, dict_of_pairs (snd m))) W) in
  (forall k, In k (keys prices) \/ has_weights weights k ->
             to_datetime k = None ->
             snd (process_etf_data ticker) = inl DateParseError) /\
  (forall x, snd (process_etf_data ticker) = inl x ->
             x = DateParseError /\
             exists k, (In k (keys prices) \/ In k (keys weights)) /\
                       to_datetime k = None) /\
  ((forall k, In k (keys prices) \/ In k (keys weights) -> to_datetime k <> None) ->
   exists df, snd (process_etf_data ticker) = inr df).
Proof.
  intros HP HW prices weights.
  destruct (process_etf_data_join ticker P W HP HW)
    as [K [wcols [_ [HK [_ [_ [_ Heq]]]]]]].
  fold prices in HK. fold weights in HK.
  assert (Hkeys : forall k, In k K -> In k (keys prices) \/ In k (keys weights)).
  { intros k Hk. apply HK in Hk. destruct Hk as [Hk|[d [Hd _]]]; [auto|right].
    apply dict_get_In in Hd. unfold keys. apply in_map_iff. exists (k, d). auto. }
  assert (Hfail : forall x, snd (process_etf_data ticker) = inl x ->
                    x = DateParseError /\
                    exists k, (In k (keys prices) \/ In k (keys weights)) /\
                              to_datetime k = None).
  { intros x. rewrite Heq. cbn [snd].
    destruct (to_datetime_index K) as [y|idx] eqn:Hi; cbn [rbind]; [|discriminate].
    intros [= <-]. split; [eapply to_datetime_index_error; eauto|].
    destruct (proj1 (to_datetime_index_fails K) (ex_intro _ y Hi)) as [k [Hin Hk]].
    exists k. split; [apply Hkeys; exact Hin|exact Hk]. }
  split; [|split; [exact Hfail|]].
  - intros k Hk Hnone. apply HK in Hk.
    destruct (proj2 (to_datetime_index_fails K) (ex_intro _ k (conj Hk Hnone)))
      as [x Hx].
    rewrite Heq. cbn [snd]. rewrite Hx. cbn [rbind]. f_equal.
    eapply to_datetime_index_error; eauto.
  - intros Hall.
    destruct (snd (process_etf_data ticker)) as [x|df] eqn:Hs; [|eauto].
    destruct (Hfail x eq_refl) as [_ [k [Hk Hnone]]].
    exfalso. exact (Hall k Hk Hnone).
Qed.

Lemma filter_eqb_nil (c : string) (l : list string) :
  filter (String.eqb c) l = [] <-> ~ In c l.
Proof.
  induction l as [|x l IH]; simpl; [tauto|].
  destruct (String.eqb_spec c x).
  - subst. split; [discriminate|]. intros H. exfalso. apply H. auto.
  - rewrite IH. split.
    + intros H [H'|H']; [congruence|contradiction].
    + intros H H'. apply H. auto.
Qed.




(** A loaded table has "Close Price" as its first column, and it is the
    only column of that name exactly when no constituent of the weights
    file bears the name; one that does adds a second column of the name. *)
Theorem process_etf_data_one_close_price (ticker : string)
    (P : list (string * scalar)) (W : list (string * list (string * scalar)))
    (opened : list string) (df : Frame) :
  read_prices ("./data/" ++ ticker ++ "/SP500" ++ ticker ++ "ETFPrices.json")%string
    = inr P ->
  read_weights ("./data/" ++ ticker ++ "/SP500" ++ ticker ++ "ETFWeights.json")%string
    = inr W ->
  process_etf_data ticker = (opened, inr df) ->
  let weights := dict_of_pairs (map (fun m => (fst m, dict_of_pairs (snd m))) W) in
  hd_error (columns df) = Some "Close Price"%string /\
  (filter (String.eqb "Close Price") (columns df) = ["Close Price"%string] <->
   ~ exists k constituents,
       In (k, constituents) weights /\ In "Close Price"%string (keys constituents)).
Proof.
  intros HP HW Hp weights.
  destruct (process_etf_data_join ticker P W HP HW)
    as [K [wcols [_ [_ [_ [_ [Hw Heq]]]]]]].
  cbv zeta in *. fold weights in Hw. rewrite Heq in Hp.
  destruct (to_datetime_index K) as [x|idx]; cbn [rbind] in Hp; [discriminate|].
  injection Hp as _ <-. cbn [columns hd_error filter].
  rewrite String.eqb_refl. split; [reflexivity|].
  rewrite <- Hw, <- filter_eqb_nil. split.
  - intros [= H]. exact H.
  - intros ->. reflexivity.
Qed.

(** ** More on [history] *)

Lemma process_etf_data_columns (ticker : string) (opened : list string) (df : Frame) :
  process_etf_data ticker = (opened, inr df) ->
  exists wcols, columns df = "Close Price"%string :: wcols.
Proof.
  destruct (read_prices ("./data/" ++ ticker ++ "/SP500" ++ ticker
                         ++ "ETFPrices.json")%string) as [x|P] eqn:HP.
  { unfold process_etf_data, load_prices, open_json. rewrite HP.
    destruct x; discriminate. }
  destruct (read_weights ("./data/" ++ ticker ++ "/SP500" ++ ticker
                          ++ "ETFWeights.json")%string) as [x|W] eqn:HW.
  { unfold process_etf_data, load_prices, load_weights, open_json. rewrite HP, HW.
    destruct x; discriminate. }
  destruct (process_etf_data_join ticker P W HP HW)
    as [K [wcols [_ [_ [_ [_ [_ Heq]]]]]]].
  rewrite Heq. destruct (to_datetime_index K) as [x|idx]; cbn [rbind]; [discriminate|].
  intros [= _ <-]. exists wcols. reflexivity.
Qed.

Lemma download_columns (ticker : string) (start end_ : option string)
    (opened : list string) (df : Frame) :
  download ticker start end_ = (opened, inr df) ->
  exists wcols, columns df = "Close Price"%string :: wcols.
Proof.
  rewrite download_unfold.
  destruct (process_etf_data ticker) as [tr [x|loaded]] eqn:Hp; cbn [fst snd];
    [discriminate|].
  pose proof (process_etf_data_columns ticker tr loaded Hp) as Hc.
  unfold download_body. intros [= _ H]. revert H.
  assert (Hloc : forall lo hi, loc_slice loaded lo hi = inr df ->
                               exists wcols, columns df = "Close Price"%string :: wcols).
  { intros lo hi H. apply loc_slice_run in H. destruct H as [-> _]. exact Hc. }
  destruct (truthy start && truthy end_)%bool.
  { intros H. apply filter_df_by_date_loc in H. destruct H as [a [b H]]. eauto. }
  destruct (truthy start).
  { destruct (to_datetime_scalar (arg start)); cbn [rbind]; [discriminate|]. eauto. }
  destruct (truthy end_).
  { destruct (to_datetime_scalar (arg end_)); cbn [rbind]; [discriminate|]. eauto. }
  intros [= <-]. exact Hc.
Qed.

Lemma invalid_tickers_nil (self : MagesticEquityData) (tickers_ : list string) :
  (forall t, In t tickers_ -> In t (tickers self)) ->
  filter (fun ticker => negb (str_in ticker (tickers self))) tickers_ = [].
Proof.
  intros Hvalid. induction tickers_ as [|t ts IH]; simpl; auto.
  rewrite (proj2 (str_in_In t (tickers self))) by (apply Hvalid; simpl; auto).
  simpl. apply IH. intros; apply Hvalid; simpl; auto.
Qed.

Lemma concat_axis1_empty_left {L} (eqb : L -> L -> bool)
    (union : list L -> list L -> list L) (b : DataFrame L scalar) :
  is_empty b = false -> concat_axis1 eqb union empty_frame b = inr b.
Proof.
  intros Hb. unfold concat_axis1. rewrite Hb. reflexivity.
Qed.

(** For a single allow-listed ticker [history] returns the downloaded table
    cut down to its "Close Price" columns, renamed to the ticker: the rows
    are those of the download, in its order, whatever that order is.  The
    concatenation with the initial empty frame is skipped, so nothing is
    aligned or sorted, unlike with two tickers or more. *)
Theorem history_single (self : MagesticEquityData) (t : string)
    (start end_ : option string) (opened : list string) (df : Frame) :
  In t (tickers self) ->
  download t start end_ = (opened, inr df) ->
  history self [t] start end_ =
  (opened,
   inr (mkDataFrame
          (map (fun _ => t) (filter (String.eqb "Close Price") (columns df)))
          (map (fun r => (fst r, select_cells (columns df) "Close Price" (snd r)))
               (rows df)))).
Proof.
  intros Hin Hd. unfold history.
  rewrite (invalid_tickers_nil self [t]) by (intros u [<-|[]]; exact Hin).
  cbn [history_loop]. rewrite Hd. cbn [bind].
  destruct (download_columns t start end_ opened df Hd) as [wcols Hc].
  assert (Hget : getitem_columns df ["Close Price"%string] =
                 inr (mkDataFrame
                        (filter (String.eqb "Close Price") (columns df))
                        (map (fun r => (fst r,
                                        select_cells (columns df) "Close Price" (snd r)))
                             (rows df)))).
  { unfold getitem_columns. cbn [forallb flat_map].
    rewrite (proj2 (str_in_In "Close Price" (columns df)))
      by (rewrite Hc; simpl; auto).
    cbn [andb]. rewrite app_nil_r. f_equal. f_equal.
    apply map_ext. intros r. rewrite app_nil_r. reflexivity. }
  rewrite bind_lift, Hget, bind_lift.
  assert (Hren : forall l, map (fun c => if String.eqb c "Close Price" then t else c)
                               (filter (String.eqb "Close Price") l)
                           = map (fun _ => t) (filter (String.eqb "Close Price") l)).
  { induction l as [|c cs IH]; cbn [filter]; [reflexivity|].
    destruct (String.eqb_spec "Close Price" c) as [<-|Hne]; [|exact IH].
    cbn [map]. rewrite String.eqb_refl. f_equal. exact IH. }
  unfold rename. cbn [columns rows]. rewrite Hren.
  rewrite (concat_axis1_empty_left Z.eqb union_datetime).
  - unfold ret. rewrite app_nil_r. reflexivity.
  - unfold is_empty. cbn [columns rows]. rewrite Hc. cbn [filter].
    rewrite String.eqb_refl. cbn [map length]. rewrite Nat.add_succ_r. reflexivity.
Qed.

Lemma bind_assoc {A B C} (m : io A) (f : A -> io B) (g : B -> io C) :
  bind (bind m f) g = bind m (fun a => bind (f a) g).
Proof.
  unfold bind. destruct m as [tr [x|a]]; [reflexivity|].
  destruct (f a) as [tr' [x|b]]; [reflexivity|].
  destruct (g b) as [tr'' r]. rewrite app_assoc. reflexivity.
Qed.

Lemma bind_ext {A B} (m : io A) (f g : A -> io B) :
  (forall a, f a = g a) -> bind m f = bind m g.
Proof.
  intros H. unfold bind. destruct m as [tr [x|a]]; [reflexivity|].
  rewrite H. reflexivity.
Qed.

Lemma history_loop_app (pre post : list string) (start end_ : option string)
    (acc : Frame) :
  history_loop (pre ++ post) start end_ acc =
  bind (history_loop pre start end_ acc) (fun a => history_loop post start end_ a).
Proof.
  revert acc. induction pre as [|t pre IH]; intros acc; cbn [app history_loop].
  - unfold ret, bind. destruct (history_loop post start end_ acc). reflexivity.
  - rewrite bind_assoc. apply bind_ext. intros df.
    rewrite bind_assoc. apply bind_ext. intros P.
    rewrite bind_assoc. apply bind_ext. intros acc'. apply IH.
Qed.

Lemma history_loop_opened (todo : list string) (start end_ : option string)
    (acc H : Frame) (opened : list string) :
  history_loop todo start end_ acc = (opened, inr H) ->
  opened = flat_map (fun u => fst (download u start end_)) todo.
Proof.
  revert acc opened. induction todo as [|t todo IH]; intros acc opened;
    cbn [history_loop flat_map].
  - intros [= <- _]. reflexivity.
  - destruct (download t start end_) as [op1 [x|df]]; cbn [bind fst];
      [discriminate|].
    rewrite bind_lift.
    destruct (getitem_columns df ["Close Price"%string]) as [x|P];
      [rewrite app_nil_r; discriminate|].
    rewrite bind_lift.
    destruct (concat_axis1 Z.eqb union_datetime acc (rename "Close Price" t P))
      as [x|acc']; [rewrite app_nil_r; discriminate|].
    destruct (history_loop todo start end_ acc') as [op2 r] eqn:Hl.
    intros [= <- ->]. f_equal. eapply IH. exact Hl.
Qed.

(** [history] stops at the first download that fails: when the tickers
    before [t] download aligned tables and the download of [t] raises [x],
    [history] raises [x]; the files opened are those of the downloads up to
    and including that of [t], and no file of a later ticker is opened. *)
Theorem history_first_failure (self : MagesticEquityData)
    (pre post : list string) (t : string) (start end_ : option string)
    (dl : string -> Frame) (opened : list string) (x : exn) :
  (forall u, In u (pre ++ t :: post) -> In u (tickers self)) ->
  (forall u, In u pre ->
             exists op, download u start end_ = (op, inr (dl u)) /\
                        AlignedTable (dl u)) ->
  download t start end_ = (opened, inl x) ->
  history self (pre ++ t :: post) start end_ =
  (flat_map (fun u => fst (download u start end_)) pre ++ opened, inl x).
Proof.
  intros Hvalid Hdl Hd. unfold history.
  rewrite (invalid_tickers_nil self (pre ++ t :: post) Hvalid).
  assert (Hinv0 : history_inv dl [] empty_frame).
  { unfold history_inv, empty_frame, index, wf. cbn [columns rows map].
    repeat split; try constructor.
    - intros [].
    - intros [u [[] _]].
    - intros d j u Hj. destruct j; discriminate. }
  destruct (history_loop_inv dl start end_ pre Hdl [] empty_frame Hinv0)
    as [op [H [Hl _]]].
  rewrite history_loop_app, Hl.
  rewrite (history_loop_opened pre start end_ empty_frame H op Hl).
  cbn [bind history_loop]. rewrite Hd. reflexivity.
Qed.

(** An allow-list given at construction is kept as it is, the empty one
    too: the default tickers are taken only when none is given.  With the
    empty allow-list every request that names a ticker is refused, all its
    tickers listed, and no file is opened. *)
Theorem history_empty_allow_list (tickers_ : list string) (start end_ : option string) :
  tickers_ <> [] ->
  history (init (Some [])) tickers_ start end_ =
  ([], inl (ValueError (msg_invalid ++ join ", " tickers_))).
Proof.
  intros Hne. unfold history. cbn [init tickers str_in existsb negb].
  assert (Hall : filter (fun _ : string => true) tickers_ = tickers_).
  { clear. induction tickers_ as [|t ts IH]; simpl; congruence. }
  rewrite Hall. destruct tickers_ as [|t ts]; [congruence|]. reflexivity.
Qed.

(** ** The plots *)

Section PlottingFacts.

Variable strptime : string -> string + Timestamp.

Lemma strptime_all_length (ks : list string) (dates : list Z) :
  strptime_all strptime ks = inr dates -> length dates = length ks.
Proof.
  revert dates. induction ks as [|k ks IH]; intros dates; cbn [strptime_all].
  - intros [= <-]. reflexivity.
  - destruct (strptime_date strptime k) as [x|t]; cbn [rbind]; [discriminate|].
    destruct (strptime_all strptime ks) as [x|ts]; cbn [rbind]; [discriminate|].
    intros [= <-]. cbn [length]. f_equal. apply IH. reflexivity.
Qed.

Lemma combine_fst_snd {A B} (l : list (A * B)) :
  combine (map fst l) (map snd l) = l.
Proof.
  induction l as [|[a b] l IH]; cbn [map combine fst snd]; congruence.
Qed.

Lemma map_snd_combine {A B} (l1 : list A) (l2 : list B) :
  length l1 = length l2 -> map snd (combine l1 l2) = l2.
Proof.
  revert l2. induction l1 as [|x l1 IH]; intros [|y l2]; simpl; try discriminate; auto.
  intros [= H]. f_equal. auto.
Qed.

Lemma unzip_points (points : list (Z * scalar)) :
  unzip points =
  match points with
  | [] => inl (ValueError msg_unpack)
  | _ :: _ => inr (map fst points, map snd points)
  end.
Proof. reflexivity. Qed.

Lemma filter_true {A} (l : list A) : filter (fun _ => true) l = l.
Proof. induction l as [|x l IH]; simpl; congruence. Qed.

Lemma filter_within (lo hi : option Z) (all : list (Z * scalar)) :
  filter (fun p => within lo hi (fst p)) all =
  filter (fun p => match hi with Some e => fst p <=? e | None => true end)
         (filter (fun p => match lo with Some s => fst p >=? s | None => true end)
                 all).
Proof.
  rewrite filter_filter. apply filter_ext. intros p. unfold within.
  destruct lo, hi; rewrite ?Z.geb_leb; reflexivity.
Qed.

Lemma plot_etf_prices_selection (etf_prices : dict scalar) (etf_name color : string)
    (start end_ : option string) (dates : list Z) (lo hi : option Z) :
  strptime_all strptime (keys etf_prices) = inr dates ->
  bound strptime start = inr lo ->
  bound strptime end_ = inr hi ->
  plot_etf_prices strptime etf_prices etf_name color start end_ =
  match lo, hi with
  | None, None => inr (chart etf_name color dates (map snd etf_prices))
  | _, _ =>
      match filter (fun p => within lo hi (fst p))
                   (combine dates (map snd etf_prices)) with
      | [] => inl (ValueError msg_unpack)
      | p :: ps => inr (chart etf_name color (map fst (p :: ps)) (map snd (p :: ps)))
      end
  end.
Proof.
  intros Hdates Hlo Hhi. unfold plot_etf_prices. rewrite Hdates. cbn [rbind].
  rewrite filter_within. unfold bound in Hlo, Hhi.
  set (all := combine dates (map snd etf_prices)).
  destruct (truthy start).
  - destruct (strptime_date strptime (arg start)) as [x|s]; cbn [rbind] in Hlo |- *;
      [discriminate|].
    injection Hlo as <-.
    destruct (filter (fun p => fst p >=? s) all) as [|q qs] eqn:Hq.
    + cbn [unzip rbind filter]. destruct hi; reflexivity.
    + cbn [unzip rbind fst snd]. rewrite combine_fst_snd.
      destruct (truthy end_).
      * destruct (strptime_date strptime (arg end_)) as [x|e]; cbn [rbind] in Hhi |- *;
          [discriminate|].
        injection Hhi as <-.
        destruct (filter (fun p => fst p <=? e) (q :: qs)) as [|r rs];
          reflexivity.
      * injection Hhi as <-. cbn [rbind]. rewrite filter_true. reflexivity.
  - injection Hlo as <-. cbn [rbind fst snd]. rewrite filter_true.
    destruct (truthy end_).
    + destruct (strptime_date strptime (arg end_)) as [x|e]; cbn [rbind] in Hhi |- *;
        [discriminate|].
      injection Hhi as <-. fold all.
      destruct (filter (fun p => fst p <=? e) all) as [|r rs]; reflexivity.
    + injection Hhi as <-. reflexivity.
Qed.

(** What [plot_etf_prices] draws, for date keys and bounds that parse: with
    no bound, every point of the dictionary in its order; with a bound, the
    points whose date is within the bounds given (both inclusive, compared
    as they are, no snapping and no range check), in the order of the
    dictionary, unsorted; and when a bound is given and no point is within,
    a [ValueError] from unpacking the empty selection, nothing drawn. *)
Theorem plot_etf_prices_points (etf_prices : dict scalar) (etf_name color : string)
    (start end_ : option string) (dates : list Z) (lo hi : option Z) :
  strptime_all strptime (keys etf_prices) = inr dates ->
  bound strptime start = inr lo ->
  bound strptime end_ = inr hi ->
  let points := filter (fun p => within lo hi (fst p))
                       (combine dates (map snd etf_prices)) in
  (lo = None /\ hi = None ->
   points = combine dates (map snd etf_prices) /\
   plot_etf_prices strptime etf_prices etf_name color start end_ =
   inr (chart etf_name color dates (map snd etf_prices))) /\
  (lo <> None \/ hi <> None -> points = [] ->
   plot_etf_prices strptime etf_prices etf_name color start end_ =
   inl (ValueError msg_unpack)) /\
  (points <> [] ->
   plot_etf_prices strptime etf_prices etf_name color start end_ =
   inr (chart etf_name color (map fst points) (map snd points))).
Proof.
  intros Hdates Hlo Hhi points.
  rewrite (plot_etf_prices_selection etf_prices etf_name color start end_
             dates lo hi Hdates Hlo Hhi).
  fold points.
  assert (Hlen : length dates = length (map snd etf_prices)).
  { rewrite (strptime_all_length _ _ Hdates). unfold keys. rewrite !length_map.
    reflexivity. }
  assert (Hall : lo = None -> hi = None ->
                 points = combine dates (map snd etf_prices)).
  { intros -> ->. unfold points, within. cbn [andb]. apply filter_true. }
  split; [|split].
  - intros [Hl Hh]. split; [auto|]. rewrite Hl, Hh. reflexivity.
  - intros Hb Hp. rewrite Hp.
    destruct lo, hi; try reflexivity. destruct Hb as [Hb|Hb]; congruence.
  - intros Hp. destruct lo as [s|], hi as [e|];
      try (destruct points as [|q qs]; [congruence|reflexivity]).
    rewrite (Hall eq_refl eq_refl), (map_fst_combine _ _ Hlen),
      (map_snd_combine _ _ Hlen).
    reflexivity.
Qed.

(** [plotter] opens the price file of the ticker and no other file, the
    weights file never; a missing or malformed file raises before anything
    is drawn; otherwise it draws the prices of the file under the name
    "SP500" followed by the ticker, the points being those within the
    bounds given, in the order of the file. *)
Theorem plotter_cases (ticker color : string) (start end_ : option string) :
  let path := ("./data/" ++ ticker ++ "/SP500" ++ ticker ++ "ETFPrices.json")%string in
  fst (plotter strptime ticker color start end_) = [path] /\
  (read_prices path = inl NoSuchFile ->
   snd (plotter strptime ticker color start end_) = inl FileNotFoundError) /\
  (read_prices path = inl NotJSON ->
   snd (plotter strptime ticker color start end_) = inl JSONDecodeError) /\
  (forall P dates lo hi,
     read_prices path = inr P ->
     strptime_all strptime (keys (dict_of_pairs P)) = inr dates ->
     bound strptime start = inr lo ->
     bound strptime end_ = inr hi ->
     let points := filter (fun p => within lo hi (fst p))
                          (combine dates (map snd (dict_of_pairs P))) in
     points <> [] ->
     snd (plotter strptime ticker color start end_) =
     inr (chart ("SP500" ++ ticker) color (map fst points) (map snd points))).
Proof.
  intros path. unfold plotter, load_prices, open_json. fold path.
  destruct (read_prices path) as [[|]|P] eqn:HP; cbn [bind ret lift fst snd app].
  - repeat split; try discriminate.
  - repeat split; try discriminate.
  - repeat split; try discriminate.
    intros P' dates lo hi [= <-] Hdates Hlo Hhi Hne.
    rewrite (plot_etf_prices_selection (dict_of_pairs P) ("SP500" ++ ticker) color
               start end_ dates lo hi Hdates Hlo Hhi).
    set (points := filter (fun p => within lo hi (fst p))
                          (combine dates (map snd (dict_of_pairs P)))) in *.
    assert (Hlen : length dates = length (map snd (dict_of_pairs P))).
    { rewrite (strptime_all_length _ _ Hdates). unfold keys. rewrite !length_map.
      reflexivity. }
    destruct lo as [s|], hi as [e|];
      try (destruct points as [|q qs]; [congruence|reflexivity]).
    assert (Hall : points = combine dates (map snd (dict_of_pairs P))).
    { unfold points, within. cbn [andb]. apply filter_true. }
    rewrite Hall, (map_fst_combine _ _ Hlen), (map_snd_combine _ _ Hlen).
    reflexivity.
Qed.

End PlottingFacts.

End Methods.

Arguments Frame scalar : clear implicits.
Arguments rows_between {scalar} s e rs.
Arguments process_etf_data {scalar} to_datetime read_prices read_weights ticker.
Arguments filter_df_by_date {scalar} to_datetime df start end_.
Arguments retrieve_etf_data {scalar} to_datetime read_prices read_weights ticker start end_.
Arguments download {scalar} to_datetime read_prices read_weights ticker start end_.
Arguments history {scalar} to_datetime read_prices read_weights self tickers_ start end_.
Arguments load_then_filterByDate {scalar} to_datetime read_prices read_weights ticker start end_.
Arguments cell {scalar} df d j.
Arguments close_price {scalar} df d.
Arguments AlignedTable {scalar} df.
Arguments wf {scalar} df.
Arguments weight_cell {scalar} weights k c.
Arguments has_weights {scalar} weights k.
Arguments plot_etf_prices {scalar} strptime etf_prices etf_name color start end_.
Arguments plotter {scalar} read_prices strptime ticker color start end_.
Arguments chart {scalar} etf_name color dates values.

Example process_etf_data_value :
  process_etf_data iso_date example_prices example_weights "Value" =
  (["./data/Value/SP500ValueETFPrices.json"; "./data/Value/SP500ValueETFWeights.json"],
   inr value_table).
Proof. reflexivity. Qed.

Example process_etf_data_momentum :
  process_etf_data iso_date example_prices example_weights "Momentum" =
  (["./data/Momentum/SP500MomentumETFPrices.json";
    "./data/Momentum/SP500MomentumETFWeights.json"],
   inr momentum_table).
Proof. reflexivity. Qed.

Example process_etf_data_quality :
  process_etf_data iso_date example_prices example_weights "Quality" =
  (["./data/Quality/SP500QualityETFPrices.json";
    "./data/Quality/SP500QualityETFWeights.json"],
   inr quality_table).
Proof. reflexivity. Qed.

(** The snap rule of the spec: with rows on 2020-01-02 and 2020-01-06 only,
    the range 2020-01-03 to 2020-01-05 is empty and raises nothing. *)
Example filter_df_by_date_gap :
  filter_df_by_date iso_date momentum_table "2020-01-03" "2020-01-05" =
  inr (mkDataFrame ["Close Price"] []).
Proof. reflexivity. Qed.

(** A start after every row gives an empty table through [download], and a
    range error through the two-sided filter. *)
Example download_start_beyond_data :
  download iso_date example_prices example_weights "Value" (Some "2099-01-01") None =
  (["./data/Value/SP500ValueETFPrices.json"; "./data/Value/SP500ValueETFWeights.json"],
   inr (mkDataFrame ["Close Price"; "AAPL"; "MSFT"] [])) /\
  download iso_date example_prices example_weights "Value"
    (Some "2099-01-01") (Some "2099-01-02") =
  (["./data/Value/SP500ValueETFPrices.json"; "./data/Value/SP500ValueETFWeights.json"],
   inl (ValueError msg_range)).
Proof. split; reflexivity. Qed.

(** A ticker asked twice gives two equal columns of its name. *)
Example history_value_twice :
  history iso_date example_prices example_weights (init None) ["Value"; "Value"] None None =
  (["./data/Value/SP500ValueETFPrices.json"; "./data/Value/SP500ValueETFWeights.json";
    "./data/Value/SP500ValueETFPrices.json"; "./data/Value/SP500ValueETFWeights.json"],
   inr (mkDataFrame ["Value"; "Value"]
          [(20210101, [Some 10; Some 10]);
           (20210102, [Some 11; Some 11]);
           (20210103, [Some 12; Some 12])]%Z)).
Proof. reflexivity. Qed.

(** The column union of the spec: rows for 2021-01-01 to 2021-01-04, NaN
    where a ticker has no row. *)
Example history_column_union :
  history iso_date example_prices example_weights (init None) ["Value"; "Quality"] None None =
  (["./data/Value/SP500ValueETFPrices.json"; "./data/Value/SP500ValueETFWeights.json";
    "./data/Quality/SP500QualityETFPrices.json";
    "./data/Quality/SP500QualityETFWeights.json"],
   inr (mkDataFrame ["Value"; "Quality"]
          [(20210101, [Some 10; None]);
           (20210102, [Some 11; Some 20]);
           (20210103, [Some 12; Some 21]);
           (20210104, [None; Some 22])]%Z)).
Proof. reflexivity. Qed.

(** The prices of Value plotted from 2021-01-02 on. *)
Example plotter_value :
  plotter example_prices example_strptime "Value" "red" (Some "2021-01-02") None =
  (["./data/Value/SP500ValueETFPrices.json"],
   inr (chart "SP500Value" "red" [20210102; 20210103]%Z [11; 12]%Z)).
Proof. reflexivity. Qed.

(** Asked from a day after the last price, [plot_etf_prices] has nothing to
    unpack, where [download] returns an empty table. *)
Example plotter_start_beyond_data :
  plotter example_prices example_strptime "Value" "red" (Some "2099-01-01") None =
  (["./data/Value/SP500ValueETFPrices.json"], inl (ValueError msg_unpack)).
Proof. reflexivity. Qed.

(** * Instances of the theorems *)

Local Open Scope list_scope.
Local Open Scope Z_scope.

Ltac in_date_order := apply is_monotonic_increasing_ascending; reflexivity.

(** C1 on the table of Momentum, asked for 2020-01-03 to 2020-01-05: the
    bounds resolve to 2020-01-06 and 2020-01-02 and the result is empty. *)
Lemma filter_df_by_date_resolves_witness :
  iso_date "2020-01-03" = Some 20200103 /\
  iso_date "2020-01-05" = Some 20200105 /\
  ascending (index momentum_table) /\
  20200103 < 20200105 /\
  index_min (index momentum_table) = Some 20200102 /\
  20200102 <= 20200103 /\
  index_max (index momentum_table) = Some 20200106 /\
  20200105 <= 20200106 /\
  exists s' e',
    resolves_start (index momentum_table) 20200103 s' /\
    resolves_end (index momentum_table) 20200105 e' /\
    filter_df_by_date iso_date momentum_table "2020-01-03" "2020-01-05" =
      inr (mkDataFrame (columns momentum_table)
             (rows_between s' e' (rows momentum_table))) /\
    (exists pre post,
        rows momentum_table = pre ++ rows_between s' e' (rows momentum_table) ++ post /\
        Forall (fun r => fst r < s') pre /\
        Forall (fun r => e' < fst r) post) /\
    (e' < s' ->
     filter_df_by_date iso_date momentum_table "2020-01-03" "2020-01-05" =
     inr (mkDataFrame (columns momentum_table) [])).
Proof.
  split; [reflexivity|]. split; [reflexivity|]. split; [in_date_order|].
  split; [lia|]. split; [reflexivity|]. split; [lia|].
  split; [reflexivity|]. split; [lia|].
  apply (filter_df_by_date_resolves Z iso_date momentum_table
           "2020-01-03" "2020-01-05" 20200103 20200105 20200102 20200106);
    first [reflexivity | lia | in_date_order].
Defined.


(** C7 on the table of Value between two of its row dates. *)
Lemma filter_df_by_date_idempotent_witness :
  iso_date "2021-01-02" = Some 20210102 /\
  iso_date "2021-01-03" = Some 20210103 /\
  ascending (index value_table) /\
  In 20210102 (index value_table) /\
  In 20210103 (index value_table) /\
  filter_df_by_date iso_date value_table "2021-01-02" "2021-01-03" =
  inr (mkDataFrame ["Close Price"; "AAPL"; "MSFT"]
         [(20210102, [Some 11; None; None]);
          (20210103, [Some 12; Some 55; Some 45])]) /\
  filter_df_by_date iso_date
    (mkDataFrame ["Close Price"; "AAPL"; "MSFT"]
       [(20210102, [Some 11; None; None]);
        (20210103, [Some 12; Some 55; Some 45])])
    "2021-01-02" "2021-01-03" =
  inr (mkDataFrame ["Close Price"; "AAPL"; "MSFT"]
         [(20210102, [Some 11; None; None]);
          (20210103, [Some 12; Some 55; Some 45])]).
Proof.
  split; [reflexivity|]. split; [reflexivity|]. split; [in_date_order|].
  split; [simpl; tauto|]. split; [simpl; tauto|]. split; [reflexivity|].
  apply (filter_df_by_date_idempotent Z iso_date value_table _
           "2021-01-02" "2021-01-03" 20210102 20210103);
    first [reflexivity | in_date_order | simpl; tauto].
Defined.

(** C9 on the table of Momentum, asked for 2020-01-03 to 2020-01-05. *)
Lemma filter_df_by_date_lookups_in_bounds_witness :
  iso_date "2020-01-03" = Some 20200103 /\
  iso_date "2020-01-05" = Some 20200105 /\
  ascending (index momentum_table) /\
  20200103 < 20200105 /\
  index_min (index momentum_table) = Some 20200102 /\
  20200102 <= 20200103 /\
  index_max (index momentum_table) = Some 20200106 /\
  20200105 <= 20200106 /\
  (0 <= searchsorted (index momentum_table) 20200103 left
     < length (index momentum_table))%nat /\
  0 <= Z.of_nat (searchsorted (index momentum_table) 20200105 right) - 1
    < Z.of_nat (length (index momentum_table)) /\
  (exists s', getitem (index momentum_table)
                (Z.of_nat (searchsorted (index momentum_table) 20200103 left)) = inr s') /\
  (exists e', getitem (index momentum_table)
                (Z.of_nat (searchsorted (index momentum_table) 20200105 right) - 1)
              = inr e') /\
  (exists r, filter_df_by_date iso_date momentum_table "2020-01-03" "2020-01-05" = inr r).
Proof.
  split; [reflexivity|]. split; [reflexivity|]. split; [in_date_order|].
  split; [lia|]. split; [reflexivity|]. split; [lia|].
  split; [reflexivity|]. split; [lia|].
  apply (filter_df_by_date_lookups_in_bounds Z iso_date momentum_table
           "2020-01-03" "2020-01-05" 20200103 20200105 20200102 20200106);
    first [reflexivity | lia | in_date_order].
Defined.

(** C1 as stated fails on a table that is not in date order.  The table
    of LowVol has the dates 2020-01-02, 2020-01-06, 2020-01-05.  Asked for
    2020-01-03 to 2020-01-05, inside its span, the smallest row date not
    less than the start and the largest not greater than the end are both
    2020-01-05, and the rows between them are the row of 2020-01-05 alone;
    the binary search resolves the start to 2020-01-06 and the rows from
    there to the row of 2020-01-05 are returned, the first of them after
    the end asked for. *)
Lemma filter_df_by_date_unsorted_table :
  process_etf_data iso_date example_prices example_weights "LowVol" =
    (["./data/LowVol/SP500LowVolETFPrices.json"%string;
      "./data/LowVol/SP500LowVolETFWeights.json"%string],
     inr lowvol_table) /\
  iso_date "2020-01-03" = Some 20200103 /\
  iso_date "2020-01-05" = Some 20200105 /\
  (20200103 <? 20200105) = true /\
  index_min (index lowvol_table) = Some 20200102 /\
  (20200102 <=? 20200103) = true /\
  index_max (index lowvol_table) = Some 20200106 /\
  (20200105 <=? 20200106) = true /\
  resolves_start (index lowvol_table) 20200103 20200105 /\
  resolves_end (index lowvol_table) 20200105 20200105 /\
  rows_between 20200105 20200105 (rows lowvol_table) =
    [(20200105, [None; Some 100])] /\
  filter_df_by_date iso_date lowvol_table "2020-01-03" "2020-01-05" =
    inr (mkDataFrame ["Close Price"; "AAPL"]%string
           [(20200106, [Some 8; None]); (20200105, [None; Some 100])]).
Proof.
  repeat (split; [reflexivity|]).
  split; [|split; [|split; reflexivity]].
  - split; [simpl; tauto|]. split; [lia|].
    intros d Hd Hle. simpl in Hd. lia.
  - split; [simpl; tauto|]. split; [lia|].
    intros d Hd Hle. simpl in Hd. lia.
Qed.

(** C4 as stated fails on a loaded table that is not in date order.  With
    a start only, 2020-01-03, the table of LowVol has two rows dated on or
    after the start, and [download] raises [KeyError]. *)
Lemma download_start_only_unsorted_table :
  process_etf_data iso_date example_prices example_weights "LowVol" =
    (["./data/LowVol/SP500LowVolETFPrices.json"%string;
      "./data/LowVol/SP500LowVolETFWeights.json"%string],
     inr lowvol_table) /\
  iso_date "2020-01-03" = Some 20200103 /\
  filter (fun r => 20200103 <=? fst r) (rows lowvol_table) =
    [(20200106, [Some 8; None]); (20200105, [None; Some 100])] /\
  download iso_date example_prices example_weights "LowVol"
    (Some "2020-01-03"%string) None =
  (["./data/LowVol/SP500LowVolETFPrices.json"%string;
    "./data/LowVol/SP500LowVolETFWeights.json"%string],
   inl KeyError).
Proof. repeat split; reflexivity. Qed.

(** C5 as stated fails when a download is not in date order.  LowVol is in
    the default allow-list; asked for LowVol alone, [history] returns the
    rows in the order of the download, 2020-01-05 after 2020-01-06. *)
Lemma history_not_ascending :
  str_in "LowVol" (tickers (init None)) = true /\
  download iso_date example_prices example_weights "LowVol" None None =
    (["./data/LowVol/SP500LowVolETFPrices.json"%string;
      "./data/LowVol/SP500LowVolETFWeights.json"%string],
     inr lowvol_table) /\
  history iso_date example_prices example_weights (init None) ["LowVol"%string]
    None None =
  (["./data/LowVol/SP500LowVolETFPrices.json"%string;
    "./data/LowVol/SP500LowVolETFWeights.json"%string],
   inr (mkDataFrame ["LowVol"%string]
          [(20200102, [Some 7]); (20200106, [Some 8]); (20200105, [None])])) /\
  is_monotonic_increasing [20200102; 20200106; 20200105] = false.
Proof. repeat split; reflexivity. Qed.

(** C7 as stated fails on a table that is not in date order.  The table of
    MarketCap has the dates 2021-01-02, 2021-01-03, 2021-01-01.  Both
    2021-01-01 and 2021-01-03 are row dates; the slice from the row of the
    first to the row of the second is empty, so the first call returns the
    empty table, and the second call, on that table, raises
    [IndexError]. *)
Lemma filter_df_by_date_not_idempotent :
  process_etf_data iso_date example_prices example_weights "MarketCap" =
    (["./data/MarketCap/SP500MarketCapETFPrices.json"%string;
      "./data/MarketCap/SP500MarketCapETFWeights.json"%string],
     inr marketcap_table) /\
  index marketcap_table = [20210102; 20210103; 20210101] /\
  iso_date "2021-01-01" = Some 20210101 /\
  iso_date "2021-01-03" = Some 20210103 /\
  contains (index marketcap_table) 20210101 = true /\
  contains (index marketcap_table) 20210103 = true /\
  filter_df_by_date iso_date marketcap_table "2021-01-01" "2021-01-03" =
    inr (mkDataFrame ["Close Price"; "AAPL"]%string []) /\
  filter_df_by_date (scalar := Z) iso_date
    (mkDataFrame ["Close Price"; "AAPL"]%string []) "2021-01-01" "2021-01-03" =
    inl IndexError.
Proof. repeat split; reflexivity. Qed.

(** C9 as stated fails on a table that is not in date order.  The files of
    Growth are each in date order and give the table the dates 2020-01-06,
    2020-01-01, 2020-01-02.  For 2020-01-03 to 2020-01-04 the range checks
    pass; the search for the start returns 3, the length of the index, and
    the look-up raises [IndexError]. *)
Lemma filter_df_by_date_lookup_out_of_bounds :
  process_etf_data iso_date example_prices example_weights "Growth" =
    (["./data/Growth/SP500GrowthETFPrices.json"%string;
      "./data/Growth/SP500GrowthETFWeights.json"%string],
     inr growth_table) /\
  index growth_table = [20200106; 20200101; 20200102] /\
  iso_date "2020-01-03" = Some 20200103 /\
  iso_date "2020-01-04" = Some 20200104 /\
  (20200103 <? 20200104) = true /\
  index_min (index growth_table) = Some 20200101 /\
  (20200101 <=? 20200103) = true /\
  index_max (index growth_table) = Some 20200106 /\
  (20200104 <=? 20200106) = true /\
  searchsorted (index growth_table) 20200103 left = 3%nat /\
  length (index growth_table) = 3%nat /\
  getitem (index growth_table) 3 = inl IndexError /\
  filter_df_by_date iso_date growth_table "2020-01-03" "2020-01-04" =
    inl IndexError.
Proof. repeat split; reflexivity. Qed.



(** C5 on a request for Value, Quality and Value again. *)
Lemma history_table_witness :
  (forall t, In t ["Value"; "Quality"; "Value"]%string -> In t (tickers (init None))) /\
  (forall t, In t ["Value"; "Quality"; "Value"]%string ->
             exists opened,
               download iso_date example_prices example_weights t None None =
               (opened, inr (example_download t)) /\
               AlignedTable (example_download t)) /\
  exists opened H,
    history iso_date example_prices example_weights (init None)
      ["Value"; "Quality"; "Value"]%string None None = (opened, inr H) /\
    columns H = ["Value"; "Quality"; "Value"]%string /\
    strictly_ascending (index H) /\
    (forall d, In d (index H) <->
               exists t, In t ["Value"; "Quality"; "Value"]%string /\
                         In d (index (example_download t))) /\
    (forall d j t, nth_error ["Value"; "Quality"; "Value"]%string j = Some t ->
                   In d (index H) ->
                   cell H d j = close_price (example_download t) d) /\
    (forall d j t, nth_error ["Value"; "Quality"; "Value"]%string j = Some t ->
                   In d (index H) ->
                   ~ In d (index (example_download t)) -> cell H d j = None).
Proof.
  assert (Hvalid : forall t, In t ["Value"; "Quality"; "Value"]%string ->
                             In t (tickers (init None))).
  { intros t [<-|[<-|[<-|[]]]]; simpl; tauto. }
  assert (Hdl : forall t, In t ["Value"; "Quality"; "Value"]%string ->
                  exists opened,
                    download iso_date example_prices example_weights t None None =
                    (opened, inr (example_download t)) /\
                    AlignedTable (example_download t)).
  { intros t [<-|[<-|[<-|[]]]]; eexists; (split; [reflexivity|]);
      (split; [repeat constructor|reflexivity]). }
  split; [exact Hvalid|]. split; [exact Hdl|].
  apply (history_table Z iso_date example_prices example_weights (init None)
           ["Value"; "Quality"; "Value"]%string None None example_download Hvalid Hdl).
Defined.

(** The empty table with one column, asked for two days. *)
Lemma filter_df_by_date_empty_table_witness :
  iso_date "2021-01-02" = Some 20210102 /\
  iso_date "2021-01-03" = Some 20210103 /\
  20210102 < 20210103 /\
  filter_df_by_date (scalar := Z) iso_date (mkDataFrame ["Close Price"%string] [])
    "2021-01-02" "2021-01-03" = inl IndexError.
Proof.
  split; [reflexivity|]. split; [reflexivity|]. split; [lia|].
  apply (filter_df_by_date_empty_table Z iso_date ["Close Price"%string]
           "2021-01-02" "2021-01-03" 20210102 20210103); first [reflexivity | lia].
Defined.

(** Dividend has no file in the example directory. *)
Lemma process_etf_data_missing_prices_witness :
  example_prices ("./data/" ++ "Dividend" ++ "/SP500" ++ "Dividend"
                  ++ "ETFPrices.json")%string = inl NoSuchFile /\
  process_etf_data iso_date example_prices example_weights "Dividend" =
  ([("./data/" ++ "Dividend" ++ "/SP500" ++ "Dividend" ++ "ETFPrices.json")%string],
   inl FileNotFoundError).
Proof.
  split; [reflexivity|].
  apply (process_etf_data_missing_prices Z iso_date example_prices example_weights
           "Dividend"); reflexivity.
Defined.

(** The rows of Value from 2021-01-02 to 2021-01-03 are a run of its rows. *)
Lemma filter_df_by_date_contiguous_witness :
  filter_df_by_date iso_date value_table "2021-01-02" "2021-01-03" =
    inr (mkDataFrame ["Close Price"; "AAPL"; "MSFT"]%string
           [(20210102, [Some 11; None; None]);
            (20210103, [Some 12; Some 55; Some 45])]) /\
  columns (mkDataFrame ["Close Price"; "AAPL"; "MSFT"]%string
             [(20210102, [Some 11; None; None]);
              (20210103, [Some 12; Some 55; Some 45])]) = columns value_table /\
  exists pre post,
    rows value_table =
    pre ++ rows (mkDataFrame ["Close Price"; "AAPL"; "MSFT"]%string
                   [(20210102, [Some 11; None; None]);
                    (20210103, [Some 12; Some 55; Some 45])]) ++ post.
Proof.
  split; [reflexivity|].
  apply (filter_df_by_date_contiguous Z iso_date value_table _
           "2021-01-02" "2021-01-03").
  reflexivity.
Defined.

(** Value downloaded from 2021-01-02 on. *)
Lemma download_contiguous_witness :
  download iso_date example_prices example_weights "Value" (Some "2021-01-02"%string) None =
    (["./data/Value/SP500ValueETFPrices.json"%string;
      "./data/Value/SP500ValueETFWeights.json"%string],
     inr (mkDataFrame ["Close Price"; "AAPL"; "MSFT"]%string
            [(20210102, [Some 11; None; None]);
             (20210103, [Some 12; Some 55; Some 45])])) /\
  exists df,
    process_etf_data iso_date example_prices example_weights "Value" =
      (["./data/Value/SP500ValueETFPrices.json"%string;
        "./data/Value/SP500ValueETFWeights.json"%string], inr df) /\
    columns (mkDataFrame ["Close Price"; "AAPL"; "MSFT"]%string
               [(20210102, [Some 11; None; None]);
                (20210103, [Some 12; Some 55; Some 45])]) = columns df /\
    exists pre post,
      rows df =
      pre ++ rows (mkDataFrame ["Close Price"; "AAPL"; "MSFT"]%string
                     [(20210102, [Some 11; None; None]);
                      (20210103, [Some 12; Some 55; Some 45])]) ++ post.
Proof.
  split; [reflexivity|].
  apply (download_contiguous Z iso_date example_prices example_weights "Value"
           (Some "2021-01-02"%string) None).
  reflexivity.
Defined.

(** The table of Momentum asked for 2020-01-03 to 2020-01-05, between its
    two rows: no row is dated in the range. *)
Lemma filter_df_by_date_plain_witness :
  iso_date "2020-01-03" = Some 20200103 /\
  iso_date "2020-01-05" = Some 20200105 /\
  ascending (index momentum_table) /\
  20200103 < 20200105 /\
  index_min (index momentum_table) = Some 20200102 /\
  20200102 <= 20200103 /\
  index_max (index momentum_table) = Some 20200106 /\
  20200105 <= 20200106 /\
  filter_df_by_date iso_date momentum_table "2020-01-03" "2020-01-05" =
  inr (mkDataFrame (columns momentum_table)
         (rows_between 20200103 20200105 (rows momentum_table))).
Proof.
  split; [reflexivity|]. split; [reflexivity|]. split; [in_date_order|].
  split; [lia|]. split; [reflexivity|]. split; [lia|].
  split; [reflexivity|]. split; [lia|].
  apply (filter_df_by_date_plain Z iso_date momentum_table
           "2020-01-03" "2020-01-05" 20200103 20200105 20200102 20200106);
    first [reflexivity | lia | in_date_order].
Defined.

(** The table of LowVol has the dates 2020-01-02, 2020-01-06, 2020-01-05:
    asked from 2020-01-03 on, [download] raises [KeyError]. *)
Lemma download_start_only_KeyError_witness :
  truthy (Some "2020-01-03"%string) = true /\
  truthy None = false /\
  process_etf_data iso_date example_prices example_weights "LowVol" =
    (["./data/LowVol/SP500LowVolETFPrices.json"%string;
      "./data/LowVol/SP500LowVolETFWeights.json"%string],
     inr lowvol_table) /\
  iso_date "2020-01-03" = Some 20200103 /\
  is_monotonic_increasing (index lowvol_table) = false /\
  is_monotonic_decreasing (index lowvol_table) = false /\
  contains (index lowvol_table) 20200103 = false /\
  download iso_date example_prices example_weights "LowVol"
    (Some "2020-01-03"%string) None =
  (["./data/LowVol/SP500LowVolETFPrices.json"%string;
    "./data/LowVol/SP500LowVolETFWeights.json"%string],
   inl KeyError).
Proof.
  repeat (split; [reflexivity|]).
  apply (download_start_only_KeyError Z iso_date example_prices example_weights
           "LowVol" "2020-01-03" None _ lowvol_table 20200103); reflexivity.
Defined.

(** The files of Value: every key parses and the load succeeds. *)
Lemma process_etf_data_date_keys_witness :
  example_prices ("./data/" ++ "Value" ++ "/SP500" ++ "Value" ++ "ETFPrices.json")%string
    = inr [("2021-01-01"%string, 10); ("2021-01-02"%string, 11);
           ("2021-01-03"%string, 12)] /\
  example_weights ("./data/" ++ "Value" ++ "/SP500" ++ "Value" ++ "ETFWeights.json")%string
    = inr [("2021-01-01"%string, [("AAPL"%string, 60); ("MSFT"%string, 40)]);
           ("2021-01-03"%string, [("AAPL"%string, 55); ("MSFT"%string, 45)])] /\
  let prices :=
    dict_of_pairs [("2021-01-01"%string, 10); ("2021-01-02"%string, 11);
                   ("2021-01-03"%string, 12)] in
  let weights :=
    dict_of_pairs
      (map (fun m => (fst m, dict_of_pairs (snd m)))
         [("2021-01-01"%string, [("AAPL"%string, 60); ("MSFT"%string, 40)]);
          ("2021-01-03"%string, [("AAPL"%string, 55); ("MSFT"%string, 45)])]) in
  (forall k, In k (keys prices) \/ has_weights weights k ->
             iso_date k = None ->
             snd (process_etf_data iso_date example_prices example_weights "Value")
             = inl DateParseError) /\
  (forall x, snd (process_etf_data iso_date example_prices example_weights "Value")
             = inl x ->
             x = DateParseError /\
             exists k, (In k (keys prices) \/ In k (keys weights)) /\
                       iso_date k = None) /\
  ((forall k, In k (keys prices) \/ In k (keys weights) -> iso_date k <> None) ->
   exists df, snd (process_etf_data iso_date example_prices example_weights "Value")
              = inr df).
Proof.
  split; [reflexivity|]. split; [reflexivity|].
  apply (process_etf_data_date_keys Z iso_date example_prices example_weights "Value");
    reflexivity.
Defined.




(** The table of Value: the constituents are AAPL and MSFT. *)
Lemma process_etf_data_one_close_price_witness :
  example_prices ("./data/" ++ "Value" ++ "/SP500" ++ "Value" ++ "ETFPrices.json")%string
    = inr [("2021-01-01"%string, 10); ("2021-01-02"%string, 11);
           ("2021-01-03"%string, 12)] /\
  example_weights ("./data/" ++ "Value" ++ "/SP500" ++ "Value" ++ "ETFWeights.json")%string
    = inr [("2021-01-01"%string, [("AAPL"%string, 60); ("MSFT"%string, 40)]);
           ("2021-01-03"%string, [("AAPL"%string, 55); ("MSFT"%string, 45)])] /\
  process_etf_data iso_date example_prices example_weights "Value" =
    (["./data/Value/SP500ValueETFPrices.json"%string;
      "./data/Value/SP500ValueETFWeights.json"%string],
     inr value_table) /\
  hd_error (columns value_table) = Some "Close Price"%string /\
  (filter (String.eqb "Close Price") (columns value_table) = ["Close Price"%string] <->
   ~ exists k constituents,
       In (k, constituents)
          (dict_of_pairs
             (map (fun m => (fst m, dict_of_pairs (snd m)))
                [("2021-01-01"%string, [("AAPL"%string, 60); ("MSFT"%string, 40)]);
                 ("2021-01-03"%string, [("AAPL"%string, 55); ("MSFT"%string, 45)])])) /\
       In "Close Price"%string (keys constituents)).
Proof.
  split; [reflexivity|]. split; [reflexivity|]. split; [reflexivity|].
  apply (process_etf_data_one_close_price Z iso_date example_prices example_weights
           "Value"
           [("2021-01-01"%string, 10); ("2021-01-02"%string, 11);
            ("2021-01-03"%string, 12)]
           [("2021-01-01"%string, [("AAPL"%string, 60); ("MSFT"%string, 40)]);
            ("2021-01-03"%string, [("AAPL"%string, 55); ("MSFT"%string, 45)])]
           ["./data/Value/SP500ValueETFPrices.json"%string;
            "./data/Value/SP500ValueETFWeights.json"%string]
           value_table); reflexivity.
Defined.

(** LowVol alone: the rows stay in the order of the download, 2020-01-05
    after 2020-01-06. *)
Lemma history_single_witness :
  In "LowVol"%string (tickers (init None)) /\
  download iso_date example_prices example_weights "LowVol" None None =
    (["./data/LowVol/SP500LowVolETFPrices.json"%string;
      "./data/LowVol/SP500LowVolETFWeights.json"%string],
     inr lowvol_table) /\
  history iso_date example_prices example_weights (init None) ["LowVol"%string] None None =
  (["./data/LowVol/SP500LowVolETFPrices.json"%string;
    "./data/LowVol/SP500LowVolETFWeights.json"%string],
   inr (mkDataFrame
          (map (fun _ => "LowVol"%string)
               (filter (String.eqb "Close Price") (columns lowvol_table)))
          (map (fun r => (fst r, select_cells (columns lowvol_table) "Close Price" (snd r)))
               (rows lowvol_table)))).
Proof.
  split; [simpl; tauto|]. split; [reflexivity|].
  apply (history_single Z iso_date example_prices example_weights (init None)
           "LowVol" None None _ lowvol_table); [simpl; tauto|reflexivity].
Defined.

(** Value, then Dividend, which has no file, then Quality: the files of
    Quality are not opened. *)
Lemma history_first_failure_witness :
  (forall u, In u (["Value"%string] ++ "Dividend"%string :: ["Quality"%string]) ->
             In u (tickers (init None))) /\
  (forall u, In u ["Value"%string] ->
             exists op,
               download iso_date example_prices example_weights u None None =
               (op, inr (example_download u)) /\
               AlignedTable (example_download u)) /\
  download iso_date example_prices example_weights "Dividend" None None =
    (["./data/Dividend/SP500DividendETFPrices.json"%string], inl FileNotFoundError) /\
  history iso_date example_prices example_weights (init None)
    (["Value"%string] ++ "Dividend"%string :: ["Quality"%string]) None None =
  (flat_map (fun u => fst (download iso_date example_prices example_weights u None None))
            ["Value"%string]
   ++ ["./data/Dividend/SP500DividendETFPrices.json"%string],
   inl FileNotFoundError).
Proof.
  assert (Hvalid : forall u, In u (["Value"%string] ++ "Dividend"%string :: ["Quality"%string]) ->
                             In u (tickers (init None))).
  { intros u [<-|[<-|[<-|[]]]]; simpl; tauto. }
  assert (Hdl : forall u, In u ["Value"%string] ->
                  exists op,
                    download iso_date example_prices example_weights u None None =
                    (op, inr (example_download u)) /\
                    AlignedTable (example_download u)).
  { intros u [<-|[]]. eexists. split; [reflexivity|].
    split; [repeat constructor|reflexivity]. }
  split; [exact Hvalid|]. split; [exact Hdl|]. split; [reflexivity|].
  apply (history_first_failure Z iso_date example_prices example_weights (init None)
           ["Value"%string] ["Quality"%string] "Dividend" None None example_download
           _ FileNotFoundError Hvalid Hdl).
  reflexivity.
Defined.

(** A request for Value on the empty allow-list. *)
Lemma history_empty_allow_list_witness :
  history iso_date example_prices example_weights (init (Some [])) ["Value"%string]
    None None =
  ([], inl (ValueError (msg_invalid ++ join ", " ["Value"%string]))).
Proof.
  apply (history_empty_allow_list Z iso_date example_prices example_weights
           ["Value"%string] None None).
  discriminate.
Defined.

(** Three prices plotted from 2021-01-02 on. *)
Lemma plot_etf_prices_points_witness :
  strptime_all example_strptime
    (keys (dict_of_pairs [("2021-01-01"%string, 10); ("2021-01-02"%string, 11);
                          ("2021-01-03"%string, 12)]))
    = inr [20210101; 20210102; 20210103] /\
  bound example_strptime (Some "2021-01-02"%string) = inr (Some 20210102) /\
  bound example_strptime None = inr None /\
  let etf_prices :=
    dict_of_pairs [("2021-01-01"%string, 10); ("2021-01-02"%string, 11);
                   ("2021-01-03"%string, 12)] in
  let points :=
    filter (fun p => within (Some 20210102) None (fst p))
           (combine [20210101; 20210102; 20210103] (map snd etf_prices)) in
  (Some 20210102 = None /\ @None Z = None ->
   points = combine [20210101; 20210102; 20210103] (map snd etf_prices) /\
   plot_etf_prices example_strptime etf_prices "SP500Value" "red"
     (Some "2021-01-02"%string) None =
   inr (chart "SP500Value" "red" [20210101; 20210102; 20210103] (map snd etf_prices))) /\
  (Some 20210102 <> None \/ @None Z <> None -> points = [] ->
   plot_etf_prices example_strptime etf_prices "SP500Value" "red"
     (Some "2021-01-02"%string) None =
   inl (ValueError msg_unpack)) /\
  (points <> [] ->
   plot_etf_prices example_strptime etf_prices "SP500Value" "red"
     (Some "2021-01-02"%string) None =
   inr (chart "SP500Value" "red" (map fst points) (map snd points))).
Proof.
  split; [reflexivity|]. split; [reflexivity|]. split; [reflexivity|].
  apply (plot_etf_prices_points Z example_strptime
           (dict_of_pairs [("2021-01-01"%string, 10); ("2021-01-02"%string, 11);
                           ("2021-01-03"%string, 12)])
           "SP500Value" "red" (Some "2021-01-02"%string) None
           [20210101; 20210102; 20210103] (Some 20210102) None); reflexivity.
Defined.

(** The table of LowVol is not in date order: asked for 2020-01-03 to
    2020-01-05, [retrieve_etf_data] snaps the start to 2020-01-06 and returns
    the rows from there to the row of 2020-01-05, the first of them outside
    the range asked for. *)
Theorem retrieve_etf_data_unsorted_table :
  retrieve_etf_data iso_date example_prices example_weights
    "LowVol" "2020-01-03" "2020-01-05" =
  (["./data/LowVol/SP500LowVolETFPrices.json"%string;
    "./data/LowVol/SP500LowVolETFWeights.json"%string],
   inr (mkDataFrame ["Close Price"; "AAPL"]%string
          [(20200106, [Some 8; None]); (20200105, [None; Some 100])])).
Proof. reflexivity. Qed.
